(** * UIDAI data pipeline: discovery, loading, normalisation, aggregation

    A shallow embedding of the data pipeline shared by
    [aadhaar_dashboard.py], [uidai_analysis_code.py] and [temo.py]:
    the recursive file scan, the tolerant CSV loader, the state-name
    normaliser, the digital-ratio tables and the daily-load anomaly rule.

    Modelling choices:
    - Python text is an ASCII string; [str.title], [str.strip],
      [str.endswith] and [in] are written out on it. They are Python's
      methods on text within the ASCII range ([PyStr.is_ascii]); the
      statements about casing carry that range as a hypothesis.
    - A pandas DataFrame is the length of its index and a finite map from
      column names to columns; a column is a dtype and a list of cells.
      Numeric cells carry integer counts; [NaN] is the missing marker of
      float and object columns, [NaT] that of datetime columns.
    - The file system enters as two parameters: the list of triples
      [os.walk] yields, and the outcome of [pd.read_csv] for each path.
    - Python exceptions are values of [result]; the [try]/[except] of the
      loaders is a [match] on them.
    - Floating-point quotients, means and standard deviations are taken
      in exact arithmetic (rationals and reals); a quotient by zero and a
      statistic of too short a series are undefined. *)

From Stdlib Require Import ZArith QArith Qcanon Reals Lra Ascii String List Bool Lia.
From stdpp Require Import base option list gmap strings fin_maps sorting.

Local Open Scope string_scope.

(* ===================================================================== *)
(** ** Python string methods used by the pipeline *)
(* ===================================================================== *)

Module PyStr.

Definition code (c : ascii) : N := N_of_ascii c.

(** [str.isupper] / [str.islower] on one ASCII character. *)
Definition is_upper (c : ascii) : bool :=
  (65 <=? code c)%N && (code c <=? 90)%N.

Definition is_lower (c : ascii) : bool :=
  (97 <=? code c)%N && (code c <=? 122)%N.

Definition to_upper (c : ascii) : ascii :=
  if is_lower c then ascii_of_N (code c - 32) else c.

Definition to_lower (c : ascii) : ascii :=
  if is_upper c then ascii_of_N (code c + 32) else c.

(** The ASCII characters [str.strip()] removes: tab, line feed, vertical
    tab, form feed, carriage return, the four separators 28..31, space. *)
Definition is_space (c : ascii) : bool :=
  ((9 <=? code c)%N && (code c <=? 13)%N)
  || ((28 <=? code c)%N && (code c <=? 32)%N).

Definition is_digit (c : ascii) : bool :=
  (48 <=? code c)%N && (code c <=? 57)%N.

(** [str.title()]: a cased character that follows an uncased one (or
    starts the string) is upper-cased, a cased character that follows a
    cased one is lower-cased, uncased characters are kept. [prev] is
    CPython's [previous_is_cased] flag. *)
Fixpoint title_from (prev : bool) (s : string) : string :=
  match s with
  | EmptyString => EmptyString
  | String c s' =>
      if is_lower c then
        String (if prev then c else to_upper c) (title_from true s')
      else if is_upper c then
        String (if prev then to_lower c else c) (title_from true s')
      else String c (title_from false s')
  end.

Definition title (s : string) : string := title_from false s.

(** [str.lstrip()], [str.rstrip()], [str.strip()] without argument. *)
Fixpoint lstrip (s : string) : string :=
  match s with
  | EmptyString => EmptyString
  | String c s' => if is_space c then lstrip s' else s
  end.

Fixpoint rstrip (s : string) : string :=
  match s with
  | EmptyString => EmptyString
  | String c s' =>
      match rstrip s' with
      | EmptyString => if is_space c then EmptyString else String c EmptyString
      | r => String c r
      end
  end.

Definition strip (s : string) : string := rstrip (lstrip s).

(** [s.startswith(p)], [s.endswith(p)] and [p in s]. *)
Fixpoint startswith (p s : string) : bool :=
  match p, s with
  | EmptyString, _ => true
  | String a p', String b s' => if Ascii.eqb a b then startswith p' s' else false
  | String _ _, EmptyString => false
  end.

Fixpoint contains (p s : string) : bool :=
  startswith p s ||
  match s with
  | EmptyString => false
  | String _ s' => contains p s'
  end.

Fixpoint endswith (p s : string) : bool :=
  String.eqb p s ||
  match s with
  | EmptyString => false
  | String _ s' => endswith p s'
  end.

(** [str.isascii()]: every character lies below 128. This is the range
    on which [title] and [strip] above are [str.title] and [str.strip]. *)
Definition is_ascii_char (c : ascii) : bool := (code c <? 128)%N.

Fixpoint is_ascii (s : string) : bool :=
  match s with
  | EmptyString => true
  | String c s' => is_ascii_char c && is_ascii s'
  end.

End PyStr.


(* ===================================================================== *)
(** ** Exceptions *)
(* ===================================================================== *)

(** The Python exceptions the pipeline can meet. [ReadError] stands for
    whatever [pd.read_csv] raises on an unreadable file. *)
Inductive exn : Type :=
  | ReadError
  | KeyError
  | ValueError
  | AttributeError.

Inductive result (A : Type) : Type :=
  | Ok (a : A)
  | Raise (e : exn).
Arguments Ok {A} a.
Arguments Raise {A} e.

Definition bind {A B : Type} (r : result A) (k : A -> result B) : result B :=
  match r with
  | Ok a => k a
  | Raise e => Raise e
  end.

Notation "x <-- r ; k" := (bind r (fun x => k))
  (at level 100, r at next level, right associativity).

(* ===================================================================== *)
(** ** Dates: [pd.to_datetime(..., format='%d-%m-%Y', errors='coerce')] *)
(* ===================================================================== *)

Record date : Type := mkdate { year : Z; month : Z; day : Z }.

Module Strptime.
Import PyStr.

Definition digit (c : ascii) : option Z :=
  if is_digit c then Some (Z.of_N (code c) - 48)%Z else None.

Definition in_range (lo hi : Z) (c : ascii) : option Z :=
  match digit c with
  | Some d => if ((lo <=? d) && (d <=? hi))%Z then Some d else None
  | None => None
  end.

(** The alternatives of the [%d] directive, in the order the format's
    regular expression tries them:
    [3[0-1] | [1-2]\d | 0[1-9] | [1-9] | " "[1-9]]. *)
Definition day_alternatives (s : string) : list (Z * string) :=
  match s with
  | String a (String b r) =>
      (if Ascii.eqb a "3" then
         match in_range 0 1 b with Some d => [((30 + d)%Z, r)] | None => [] end
       else [])
      ++ match in_range 1 2 a, digit b with
         | Some t, Some d => [((10 * t + d)%Z, r)]
         | _, _ => []
         end
      ++ (if Ascii.eqb a "0" then
            match in_range 1 9 b with Some d => [(d, r)] | None => [] end
          else [])
      ++ match in_range 1 9 a with Some d => [(d, String b r)] | None => [] end
      ++ (if Ascii.eqb a " " then
            match in_range 1 9 b with Some d => [(d, r)] | None => [] end
          else [])
  | String a EmptyString =>
      match in_range 1 9 a with Some d => [(d, EmptyString)] | None => [] end
  | EmptyString => []
  end.

(** [%m]: [1[0-2] | 0[1-9] | [1-9]]. *)
Definition month_alternatives (s : string) : list (Z * string) :=
  match s with
  | String a (String b r) =>
      (if Ascii.eqb a "1" then
         match in_range 0 2 b with Some d => [((10 + d)%Z, r)] | None => [] end
       else [])
      ++ (if Ascii.eqb a "0" then
            match in_range 1 9 b with Some d => [(d, r)] | None => [] end
          else [])
      ++ match in_range 1 9 a with Some d => [(d, String b r)] | None => [] end
  | String a EmptyString =>
      match in_range 1 9 a with Some d => [(d, EmptyString)] | None => [] end
  | EmptyString => []
  end.

(** [%Y]: exactly four digits, and nothing may remain after them. *)
Definition year_exact (s : string) : option Z :=
  match s with
  | String a (String b (String c (String d EmptyString))) =>
      match digit a, digit b, digit c, digit d with
      | Some x, Some y, Some z, Some w => Some (1000 * x + 100 * y + 10 * z + w)%Z
      | _, _, _, _ => None
      end
  | _ => None
  end.

Definition dash (s : string) : option string :=
  match s with
  | String c r => if Ascii.eqb c "-" then Some r else None
  | EmptyString => None
  end.

Fixpoint first_match {A B : Type} (f : A -> option B) (l : list A) : option B :=
  match l with
  | [] => None
  | x :: l' => match f x with Some y => Some y | None => first_match f l' end
  end.

(** The three captured fields of the first full match, if any. *)
Definition fields (s : string) : option (Z * Z * Z) :=
  first_match
    (fun '(d, r1) =>
       match dash r1 with
       | Some r2 =>
           first_match
             (fun '(m, r3) =>
                match dash r3 with
                | Some r4 =>
                    match year_exact r4 with
                    | Some y => Some (d, m, y)
                    | None => None
                    end
                | None => None
                end)
             (month_alternatives r2)
       | None => None
       end)
    (day_alternatives s).

Definition is_leap (y : Z) : bool :=
  ((y mod 4 =? 0) && (negb (y mod 100 =? 0) || (y mod 400 =? 0)))%Z.

Definition days_in_month (y m : Z) : Z :=
  if (m =? 2)%Z then (if is_leap y then 29 else 28)%Z
  else if ((m =? 4) || (m =? 6) || (m =? 9) || (m =? 11))%Z then 30%Z
  else 31%Z.

(** A matched text is a date only if the calendar has that day. The
    bounds of the timestamp representation are not modelled. *)
Definition strptime_dmy (s : string) : option date :=
  match fields s with
  | Some (d, m, y) =>
      if ((1 <=? y) && (d <=? days_in_month y m))%Z
      then Some (mkdate y m d) else None
  | None => None
  end.

End Strptime.

(* ===================================================================== *)
(** ** Frames *)
(* ===================================================================== *)

Inductive cell : Type :=
  | NaN
  | NaT
  | Str (s : string)
  | Num (z : Z)
  | Date (d : date).

Inductive dtype : Type := Int64 | Float64 | Object | Datetime64.

Record Series : Type := mkSeries { s_dtype : dtype; s_values : list cell }.

(** A frame: the length of its index and its columns by name. *)
Record DataFrame : Type := mkFrame { nrows : nat; cols : gmap string Series }.

Module Pd.

(** [pd.DataFrame()] *)
Definition empty_frame : DataFrame := mkFrame 0 ∅.

(** [df.empty]: no rows or no columns. *)
Definition is_empty (df : DataFrame) : bool :=
  (nrows df =? 0)%nat || bool_decide (cols df = ∅).

(** ['c' in df.columns] *)
Definition has_column (c : string) (df : DataFrame) : bool :=
  bool_decide (is_Some (cols df !! c)).

(** [df[c]] *)
Definition getitem (df : DataFrame) (c : string) : result Series :=
  match cols df !! c with
  | Some s => Ok s
  | None => Raise KeyError
  end.

(** [df[c] = s] *)
Definition setitem (df : DataFrame) (c : string) (s : Series) : DataFrame :=
  mkFrame (nrows df) (<[c := s]> (cols df)).

(** [pd.isna] on one cell. *)
Definition isna (c : cell) : bool :=
  match c with
  | NaN | NaT => true
  | _ => false
  end.

Definition is_numeric (d : dtype) : bool :=
  match d with
  | Int64 | Float64 => true
  | _ => false
  end.

(** One cell under [errors='coerce']: text that is not a date in the
    fixed pattern, and anything that is not text or a date, becomes NaT. *)
Definition coerce_date (c : cell) : cell :=
  match c with
  | Str s =>
      match Strptime.strptime_dmy s with
      | Some d => Date d
      | None => NaT
      end
  | Date d => Date d
  | _ => NaT
  end.

Definition to_datetime (s : Series) : Series :=
  mkSeries Datetime64 (map coerce_date (s_values s)).

(** [dict.get] on a literal dictionary. *)
Fixpoint dict_get (m : list (string * string)) (k : string) : option string :=
  match m with
  | [] => None
  | (k', v) :: m' => if String.eqb k' k then Some v else dict_get m' k
  end.

(** [Series.replace(mapping)]: whole-value replacement of exact keys. *)
Definition replace_cell (m : list (string * string)) (c : cell) : cell :=
  match c with
  | Str s => match dict_get m s with Some v => Str v | None => c end
  | _ => c
  end.

Definition replace (m : list (string * string)) (s : Series) : Series :=
  mkSeries (s_dtype s) (map (replace_cell m) (s_values s)).

(** The [.str] accessor exists on object columns only; an element that
    is not text yields NaN. *)
Definition str_apply (f : string -> string) (c : cell) : cell :=
  match c with
  | Str s => Str (f s)
  | _ => NaN
  end.

Definition str_method (f : string -> string) (s : Series) : result Series :=
  match s_dtype s with
  | Object => Ok (mkSeries Object (map (str_apply f) (s_values s)))
  | _ => Raise AttributeError
  end.

Definition str_strip : Series -> result Series := str_method PyStr.strip.
Definition str_title : Series -> result Series := str_method PyStr.title.

(** [Series.fillna(0)] *)
Definition fill_cell (c : cell) : cell := if isna c then Num 0 else c.

Definition fillna0 (s : Series) : Series :=
  mkSeries (s_dtype s) (map fill_cell (s_values s)).

(** [num_cols = df.select_dtypes(include=['number']).columns;
     df[num_cols] = df[num_cols].fillna(0)] *)
Definition fill_numeric (df : DataFrame) : DataFrame :=
  mkFrame (nrows df)
    ((fun s => if is_numeric (s_dtype s) then fillna0 s else s) <$> cols df).

End Pd.


(* ===================================================================== *)
(** ** [pd.concat(dfs, ignore_index=True)] *)
(* ===================================================================== *)

Module Concat.
Import Pd.

Definition same_dtype (a b : dtype) : bool :=
  match a, b with
  | Int64, Int64 | Float64, Float64 | Object, Object | Datetime64, Datetime64 => true
  | _, _ => false
  end.

(** The dtypes a column has in the frames that carry it. *)
Definition column_dtypes (c : string) (dfs : list DataFrame) : list dtype :=
  omap (fun df => s_dtype <$> cols df !! c) dfs.

(** Is the column absent from some frame (whose rows then get padded)? *)
Definition padded (c : string) (dfs : list DataFrame) : bool :=
  existsb (fun df => negb (has_column c df)) dfs.

Definition common_dtype (ds : list dtype) (pad : bool) : dtype :=
  match ds with
  | [] => Object
  | d :: ds' =>
      let d0 := if forallb (same_dtype d) ds' then d
                else if forallb is_numeric ds then Float64
                else Object in
      match d0 with
      | Int64 => if pad then Float64 else Int64
      | _ => d0
      end
  end.

Definition pad_cell (d : dtype) : cell :=
  match d with
  | Datetime64 => NaT
  | _ => NaN
  end.

(** The cells one frame contributes to column [c] of the result. *)
Definition piece (d : dtype) (c : string) (df : DataFrame) : list cell :=
  match cols df !! c with
  | Some s => s_values s
  | None => replicate (nrows df) (pad_cell d)
  end.

Definition concat_column (c : string) (dfs : list DataFrame) : Series :=
  let d := common_dtype (column_dtypes c dfs) (padded c dfs) in
  mkSeries d (mjoin (piece d c <$> dfs)).

Definition all_columns (dfs : list DataFrame) : gset string :=
  ⋃ ((fun df => dom (cols df)) <$> dfs).

Definition total_rows (dfs : list DataFrame) : nat :=
  foldr (fun df n => (nrows df + n)%nat) 0%nat dfs.

(** Frames are stacked in list order; the index is renumbered from 0.
    An empty list raises ("No objects to concatenate"). *)
Definition stack (dfs : list DataFrame) : DataFrame :=
  mkFrame (total_rows dfs)
    (map_imap (fun c (_ : unit) => Some (concat_column c dfs))
       (gset_to_gmap tt (all_columns dfs))).

Definition concat (dfs : list DataFrame) : result DataFrame :=
  match dfs with
  | [] => Raise ValueError
  | _ :: _ => Ok (stack dfs)
  end.

(** Every column of the frame is as long as its index. *)
Definition well_formed (df : DataFrame) : bool :=
  forallb (fun p => (length (s_values p.2) =? nrows df)%nat) (map_to_list (cols df)).

(** The index at which the rows of the [i]-th frame start in the stack. *)
Definition offset (i : nat) (dfs : list DataFrame) : nat := total_rows (take i dfs).

End Concat.

(* ===================================================================== *)
(** ** File discovery ([load_data_recursive], step 1) *)
(* ===================================================================== *)

Inductive category : Type := Enrol | Bio | Demo.

(** A dictionary with the three fixed keys ["enrol"], ["bio"], ["demo"]. *)
Record store (A : Type) : Type := mkStore { enrol : A; bio : A; demo : A }.
Arguments mkStore {A} _ _ _.
Arguments enrol {A} _.
Arguments bio {A} _.
Arguments demo {A} _.

Global Instance category_eq_dec : EqDecision category.
Proof. solve_decision. Defined.

Definition store_get {A : Type} (k : category) (st : store A) : A :=
  match k with
  | Enrol => enrol st
  | Bio => bio st
  | Demo => demo st
  end.

Module Discovery.
Import PyStr.

Definition kw_enrolment : string := "api_data_aadhar_enrolment".
Definition kw_biometric : string := "api_data_aadhar_biometric".
Definition kw_demographic : string := "api_data_aadhar_demographic".

(** [os.path.join(root, file)] on a POSIX system. *)
Definition path_join (root file : string) : string :=
  if startswith "/" file then file
  else if String.eqb root "" || endswith "/" root then root ++ file
  else root ++ "/" ++ file.

(** [data_store[k].append(path)] *)
Definition append_path (k : category) (path : string) (st : store (list string))
  : store (list string) :=
  match k with
  | Enrol => mkStore (enrol st ++ [path])%list (bio st) (demo st)
  | Bio => mkStore (enrol st) (bio st ++ [path])%list (demo st)
  | Demo => mkStore (enrol st) (bio st) (demo st ++ [path])%list
  end.

(** The body of the inner loop for one file name. *)
Definition visit_file (root : string) (st : store (list string)) (file : string)
  : store (list string) :=
  if negb (endswith ".csv" file) then st
  else
    let file_path := path_join root file in
    if contains kw_enrolment file then append_path Enrol file_path st
    else if contains kw_biometric file then append_path Bio file_path st
    else if contains kw_demographic file then append_path Demo file_path st
    else st.

(** One triple [(root, dirs, files)] yielded by [os.walk]. *)
Definition walk_entry : Type := string * list string * list string.

Definition visit_dir (st : store (list string)) (e : walk_entry) : store (list string) :=
  let '(root, _, files) := e in fold_left (visit_file root) files st.

Definition empty_store : store (list string) := mkStore [] [] [].

(** The category the [if]/[elif] chain picks for a file name, if any. *)
Definition classify (file : string) : option category :=
  if negb (endswith ".csv" file) then None
  else if contains kw_enrolment file then Some Enrol
  else if contains kw_biometric file then Some Bio
  else if contains kw_demographic file then Some Demo
  else None.

(** The files of a walk with their directories, in visiting order, and
    their joined paths. *)
Definition walk_files (walk : list walk_entry) : list (string * string) :=
  flat_map (fun e : walk_entry => let '(root, _, files) := e in map (pair root) files) walk.

(** The loop body on one (directory, file name) pair. *)
Definition visit_pair (st : store (list string)) (rf : string * string)
  : store (list string) :=
  visit_file rf.1 st rf.2.

Definition walk_paths (walk : list walk_entry) : list string :=
  map (fun rf => path_join rf.1 rf.2) (walk_files walk).

Definition scan (walk : list walk_entry) : store (list string) :=
  fold_left visit_dir walk empty_store.

(** What a directory walk looks like: every directory is yielded once,
    under a non-empty path that does not end in a separator, and lists
    each of its files once, under a name without separator. *)
Record listing (walk : list walk_entry) : Prop := mkListing {
  roots_once : NoDup (map (fun e : walk_entry => e.1.1) walk);
  files_once : forall e, e ∈ walk -> NoDup e.2;
  roots_plain : forall e, e ∈ walk -> e.1.1 <> "" /\ endswith "/" e.1.1 = false;
  names_plain : forall e f, e ∈ walk -> f ∈ e.2 -> contains "/" f = false
}.

End Discovery.

(* ===================================================================== *)
(** ** Loader ([load_data_recursive], step 2; [load_files]) *)
(* ===================================================================== *)

Module Loader.
Import Pd.

Section WithFiles.
(** What [pd.read_csv] gives for each path: a frame or an exception. *)
Variable read_csv : string -> result DataFrame.

(** The body of the [try] block. *)
Definition try_load (p : string) : result DataFrame :=
  df <-- read_csv p;
  col <-- getitem df "date";
  Ok (setitem df "date" (to_datetime col)).

(** [for p in paths: try: ...; dfs.append(df) except: continue] *)
Definition load_step (dfs : list DataFrame) (p : string) : list DataFrame :=
  match try_load p with
  | Ok df => (dfs ++ [df])%list
  | Raise _ => dfs
  end.

Definition load_loop (paths : list string) : list DataFrame :=
  fold_left load_step paths [].

(** The frames of the files whose [try] block ran to its end, in the
    order of the paths. *)
Definition loaded (paths : list string) : list DataFrame :=
  omap (fun p => match try_load p with
                 | Ok df => Some df
                 | Raise _ => None
                 end) paths.

(** What the caller gets for a list of loaded frames: their stack, or
    [pd.DataFrame()] when there is none. *)
Definition frame_of (dfs : list DataFrame) : DataFrame :=
  match dfs with
  | [] => empty_frame
  | _ :: _ => Concat.stack dfs
  end.

(** One iteration of [for key, paths in data_store.items()]; returns
    [final_dfs[key]] and [file_log[key]]. *)
Definition load_key (paths : list string) : result (DataFrame * nat) :=
  match paths with
  | [] => Ok (empty_frame, 0%nat)
  | _ :: _ =>
      let dfs := load_loop paths in
      match dfs with
      | _ :: _ => df <-- Concat.concat dfs; Ok (df, length dfs)
      | [] => Ok (empty_frame, 0%nat)
      end
  end.

(** [load_files] of [uidai_analysis_code.py], applied to the files its
    glob pattern matched. *)
Definition load_files (files : list string) : result DataFrame :=
  let dfs := load_loop files in
  match dfs with
  | _ :: _ => Concat.concat dfs
  | [] => Ok empty_frame
  end.

End WithFiles.

End Loader.

(** The loader's result in the words of the specification: "the
    successfully read files", without the [try] block. *)
Module LoadSpec.
Import Pd.

(** The frames [pd.read_csv] returned for the paths it could read, in
    the order of the paths. *)
Definition successfully_read (read_csv : string -> result DataFrame)
    (paths : list string) : list DataFrame :=
  omap (fun p => match read_csv p with
                 | Ok raw => Some raw
                 | Raise _ => None
                 end) paths.

(** Of those, the frames that carry a date column, on which line 84
    can run: "the successfully loaded files". *)
Definition successfully_loaded (read_csv : string -> result DataFrame)
    (paths : list string) : list DataFrame :=
  filter (fun raw => is_Some (cols raw !! "date")) (successfully_read read_csv paths).

(** A frame as read, with its date column parsed (line 84). *)
Definition with_dates (raw : DataFrame) : DataFrame :=
  match cols raw !! "date" with
  | Some col => setitem raw "date" (to_datetime col)
  | None => raw
  end.

(** The cell of column [c] after the dates were parsed. *)
Definition parsed (c : string) (x : cell) : cell :=
  if String.eqb c "date" then coerce_date x else x.

End LoadSpec.

(* ===================================================================== *)
(** ** Normaliser (step 3) *)
(* ===================================================================== *)

Module Normalizer.
Import Pd.

(** The alias table of [aadhaar_dashboard.py] and [uidai_analysis_code.py]. *)
Definition state_map : list (string * string) :=
  [ ("Westbengal", "West Bengal"); ("West  Bengal", "West Bengal");
    ("Uttaranchal", "Uttarakhand"); ("Orissa", "Odisha");
    ("The Dadra And Nagar Haveli And Daman And Diu", "Dadra and Nagar Haveli") ].

(** The alias table of [clean_df] in [temo.py]. *)
Definition state_map_temo : list (string * string) :=
  [ ("Westbengal", "West Bengal"); ("Uttaranchal", "Uttarakhand");
    ("Orissa", "Odisha") ].

(** What the chain [.replace(m).str.strip().str.title()] does to one
    text value. *)
Definition normalize_name (m : list (string * string)) (s : string) : string :=
  PyStr.title (PyStr.strip (default s (dict_get m s))).

(** The effect of that chain on one cell of an object column. *)
Definition normalize_cell (m : list (string * string)) (c : cell) : cell :=
  match c with
  | Str s => Str (normalize_name m s)
  | _ => NaN
  end.

(** No region name of the frame is a key of the alias table. *)
Definition alias_free (m : list (string * string)) (df : DataFrame) : bool :=
  match cols df !! "state" with
  | Some col =>
      forallb (fun c => match c with
                        | Str s => match dict_get m s with
                                   | Some _ => false
                                   | None => true
                                   end
                        | _ => true
                        end) (s_values col)
  | None => true
  end.

(** The canonical names of the alias table are ASCII text. *)
Definition ascii_table (m : list (string * string)) : bool :=
  forallb (fun kv => PyStr.is_ascii kv.2) m.

Definition ascii_cell (c : cell) : bool :=
  match c with
  | Str s => PyStr.is_ascii s
  | _ => true
  end.

(** The region names of the frame are ASCII text. *)
Definition ascii_names (df : DataFrame) : bool :=
  match cols df !! "state" with
  | Some col => forallb ascii_cell (s_values col)
  | None => true
  end.

(** [df['state'].replace(m).str.strip().str.title()] *)
Definition normalize_states (m : list (string * string)) (col : Series) : result Series :=
  s1 <-- str_strip (replace m col);
  str_title s1.

(** The loop body of step 3 in [aadhaar_dashboard.py] (lines 103-111). *)
Definition clean (m : list (string * string)) (df : DataFrame) : result DataFrame :=
  if negb (is_empty df) && has_column "state" df then
    col <-- getitem df "state";
    st <-- normalize_states m col;
    Ok (fill_numeric (setitem df "state" st))
  else Ok df.

(** The loop body in [uidai_analysis_code.py] (lines 41-46): the same
    without the emptiness test. *)
Definition clean_analysis (m : list (string * string)) (df : DataFrame) : result DataFrame :=
  if has_column "state" df then
    col <-- getitem df "state";
    st <-- normalize_states m col;
    Ok (fill_numeric (setitem df "state" st))
  else Ok df.

(** The loop body in [aadhaar_dashboard_manus.py] (lines 128-138): the
    numeric fill sits outside the test for a state column. *)
Definition clean_manus (m : list (string * string)) (df : DataFrame) : result DataFrame :=
  if negb (is_empty df) then
    df1 <-- (if has_column "state" df then
               col <-- getitem df "state";
               st <-- normalize_states m col;
               Ok (setitem df "state" st)
             else Ok df);
    Ok (fill_numeric df1)
  else Ok df.

(** [clean_df] of [temo.py]: dates, states and fill, with no test. *)
Definition clean_df (df : DataFrame) : result DataFrame :=
  d <-- getitem df "date";
  let df1 := setitem df "date" (to_datetime d) in
  col <-- getitem df1 "state";
  st <-- normalize_states state_map_temo col;
  Ok (fill_numeric (setitem df1 "state" st)).

End Normalizer.

(* ===================================================================== *)
(** ** The three loaders *)
(* ===================================================================== *)

Fixpoint mapM {A B : Type} (f : A -> result B) (l : list A) : result (list B) :=
  match l with
  | [] => Ok []
  | x :: l' => y <-- f x; ys <-- mapM f l'; Ok (y :: ys)
  end.

Module Pipeline.

Section WithFiles.
Variable read_csv : string -> result DataFrame.

(** [load_data_recursive] of [aadhaar_dashboard.py]: scan, load, clean;
    returns [(final_dfs, file_log)]. *)
Definition load_data_recursive (walk : list Discovery.walk_entry)
  : result (store DataFrame * store nat) :=
  let data_store := Discovery.scan walk in
  e <-- Loader.load_key read_csv (enrol data_store);
  b <-- Loader.load_key read_csv (bio data_store);
  d <-- Loader.load_key read_csv (demo data_store);
  e' <-- Normalizer.clean Normalizer.state_map (fst e);
  b' <-- Normalizer.clean Normalizer.state_map (fst b);
  d' <-- Normalizer.clean Normalizer.state_map (fst d);
  Ok (mkStore e' b' d', mkStore (snd e) (snd b) (snd d)).

(** [load_and_process_data] of [uidai_analysis_code.py]; the argument
    holds the files each of the three glob patterns matched. *)
Definition load_and_process_data (globbed : store (list string))
  : result (store DataFrame) :=
  e <-- Loader.load_files read_csv (enrol globbed);
  b <-- Loader.load_files read_csv (bio globbed);
  d <-- Loader.load_files read_csv (demo globbed);
  e' <-- Normalizer.clean_analysis Normalizer.state_map e;
  b' <-- Normalizer.clean_analysis Normalizer.state_map b;
  d' <-- Normalizer.clean_analysis Normalizer.state_map d;
  Ok (mkStore e' b' d').

(** One of the three comprehensions of [load_all_data] in [temo.py]:
    [pd.concat([clean_df(pd.read_csv(f)) for f in glob(...)])]. *)
Definition load_category_temo (files : list string) : result DataFrame :=
  dfs <-- mapM (fun f => df <-- read_csv f; Normalizer.clean_df df) files;
  Concat.concat dfs.

Definition load_all_data (globbed : store (list string)) : result (store DataFrame) :=
  e <-- load_category_temo (enrol globbed);
  b <-- load_category_temo (bio globbed);
  d <-- load_category_temo (demo globbed);
  Ok (mkStore e b d).

End WithFiles.

End Pipeline.


(* ===================================================================== *)
(** ** Group-by-sum and the digital ratio *)
(* ===================================================================== *)

Global Instance date_eq_dec : EqDecision date.
Proof. solve_decision. Defined.

Global Instance cell_eq_dec : EqDecision cell.
Proof. solve_decision. Defined.

Global Instance date_countable : Countable date.
Proof.
  refine (inj_countable' (fun d => (year d, month d, day d))
            (fun t => mkdate t.1.1 t.1.2 t.2) _).
  intros []; reflexivity.
Defined.

Global Instance cell_countable : Countable cell.
Proof.
  refine (inj_countable'
            (fun c => match c with
                      | NaN => inl (inl tt)
                      | NaT => inl (inr tt)
                      | Str s => inr (inl s)
                      | Num z => inr (inr (inl z))
                      | Date d => inr (inr (inr d))
                      end)
            (fun e => match e with
                      | inl (inl _) => NaN
                      | inl (inr _) => NaT
                      | inr (inl s) => Str s
                      | inr (inr (inl z)) => Num z
                      | inr (inr (inr d)) => Date d
                      end) _).
  intros []; reflexivity.
Defined.

Module Agg.
Import Pd.

(** The number a cell adds to a sum: missing cells are skipped. The sums
    below are pandas' sums on columns of numeric dtype ([numeric_values]);
    on a datetime or text column pandas raises or concatenates, which is
    not modelled. *)
Definition num_of (c : cell) : Z :=
  match c with
  | Num z => z
  | _ => 0%Z
  end.

(** [.sum(axis=1)] over the given value columns, for a frame of [n] rows. *)
Definition row_totals (n : nat) (vals : list Series) : list Z :=
  foldr (fun s acc => zip_with Z.add (num_of <$> s_values s) acc)
        (replicate n 0%Z) vals.

(** One row enters its group; rows whose key is missing are dropped. *)
Definition add_row (m : gmap cell Z) (kv : cell * Z) : gmap cell Z :=
  if isna kv.1 then m
  else <[kv.1 := (default 0%Z (m !! kv.1) + kv.2)%Z]> m.

Definition group_sum (keys : list cell) (totals : list Z) : gmap cell Z :=
  fold_left add_row (zip keys totals) ∅.

(** The group sum as the specification words it: the total over the rows
    that carry the key. *)
Definition total_of (k : cell) (kvs : list (cell * Z)) : Z :=
  foldr Z.add 0%Z (filter (fun kv => kv.1 = k) kvs).*2.

(** [df.groupby(key)[value_cols].sum().sum(axis=1)] *)
Definition groupby_sum (df : DataFrame) (key : string) (value_cols : list string)
  : result (gmap cell Z) :=
  k <-- getitem df key;
  vs <-- mapM (getitem df) value_cols;
  Ok (group_sum (s_values k) (row_totals (nrows df) vs)).

(** The named value columns that exist are of numeric dtype. *)
Definition numeric_values (df : DataFrame) (value_cols : list string) : bool :=
  forallb (fun c => match cols df !! c with
                    | Some s => is_numeric (s_dtype s)
                    | None => true
                    end) value_cols.

(** The columns [.sum(numeric_only=True)] keeps: numeric, and not the key. *)
Definition numeric_columns (df : DataFrame) (key : string) : list Series :=
  (filter (fun p => p.1 <> key /\ is_numeric (s_dtype p.2) = true)
          (map_to_list (cols df))).*2.

(** [df.groupby(key).sum(numeric_only=True).sum(axis=1)] *)
Definition groupby_sum_numeric (df : DataFrame) (key : string) : result (gmap cell Z) :=
  k <-- getitem df key;
  Ok (group_sum (s_values k) (row_totals (nrows df) (numeric_columns df key))).

(** Float division [a / b] of two counts: the exact quotient, or [None]
    where the float result is infinite or undefined (a zero divisor). *)
Definition true_div (a b : Z) : option Qc :=
  if (b =? 0)%Z then None
  else Some (Q2Qc (inject_Z a) / Q2Qc (inject_Z b))%Qc.

(** The digital ratio as the specification words it: the quotient of
    the demographic count by the biometric count plus one; the
    demographic count itself when the biometric count is zero; always
    defined when the biometric count is not negative. *)
Definition digital_ratio_of (demo_n bio_n : Z) (ratio : option Qc) : Prop :=
  ratio = true_div demo_n (bio_n + 1)
  /\ (bio_n = 0%Z -> ratio = Some (Q2Qc (inject_Z demo_n)))
  /\ ((0 <= bio_n)%Z ->
      exists q, ratio = Some q
                /\ (q * Q2Qc (inject_Z (bio_n + 1)) = Q2Qc (inject_Z demo_n))%Qc).

(** *** [aadhaar_dashboard.py], lines 337-342 *)

Record ratio_row : Type := mkRatio { Demo_ : Z; Bio_ : Z; Ratio_ : option Qc }.

(** [pd.DataFrame({'Demo': demo_count, 'Bio': bio_count}).fillna(0)]
    followed by [ratio_df['Ratio'] = ratio_df['Demo'] / (ratio_df['Bio'] + 1)]. *)
Definition ratio_all (demo_count bio_count : gmap cell Z) : gmap cell ratio_row :=
  merge (fun d b =>
           match d, b with
           | None, None => None
           | _, _ =>
               let dv := default 0%Z d in
               let bv := default 0%Z b in
               Some (mkRatio dv bv (true_div dv (bv + 1)))
           end)
        demo_count bio_count.

(** [ratio_df = ratio_df[ratio_df['Bio'] > 100]] *)
Definition ratio_df (demo_count bio_count : gmap cell Z) : gmap cell ratio_row :=
  filter (fun kr => (100 < Bio_ kr.2)%Z) (ratio_all demo_count bio_count).

Definition digital_divide (df_demo df_bio : DataFrame) : result (gmap cell ratio_row) :=
  demo_count <-- groupby_sum_numeric df_demo "district";
  bio_count <-- groupby_sum_numeric df_bio "district";
  Ok (ratio_df demo_count bio_count).

(** *** [q3_urban_rural_divide] of [uidai_analysis_code.py], lines 115-123 *)

Record pin_row : Type :=
  mkPin { demo_age_17 : Z; bio_age_17 : Z; Total_Vol : Z; Digital_Ratio : option Qc }.

(** [demo_pin.join(bio_pin, ...).fillna(0)]: a left join on the pincodes
    of the demographic table. *)
Definition joined (demo_pin bio_pin : gmap cell Z) : gmap cell (Z * Z) :=
  map_imap (fun k d => Some (d, default 0%Z (bio_pin !! k))) demo_pin.

Definition df_pin (demo_pin bio_pin : gmap cell Z) : gmap cell pin_row :=
  (fun db : Z * Z =>
     mkPin db.1 db.2 (db.1 + db.2) (true_div db.1 (db.2 + 1)))
  <$> filter (fun kdb => (100 < kdb.2.1 + kdb.2.2)%Z) (joined demo_pin bio_pin).

Definition q3_urban_rural_divide (df_bio df_demo : DataFrame)
  : result (gmap cell pin_row) :=
  demo_pin <-- groupby_sum df_demo "pincode" ["demo_age_17_"];
  bio_pin <-- groupby_sum df_bio "pincode" ["bio_age_17_"];
  Ok (df_pin demo_pin bio_pin).

End Agg.

(* ===================================================================== *)
(** ** Daily-load anomalies ([q4_load_volatility]) *)
(* ===================================================================== *)

Module Anomaly.

Local Open Scope R_scope.

Definition rsum (l : list R) : R := foldr Rplus 0 l.

(** [Series.mean()]: undefined (NaN) on an empty series. *)
Definition mean (l : list Z) : option R :=
  match l with
  | [] => None
  | _ :: _ => Some (rsum (IZR <$> l) / INR (length l))
  end.

(** [Series.std()], the sample standard deviation (one degree of freedom
    removed): undefined on fewer than two values. *)
Definition std (l : list Z) : option R :=
  match l with
  | [] | [_] => None
  | _ =>
      let mu := rsum (IZR <$> l) / INR (length l) in
      Some (sqrt (rsum ((fun x => (IZR x - mu) * (IZR x - mu)) <$> l)
                  / (INR (length l) - 1)))
  end.

(** [limit = daily_load.mean() + (2 * daily_load.std())] *)
Definition limit (l : list Z) : option R :=
  match mean l, std l with
  | Some mu, Some sd => Some (mu + 2 * sd)
  | _, _ => None
  end.

(** [v > limit]; a comparison with an undefined limit is false. *)
Definition exceeds (lim : option R) (v : Z) : Prop :=
  match lim with
  | Some x => x < IZR v
  | None => False
  end.

Global Instance exceeds_dec lim v : Decision (exceeds lim v).
Proof.
  destruct lim as [x|]; simpl.
  - apply Rlt_dec.
  - right; tauto.
Defined.

Definition daily_values (daily_load : gmap cell Z) : list Z :=
  (map_to_list daily_load).*2.

(** [spikes = daily_load[daily_load > limit]] *)
Definition spikes (daily_load : gmap cell Z) : gmap cell Z :=
  let lim := limit (daily_values daily_load) in
  filter (fun kv => exceeds lim kv.2) daily_load.

Definition q4_load_volatility (df_demo : DataFrame)
  : result (gmap cell Z * gmap cell Z) :=
  daily_load <-- Agg.groupby_sum df_demo "date" ["demo_age_5_17"; "demo_age_17_"];
  Ok (daily_load, spikes daily_load).

End Anomaly.


(* ===================================================================== *)
(** ** Sample inputs *)
(* ===================================================================== *)

Module Samples.

(** A one-file extract whose region names need the second pass. *)
Definition lowercase_alias : DataFrame :=
  mkFrame 2 (list_to_map
    [ ("date", mkSeries Datetime64 [Date (mkdate 2025 3 1); NaT]);
      ("state", mkSeries Object [Str "westbengal"; Str " Orissa"]);
      ("age_0_5", mkSeries Int64 [Num 4; Num 9]) ]).

Definition lowercase_alias_once : DataFrame :=
  mkFrame 2 (list_to_map
    [ ("date", mkSeries Datetime64 [Date (mkdate 2025 3 1); NaT]);
      ("state", mkSeries Object [Str "Westbengal"; Str "Orissa"]);
      ("age_0_5", mkSeries Int64 [Num 4; Num 9]) ]).

Definition lowercase_alias_twice : DataFrame :=
  mkFrame 2 (list_to_map
    [ ("date", mkSeries Datetime64 [Date (mkdate 2025 3 1); NaT]);
      ("state", mkSeries Object [Str "West Bengal"; Str "Odisha"]);
      ("age_0_5", mkSeries Int64 [Num 4; Num 9]) ]).

(** An extract with aliases, padding and a missing count. *)
Definition plain : DataFrame :=
  mkFrame 3 (list_to_map
    [ ("date", mkSeries Datetime64 [Date (mkdate 2025 3 1); NaT; Date (mkdate 2025 3 2)]);
      ("state", mkSeries Object [Str "Orissa"; Str " west bengal "; NaN]);
      ("age_0_5", mkSeries Float64 [Num 4; NaN; Num 9]) ]).

Definition plain_clean : DataFrame :=
  mkFrame 3 (list_to_map
    [ ("date", mkSeries Datetime64 [Date (mkdate 2025 3 1); NaT; Date (mkdate 2025 3 2)]);
      ("state", mkSeries Object [Str "Odisha"; Str "West Bengal"; NaN]);
      ("age_0_5", mkSeries Float64 [Num 4; Num 0; Num 9]) ]).

(** An extract without a state column. *)
Definition stateless : DataFrame :=
  mkFrame 2 (list_to_map
    [ ("date", mkSeries Datetime64 [Date (mkdate 2025 3 1); Date (mkdate 2025 3 2)]);
      ("district", mkSeries Object [Str "Pune"; Str "Thane"]);
      ("age_0_5", mkSeries Float64 [Num 4; NaN]) ]).

Definition stateless_filled : DataFrame :=
  mkFrame 2 (list_to_map
    [ ("date", mkSeries Datetime64 [Date (mkdate 2025 3 1); Date (mkdate 2025 3 2)]);
      ("district", mkSeries Object [Str "Pune"; Str "Thane"]);
      ("age_0_5", mkSeries Float64 [Num 4; Num 0]) ]).

(** Three enrolment extracts on disk: the first has one date that is
    not in day-month-year form, the second cannot be read, the third
    repeats the rows of the first. *)
Definition raw_extract : DataFrame :=
  mkFrame 2 (list_to_map
    [ ("date", mkSeries Object [Str "01-03-2025"; Str "2025-03-02"]);
      ("state", mkSeries Object [Str "Orissa"; Str "Bihar"]);
      ("age_0_5", mkSeries Int64 [Num 4; Num 9]) ]).

Definition file0 : string := "/data/api_data_aadhar_enrolment_0.csv".
Definition file1 : string := "/data/api_data_aadhar_enrolment_1.csv".
Definition file2 : string := "/data/api_data_aadhar_enrolment_2.csv".

Definition read_sample (p : string) : result DataFrame :=
  if String.eqb p file0 || String.eqb p file2 then Ok raw_extract
  else Raise ReadError.

(** A directory tree with a name carrying two keywords, a name with the
    wrong extension and a name with no keyword. *)
Definition tree : list Discovery.walk_entry :=
  [ ("/data", ["sub"],
     ["api_data_aadhar_enrolment_0.csv";
      "api_data_aadhar_biometric_api_data_aadhar_enrolment.csv";
      "api_data_aadhar_demographic_0.txt";
      "notes.csv"]);
    ("/data/sub", [],
     ["api_data_aadhar_demographic_api_data_aadhar_biometric.csv";
      "api_data_aadhar_demographic_1.csv";
      "api_data_aadhar_enrolment_0.csv"]) ].

(** Demographic and biometric extracts for the ratio tables. *)
Definition demo_frame : DataFrame :=
  mkFrame 3 (list_to_map
    [ ("district", mkSeries Object [Str "Pune"; Str "Thane"; Str "Pune"]);
      ("pincode", mkSeries Int64 [Num 411001; Num 400601; Num 411001]);
      ("demo_age_17_", mkSeries Int64 [Num 120; Num 300; Num 60]) ]).

Definition bio_frame : DataFrame :=
  mkFrame 1 (list_to_map
    [ ("district", mkSeries Object [Str "Thane"]);
      ("pincode", mkSeries Int64 [Num 400601]);
      ("bio_age_17_", mkSeries Int64 [Num 149]) ]).

(** Six days of demographic volume, one of them far above the rest. *)
Definition daily_sample : gmap cell Z :=
  list_to_map
    [ (Date (mkdate 2025 3 1), 10%Z); (Date (mkdate 2025 3 2), 10%Z);
      (Date (mkdate 2025 3 3), 10%Z); (Date (mkdate 2025 3 4), 10%Z);
      (Date (mkdate 2025 3 5), 10%Z); (Date (mkdate 2025 3 6), 100%Z) ].

(** An extract without a state column as [read_csv] returns it, and a
    disk that holds it under the first enrolment name. *)
Definition raw_stateless : DataFrame :=
  mkFrame 2 (list_to_map
    [ ("date", mkSeries Object [Str "01-03-2025"; Str "02-03-2025"]);
      ("district", mkSeries Object [Str "Pune"; Str "Thane"]);
      ("age_0_5", mkSeries Float64 [Num 4; NaN]) ]).

Definition read_stateless (p : string) : result DataFrame :=
  if String.eqb p file0 then Ok raw_stateless else Raise ReadError.

End Samples.


(* ===================================================================== *)
(** ** Further reports of the three scripts *)
(* ===================================================================== *)

Module Report.
Import Pd Agg.

Definition zsum (l : list Z) : Z := foldr Z.add 0%Z l.

(** [Series.sum()] of a grouped series. *)
Definition series_total (m : gmap cell Z) : Z :=
  map_fold (fun _ v acc => (v + acc)%Z) 0%Z m.

(** [df.select_dtypes(include='number').sum().sum()] *)
Definition frame_total (df : DataFrame) : Z :=
  zsum ((fun p : string * Series => zsum (num_of <$> s_values p.2))
          <$> filter (fun p : string * Series => is_numeric (s_dtype p.2) = true)
                     (map_to_list (cols df))).

(** The totals of the executive summary ([aadhaar_dashboard.py], 169-171). *)
Definition total_enrol (df_enrol : DataFrame) : Z :=
  if negb (is_empty df_enrol) then frame_total df_enrol else 0%Z.

Definition total_updates (df_bio df_demo : DataFrame) : Z :=
  if negb (is_empty df_bio) then (frame_total df_bio + frame_total df_demo)%Z
  else 0%Z.

(** The key column of a group-by exists, is not numeric and has no
    missing cell, so that no row is dropped and the key is not summed. *)
Definition keyed (df : DataFrame) (key : string) : bool :=
  match cols df !! key with
  | Some k => negb (is_numeric (s_dtype k)) && forallb (fun c => negb (isna c)) (s_values k)
  | None => false
  end.

(** [(a / total) * 100] *)
Definition percent (a total : Z) : option Qc :=
  (fun q => (q * Q2Qc (inject_Z 100))%Qc) <$> true_div a total.

(** *** The adult share of the dashboard ([aadhaar_dashboard.py], 314-315) *)

Record state_stat : Type :=
  mkStat { st_age_0_5 : Z; st_age_18_greater : Z; Adult_Share : option Qc }.

(** [state_stats['Adult_Share'] =
     (state_stats['age_18_greater'] / state_stats.sum(axis=1)) * 100]
    on the two summed columns. *)
Definition state_stats (age_0_5 age_18_greater : gmap cell Z) : gmap cell state_stat :=
  map_imap (fun k a0 =>
              let a18 := default 0%Z (age_18_greater !! k) in
              Some (mkStat a0 a18 (percent a18 (a0 + a18))))
           age_0_5.

Definition adult_share (df_enrol : DataFrame) : result (gmap cell state_stat) :=
  a0 <-- groupby_sum df_enrol "state" ["age_0_5"];
  a18 <-- groupby_sum df_enrol "state" ["age_18_greater"];
  Ok (state_stats a0 a18).

(** *** [engineer_features] of [temo.py] *)

Record feature : Type := mkFeature {
  age_0_5 : Z;
  age_5_17 : Z;
  age_18_greater : Z;
  adult_share_pct : option Qc;
  bio_age_18_greater : option Z;
  demo_age_18_greater : option Z;
  digital_drive_ratio : option Qc
}.

(** [demo / (bio + 1)] on two cells of the joined table, either of which
    may be missing; a missing operand gives a missing quotient. *)
Definition nan_ratio (demo_n bio_n : option Z) : option Qc :=
  match demo_n, bio_n with
  | Some d, Some b => true_div d (b + 1)
  | _, _ => None
  end.

(** [state_enrol.join([state_bio, state_demo])], a left join on the states
    of the enrolment table, with the two derived columns. *)
Definition merged (a0 a5 a18 state_bio state_demo : gmap cell Z) : gmap cell feature :=
  map_imap (fun k x0 =>
              let x5 := default 0%Z (a5 !! k) in
              let x18 := default 0%Z (a18 !! k) in
              Some (mkFeature x0 x5 x18 (percent x18 (x0 + x5 + x18))
                      (state_bio !! k) (state_demo !! k)
                      (nan_ratio (state_demo !! k) (state_bio !! k))))
           a0.

Definition engineer_features (df_enrol df_bio df_demo : DataFrame)
  : result (gmap cell feature) :=
  a0 <-- groupby_sum df_enrol "state" ["age_0_5"];
  a5 <-- groupby_sum df_enrol "state" ["age_5_17"];
  a18 <-- groupby_sum df_enrol "state" ["age_18_greater"];
  state_bio <-- groupby_sum df_bio "state" ["bio_age_18_greater"];
  state_demo <-- groupby_sum df_demo "state" ["demo_age_18_greater"];
  Ok (merged a0 a5 a18 state_bio state_demo).

(** *** [q1_maintenance_gap] of [uidai_analysis_code.py], lines 62-69 *)

(** [bio_agg + demo_agg]: aligned on the union of the two indexes, missing
    where either side is. *)
Definition series_add (a b : gmap cell Z) : gmap cell (option Z) :=
  merge (fun x y =>
           match x, y with
           | Some u, Some v => Some (Some (u + v)%Z)
           | None, None => None
           | _, _ => Some None
           end) a b.

(** [pd.DataFrame({'Enrolment': e, 'Updates': u})] *)
Definition two_columns (e : gmap cell Z) (u : gmap cell (option Z))
  : gmap cell (option Z * option Z) :=
  merge (fun x y =>
           match x, y with
           | None, None => None
           | _, _ => Some (x, mjoin y)
           end) e u.

(** [.dropna()] *)
Definition dropna (t : gmap cell (option Z * option Z)) : gmap cell (Z * Z) :=
  omap (fun p : option Z * option Z =>
          match p with
          | (Some a, Some b) => Some (a, b)
          | _ => None
          end) t.

(** [df_combined[df_combined['Enrolment'] > 1000]] *)
Definition df_combined (enrol_agg bio_agg demo_agg : gmap cell Z) : gmap cell (Z * Z) :=
  filter (fun kr : cell * (Z * Z) => (1000 < kr.2.1)%Z)
         (dropna (two_columns enrol_agg (series_add bio_agg demo_agg))).

Definition q1_maintenance_gap (df_enrol df_bio df_demo : DataFrame)
  : result (gmap cell (Z * Z)) :=
  enrol_agg <-- groupby_sum df_enrol "state" ["age_0_5"; "age_5_17"; "age_18_greater"];
  bio_agg <-- groupby_sum df_bio "state" ["bio_age_5_17"; "bio_age_17_"];
  demo_agg <-- groupby_sum df_demo "state" ["demo_age_5_17"; "demo_age_17_"];
  Ok (df_combined enrol_agg bio_agg demo_agg).

(** *** [q5_load_forecast] of [uidai_analysis_code.py], from the weekly
    series on (lines 169-175) *)

Inductive forecast_outcome : Type :=
  | Forecast (future_vals : list (option Qc))
  | IndexError.

(** [weekly.iloc[-i]] for [i >= 1]; [None] stands for the IndexError. *)
Definition iloc_neg (weekly : list Z) (i : nat) : option Z :=
  if (i <=? length weekly)%nat then weekly !! (length weekly - i)%nat else None.

(** [weekly.tail(4).mean()], undefined on an empty series. *)
Definition last_4_avg (weekly : list Z) : option Qc :=
  let t := drop (length weekly - 4) weekly in
  true_div (zsum t) (Z.of_nat (length t)).

(** [last_4_avg * (1 + (growth_rate * 0.1 * i))], one tenth taken exactly. *)
Definition future_val (avg growth : option Qc) (i : nat) : option Qc :=
  match avg, growth with
  | Some a, Some g =>
      Some (a * (1 + g * (Q2Qc (1 # 10)) * Q2Qc (inject_Z (Z.of_nat i))))%Qc
  | _, _ => None
  end.

Definition q5_load_forecast (weekly : list Z) : forecast_outcome :=
  match iloc_neg weekly 1, iloc_neg weekly 4 with
  | Some x1, Some x4 =>
      let growth_rate := true_div (x1 - x4) x4 in
      Forecast (future_val (last_4_avg weekly) growth_rate <$> seq 1 12)
  | _, _ => IndexError
  end.

(** *** [detect_anomalies] of [temo.py], lines 58-61 *)

Definition by_value_desc (a b : cell * Z) : Prop := (b.2 <= a.2)%Z.

Global Instance by_value_desc_dec : RelDecision by_value_desc.
Proof. intros a b. unfold by_value_desc. apply Z_le_dec. Defined.

(** [.sort_values(ascending=False)]; the order among equal values is that
    of this merge sort. *)
Definition sort_values_desc (m : gmap cell Z) : list (cell * Z) :=
  merge_sort by_value_desc (map_to_list m).

Definition top_10 (district_enrol : gmap cell Z) : list (cell * Z) :=
  take 10 (sort_values_desc district_enrol).

Definition detect_anomalies_top (df_enrol : DataFrame) : result (list (cell * Z)) :=
  district_enrol <-- groupby_sum df_enrol "district"
                       ["age_0_5"; "age_5_17"; "age_18_greater"];
  Ok (top_10 district_enrol).

End Report.

Module MoreSamples.

(** What [load_data_recursive] returns for the sample tree and disk. *)
Definition loaded_tree : store DataFrame :=
  mkStore
    (mkFrame 2 (list_to_map
       [ ("date", mkSeries Datetime64 [Date (mkdate 2025 3 1); NaT]);
         ("state", mkSeries Object [Str "Odisha"; Str "Bihar"]);
         ("age_0_5", mkSeries Int64 [Num 4; Num 9]) ]))
    Pd.empty_frame Pd.empty_frame.

(** A disk whose first enrolment extract has numbers for states. *)
Definition raw_numeric_states : DataFrame :=
  mkFrame 2 (list_to_map
    [ ("date", mkSeries Object [Str "01-03-2025"; Str "02-03-2025"]);
      ("state", mkSeries Float64 [Num 7; NaN]);
      ("age_0_5", mkSeries Int64 [Num 4; Num 9]) ]).

Definition read_numeric_states (p : string) : result DataFrame :=
  if String.eqb p Samples.file0 then Ok raw_numeric_states else Raise ReadError.

(** A disk with one good extract and one without a state column. *)
Definition read_mixed (p : string) : result DataFrame :=
  if String.eqb p Samples.file0 then Ok Samples.raw_extract
  else if String.eqb p Samples.file2 then Ok Samples.raw_stateless
  else Raise ReadError.

(** Thirteen enrolment rows over twelve districts, three of them tied on
    the smallest total. *)
Definition enrol_districts : DataFrame :=
  mkFrame 13 (list_to_map
    [ ("district", mkSeries Object
         [Str "Pune"; Str "Thane"; Str "Patna"; Str "Gaya"; Str "Sitamarhi";
          Str "Bahraich"; Str "Nashik"; Str "Agra"; Str "Kota"; Str "Surat";
          Str "Pune"; Str "Mysuru"; Str "Salem"]);
      ("age_0_5", mkSeries Int64
         [Num 5; Num 9; Num 4; Num 1; Num 30; Num 20; Num 7; Num 3; Num 2;
          Num 8; Num 6; Num 1; Num 0]);
      ("age_5_17", mkSeries Int64
         [Num 1; Num 1; Num 1; Num 1; Num 1; Num 1; Num 1; Num 1; Num 1;
          Num 1; Num 1; Num 1; Num 1]);
      ("age_18_greater", mkSeries Int64
         [Num 0; Num 0; Num 0; Num 0; Num 0; Num 0; Num 0; Num 0; Num 0;
          Num 0; Num 0; Num 0; Num 1]) ]).

(** The ten rows [detect_anomalies] keeps of it. *)
Definition top_districts : list (cell * Z) :=
  [ (Str "Sitamarhi", 31%Z); (Str "Bahraich", 21%Z); (Str "Pune", 13%Z);
    (Str "Thane", 10%Z); (Str "Surat", 9%Z); (Str "Nashik", 8%Z);
    (Str "Patna", 5%Z); (Str "Agra", 4%Z); (Str "Kota", 3%Z);
    (Str "Gaya", 2%Z) ].

(** Five days of demographic volume, one of them far above the rest. *)
Definition five_days : gmap cell Z :=
  list_to_map
    [ (Date (mkdate 2025 3 1), 10%Z); (Date (mkdate 2025 3 2), 10%Z);
      (Date (mkdate 2025 3 3), 10%Z); (Date (mkdate 2025 3 4), 10%Z);
      (Date (mkdate 2025 3 5), 100000%Z) ].

End MoreSamples.

(** What the loader establishes for the date column: a datetime column
    whose cells are dates or NaT. *)
Definition is_date_cell (c : cell) : bool :=
  match c with
  | NaT | Date _ => true
  | _ => false
  end.

Definition date_column (s : Series) : bool :=
  match s_dtype s with
  | Datetime64 => forallb is_date_cell (s_values s)
  | _ => false
  end.

(* ===================================================================== *)
(** * Properties *)
(* ===================================================================== *)

(** ** Text *)

Module PyStrFacts.
Import PyStr.

Ltac all_chars c := destruct c as [[] [] [] [] [] [] [] []].

Lemma lower_not_upper c : is_lower c = true -> is_upper c = false.
Proof. all_chars c; vm_compute; congruence. Qed.

Lemma to_upper_cased c :
  is_lower c = true ->
  is_lower (to_upper c) = false /\ is_upper (to_upper c) = true.
Proof. all_chars c; vm_compute; intuition congruence. Qed.

Lemma to_lower_cased c : is_upper c = true -> is_lower (to_lower c) = true.
Proof. all_chars c; vm_compute; congruence. Qed.

Lemma space_uncased c :
  is_space c = true -> is_lower c = false /\ is_upper c = false.
Proof. all_chars c; vm_compute; intuition congruence. Qed.

Lemma to_upper_space c : is_space (to_upper c) = is_space c.
Proof. all_chars c; reflexivity. Qed.

Lemma to_lower_space c : is_space (to_lower c) = is_space c.
Proof. all_chars c; reflexivity. Qed.

(** Title-casing a title-cased text changes nothing. *)
Lemma title_from_idem s : forall p, title_from p (title_from p s) = title_from p s.
Proof.
  induction s as [|c s IH]; intros p; simpl; [reflexivity|].
  destruct (is_lower c) eqn:L.
  - destruct p; simpl.
    + rewrite L, IH. reflexivity.
    + destruct (to_upper_cased c L) as [-> ->]. rewrite IH. reflexivity.
  - destruct (is_upper c) eqn:U.
    + destruct p; simpl.
      * rewrite (to_lower_cased c U), IH. reflexivity.
      * rewrite L, U, IH. reflexivity.
    + simpl. rewrite L, U, IH. reflexivity.
Qed.

Lemma title_idem s : title (title s) = title s.
Proof. apply title_from_idem. Qed.

Lemma title_from_empty p s : title_from p s = EmptyString <-> s = EmptyString.
Proof.
  destruct s as [|c s]; simpl; [tauto|].
  destruct (is_lower c); [|destruct (is_upper c)]; split; discriminate.
Qed.

(** The head of a title-cased text is a space exactly when the head of
    the text is. *)
Lemma title_from_head p c s :
  exists c', title_from p (String c s) = String c' (title_from (is_lower c || is_upper c) s)
             /\ is_space c' = is_space c.
Proof.
  simpl. destruct (is_lower c) eqn:L; [|destruct (is_upper c) eqn:U]; simpl.
  - destruct p; eexists; split; try reflexivity. apply to_upper_space.
  - destruct p; eexists; split; try reflexivity. apply to_lower_space.
  - eexists; split; reflexivity.
Qed.

Lemma lstrip_title s : lstrip (title s) = title (lstrip s).
Proof.
  unfold title. induction s as [|c s IH]; [reflexivity|].
  destruct (is_space c) eqn:Sp.
  - destruct (space_uncased c Sp) as [L U].
    simpl. rewrite L, U. simpl. rewrite Sp. exact IH.
  - destruct (title_from_head false c s) as (c' & E & Sp').
    simpl lstrip at 2. rewrite Sp. rewrite E. simpl. rewrite Sp', Sp. reflexivity.
Qed.

Lemma rstrip_title s : forall p, rstrip (title_from p s) = title_from p (rstrip s).
Proof.
  induction s as [|c s IH]; intros p; [reflexivity|].
  destruct (title_from_head p c s) as (c' & E & Sp').
  rewrite E. simpl rstrip. rewrite IH.
  destruct (rstrip s) as [|d r] eqn:R.
  - simpl. rewrite Sp'. destruct (is_space c) eqn:Sp; [reflexivity|].
    destruct (title_from_head p c EmptyString) as (c'' & E' & _).
    rewrite E'. simpl. simpl in E, E'.
    destruct (is_lower c); [|destruct (is_upper c)]; destruct p; congruence.
  - destruct (title_from (is_lower c || is_upper c) (String d r)) eqn:T.
    + apply title_from_empty in T. discriminate.
    + rewrite <- T.
      destruct (title_from_head p c (String d r)) as (c'' & E' & _).
      rewrite E'. simpl in E, E'.
      destruct (is_lower c); [|destruct (is_upper c)]; destruct p; congruence.
Qed.

Lemma strip_title s : strip (title s) = title (strip s).
Proof. unfold strip. rewrite lstrip_title. apply rstrip_title. Qed.

Lemma lstrip_idem s : lstrip (lstrip s) = lstrip s.
Proof.
  induction s as [|c s IH]; [reflexivity|]. simpl.
  destruct (is_space c) eqn:Sp; [exact IH|]. simpl. rewrite Sp. reflexivity.
Qed.

Lemma rstrip_idem s : rstrip (rstrip s) = rstrip s.
Proof.
  induction s as [|c s IH]; [reflexivity|]. simpl.
  destruct (rstrip s) as [|d r] eqn:R.
  - destruct (is_space c) eqn:Sp; simpl; [reflexivity|]. rewrite Sp. reflexivity.
  - change (rstrip (String c (String d r))) with
      (match rstrip (String d r) with
       | EmptyString => if is_space c then EmptyString else String c EmptyString
       | r' => String c r'
       end).
    rewrite IH. reflexivity.
Qed.

Lemma lstrip_rstrip s : lstrip (rstrip s) = rstrip (lstrip s).
Proof.
  induction s as [|c s IH]; [reflexivity|].
  cbn [lstrip rstrip]. destruct (is_space c) eqn:Sp.
  - rewrite <- IH. destruct (rstrip s); cbn [lstrip]; rewrite ?Sp; reflexivity.
  - cbn [rstrip]. destruct (rstrip s); cbn [lstrip]; rewrite Sp; reflexivity.
Qed.

Lemma strip_idem s : strip (strip s) = strip s.
Proof.
  unfold strip. rewrite lstrip_rstrip, lstrip_idem, rstrip_idem. reflexivity.
Qed.

(** Trimming then title-casing is idempotent. *)
Lemma title_strip_idem s : title (strip (title (strip s))) = title (strip s).
Proof. rewrite strip_title, strip_idem. apply title_idem. Qed.

End PyStrFacts.

(** ** The normaliser *)

Module NormalizerFacts.
Import Pd Normalizer.

Lemma normalize_cell_chain m c :
  str_apply PyStr.title (str_apply PyStr.strip (replace_cell m c)) = normalize_cell m c.
Proof.
  destruct c as [| |s| |]; simpl; try reflexivity.
  unfold normalize_name. destruct (dict_get m s); reflexivity.
Qed.

(** The chain fails on a column that is not an object column and maps
    every cell of an object column. *)
Lemma normalize_states_spec m col :
  normalize_states m col =
    match s_dtype col with
    | Object => Ok (mkSeries Object (normalize_cell m <$> s_values col))
    | _ => Raise AttributeError
    end.
Proof.
  unfold normalize_states, str_strip, str_title, str_method, replace. simpl.
  destruct (s_dtype col); simpl; try reflexivity.
  f_equal. f_equal. rewrite !map_map. apply map_ext. intros c.
  apply normalize_cell_chain.
Qed.

Lemma fill_cell_idem c : fill_cell (fill_cell c) = fill_cell c.
Proof. destruct c; reflexivity. Qed.

Lemma fillna0_idem s : fillna0 (fillna0 s) = fillna0 s.
Proof.
  unfold fillna0. simpl. f_equal. rewrite map_map. apply map_ext.
  intros c. apply fill_cell_idem.
Qed.

Lemma fill_numeric_idem df : fill_numeric (fill_numeric df) = fill_numeric df.
Proof.
  unfold fill_numeric. simpl. f_equal.
  rewrite <- map_fmap_compose. apply map_fmap_ext. intros c s _. simpl.
  destruct (is_numeric (s_dtype s)) eqn:E; simpl; rewrite E; [|reflexivity].
  apply fillna0_idem.
Qed.

Lemma fill_cell_present c : isna (fill_cell c) = false.
Proof. destruct c; reflexivity. Qed.

(** After the fill no numeric column holds a missing cell. *)
Lemma fill_numeric_complete df c col x :
  cols (fill_numeric df) !! c = Some col ->
  is_numeric (s_dtype col) = true ->
  x ∈ s_values col ->
  isna x = false.
Proof.
  unfold fill_numeric. simpl. rewrite lookup_fmap.
  destruct (cols df !! c) as [s|]; simpl; [|discriminate].
  intros [= <-]. destruct (is_numeric (s_dtype s)) eqn:E; simpl.
  - intros _ Hx. apply list_elem_of_fmap in Hx as (y & -> & _).
    apply fill_cell_present.
  - rewrite E. discriminate.
Qed.

Lemma has_column_true c df :
  has_column c df = true <-> exists s, cols df !! c = Some s.
Proof. unfold has_column. rewrite bool_decide_eq_true. reflexivity. Qed.

(** A name that is not an alias key and is already trimmed and in title
    case is left alone. *)
Lemma normalize_name_fixed m s :
  dict_get m s = None ->
  PyStr.title (PyStr.strip s) = s ->
  normalize_name m s = s.
Proof. unfold normalize_name. intros -> H. exact H. Qed.

Lemma normalize_name_again m s :
  dict_get m (normalize_name m s) = None ->
  normalize_name m (normalize_name m s) = normalize_name m s.
Proof.
  intros H. apply normalize_name_fixed; [exact H|].
  unfold normalize_name. apply PyStrFacts.title_strip_idem.
Qed.

End NormalizerFacts.

Module CleanFacts.
Import Pd Normalizer NormalizerFacts.

Lemma setitem_same df c s : cols df !! c = Some s -> setitem df c s = df.
Proof.
  intros H. unfold setitem. rewrite (insert_id _ _ _ H). destruct df; reflexivity.
Qed.

Lemma is_empty_false df c s :
  nrows df <> 0%nat -> cols df !! c = Some s -> is_empty df = false.
Proof.
  intros Hn Hc. unfold is_empty. apply orb_false_iff. split.
  - apply Nat.eqb_neq. exact Hn.
  - apply bool_decide_eq_false. intros E. rewrite E, lookup_empty in Hc. discriminate.
Qed.

(** What a successful pass of [clean] through its guarded branch returns. *)
Lemma clean_guarded m df df1 :
  clean m df = Ok df1 ->
  is_empty df = false ->
  has_column "state" df = true ->
  exists col,
    cols df !! "state" = Some col /\ s_dtype col = Object /\
    df1 = fill_numeric
            (setitem df "state" (mkSeries Object (normalize_cell m <$> s_values col))).
Proof.
  unfold clean. intros H E Hs. rewrite E, Hs in H. simpl in H.
  apply has_column_true in Hs as [col Hc]. exists col.
  unfold getitem in H. rewrite Hc in H. simpl in H.
  rewrite normalize_states_spec in H.
  destruct (s_dtype col); simpl in H; try discriminate.
  injection H as <-. auto.
Qed.

Lemma normalize_cell_again m c :
  match normalize_cell m c with
  | Str s => match dict_get m s with Some _ => false | None => true end
  | _ => true
  end = true ->
  normalize_cell m (normalize_cell m c) = normalize_cell m c.
Proof.
  destruct c as [| |s| |]; simpl; try reflexivity.
  destruct (dict_get m (normalize_name m s)) eqn:E; [discriminate|].
  intros _. f_equal. apply normalize_name_again. exact E.
Qed.

(** With a state column and at least one row, a successful pass leaves
    no missing cell in any numeric column. *)
Lemma clean_fills m df df1 c col x :
  clean m df = Ok df1 ->
  is_empty df = false ->
  has_column "state" df = true ->
  cols df1 !! c = Some col ->
  is_numeric (s_dtype col) = true ->
  x ∈ s_values col ->
  isna x = false.
Proof.
  intros H E Hs Hc Hn Hx.
  destruct (clean_guarded m df df1 H E Hs) as (st & _ & _ & ->).
  eapply fill_numeric_complete; eauto.
Qed.

(** The sibling loop fills every frame that has rows and columns,
    whether or not it has a state column. *)
Lemma clean_manus_fills m df df1 c col x :
  clean_manus m df = Ok df1 ->
  is_empty df = false ->
  cols df1 !! c = Some col ->
  is_numeric (s_dtype col) = true ->
  x ∈ s_values col ->
  isna x = false.
Proof.
  unfold clean_manus. intros H E Hc Hn Hx. rewrite E in H. simpl in H.
  destruct (has_column "state" df).
  - destruct (getitem df "state") as [s|]; simpl in H; [|discriminate].
    destruct (normalize_states m s); simpl in H; [|discriminate].
    injection H as <-. eapply fill_numeric_complete; eauto.
  - simpl in H. injection H as <-. eapply fill_numeric_complete; eauto.
Qed.

Lemma normalized_again m vs :
  forallb (fun c => match c with
                    | Str s => match dict_get m s with Some _ => false | None => true end
                    | _ => true
                    end) (normalize_cell m <$> vs) = true ->
  normalize_cell m <$> (normalize_cell m <$> vs) = normalize_cell m <$> vs.
Proof.
  rewrite forallb_forall. intros Hfree.
  rewrite <- list_fmap_compose. apply list_fmap_ext. intros i c Hi. simpl.
  apply normalize_cell_again. apply Hfree.
  apply list_elem_of_In, list_elem_of_fmap. exists c. split; [reflexivity|].
  eapply list_elem_of_lookup_2; eauto.
Qed.

(** A second pass over a frame that the state chain and the fill produced
    finds the state column as the first pass left it, and changes nothing
    when that column holds no alias key. *)
Lemma second_pass m df0 vs :
  let st := mkSeries Object (normalize_cell m <$> vs) in
  let df1 := fill_numeric (setitem df0 "state" st) in
  alias_free m df1 = true ->
  cols df1 !! "state" = Some st
  /\ normalize_states m st = Ok st
  /\ fill_numeric (setitem df1 "state" st) = df1.
Proof.
  intros st df1 Hfree.
  assert (Hst : cols df1 !! "state" = Some st).
  { subst df1. unfold fill_numeric, setitem. simpl.
    rewrite lookup_fmap, lookup_insert_eq. reflexivity. }
  split; [exact Hst|]. split.
  - rewrite normalize_states_spec. change (s_dtype st) with Object.
    unfold alias_free in Hfree. rewrite Hst in Hfree.
    change (s_values st) with (normalize_cell m <$> vs) in *.
    rewrite (normalized_again m vs Hfree). reflexivity.
  - rewrite (setitem_same df1 "state" st Hst).
    subst df1. apply fill_numeric_idem.
Qed.

Lemma coerce_date_idem c : coerce_date (coerce_date c) = coerce_date c.
Proof.
  destruct c as [| |s| |d]; simpl; try reflexivity.
  destruct (Strptime.strptime_dmy s); reflexivity.
Qed.

Lemma to_datetime_idem s : to_datetime (to_datetime s) = to_datetime s.
Proof.
  unfold to_datetime. simpl. f_equal. rewrite map_map. apply map_ext.
  intros c. apply coerce_date_idem.
Qed.

(** On ASCII names the amended idempotence also holds for the loop body
    of [uidai_analysis_code.py] ... *)
Lemma clean_analysis_idempotent m df df1 :
  clean_analysis m df = Ok df1 ->
  alias_free m df1 = true ->
  clean_analysis m df1 = Ok df1.
Proof.
  unfold clean_analysis at 1. destruct (has_column "state" df) eqn:Gs.
  - apply has_column_true in Gs as [col Hc].
    unfold getitem. rewrite Hc. cbn [bind]. rewrite normalize_states_spec.
    destruct (s_dtype col) eqn:Hd; cbn [bind]; try discriminate.
    intros [= <-] Hfree.
    destruct (second_pass m df (s_values col) Hfree) as (Hst & Hn & Hf).
    unfold clean_analysis.
    rewrite (proj2 (has_column_true "state" _) (ex_intro _ _ Hst)).
    unfold getitem. rewrite Hst. cbn [bind]. rewrite Hn. cbn [bind].
    rewrite Hf. reflexivity.
  - intros [= <-] _. unfold clean_analysis. rewrite Gs. reflexivity.
Qed.

(** ... and for [clean_df] of [temo.py], whose date parsing is idempotent
    as well. *)
Lemma clean_df_idempotent df df1 :
  clean_df df = Ok df1 ->
  alias_free state_map_temo df1 = true ->
  clean_df df1 = Ok df1.
Proof.
  unfold clean_df at 1. unfold getitem.
  destruct (cols df !! "date") as [d|] eqn:Hdate; cbn [bind]; [|discriminate].
  simpl. rewrite lookup_insert_ne by discriminate.
  destruct (cols df !! "state") as [col|] eqn:Hc; cbn [bind]; [|discriminate].
  rewrite normalize_states_spec.
  destruct (s_dtype col) eqn:Hd; cbn [bind]; try discriminate.
  intros [= <-] Hfree.
  destruct (second_pass state_map_temo (setitem df "date" (to_datetime d))
              (s_values col) Hfree) as (Hst & Hn & Hf).
  set (df1 := fill_numeric _) in *.
  assert (Hd1 : cols df1 !! "date" = Some (to_datetime d)).
  { subst df1. unfold fill_numeric, setitem. simpl.
    rewrite lookup_fmap, lookup_insert_ne by discriminate.
    rewrite lookup_insert_eq. reflexivity. }
  unfold clean_df, getitem. rewrite Hd1. cbn [bind].
  rewrite to_datetime_idem, (setitem_same df1 "date" _ Hd1).
  rewrite Hst. cbn [bind]. rewrite Hn. cbn [bind]. rewrite Hf. reflexivity.
Qed.

End CleanFacts.

(** ** Stacking and loading *)

Module ConcatFacts.
Import Pd Concat.

Lemma elem_of_all_columns c dfs :
  c ∈ all_columns dfs <-> exists df, df ∈ dfs /\ is_Some (cols df !! c).
Proof.
  unfold all_columns. rewrite elem_of_union_list. split.
  - intros (X & HX & Hc). apply list_elem_of_fmap in HX as (df & -> & Hdf).
    exists df. split; [exact Hdf|]. apply elem_of_dom. exact Hc.
  - intros (df & Hdf & Hc). exists (dom (cols df)). split.
    + apply list_elem_of_fmap. exists df. auto.
    + apply elem_of_dom. exact Hc.
Qed.

Lemma stack_lookup c dfs :
  cols (stack dfs) !! c =
    if decide (c ∈ all_columns dfs) then Some (concat_column c dfs) else None.
Proof.
  unfold stack. simpl. rewrite map_lookup_imap, lookup_gset_to_gmap.
  destruct (decide (c ∈ all_columns dfs)) as [Hin|Hout].
  - rewrite option_guard_True by exact Hin. reflexivity.
  - rewrite option_guard_False by exact Hout. reflexivity.
Qed.

Lemma total_rows_sum dfs : total_rows dfs = sum_list (nrows <$> dfs).
Proof. induction dfs as [|df dfs IH]; simpl; [reflexivity|]. rewrite IH. reflexivity. Qed.

Lemma well_formed_column df c s :
  well_formed df = true -> cols df !! c = Some s -> length (s_values s) = nrows df.
Proof.
  unfold well_formed. rewrite forallb_forall. intros H Hc.
  apply Nat.eqb_eq. apply (H (c, s)).
  apply list_elem_of_In, elem_of_map_to_list. exact Hc.
Qed.

Lemma piece_length d c df :
  well_formed df = true -> length (piece d c df) = nrows df.
Proof.
  intros H. unfold piece. destruct (cols df !! c) as [s|] eqn:E.
  - eapply well_formed_column; eauto.
  - apply length_replicate.
Qed.

(** The [j]-th cell of the [i]-th piece sits at [offset i + j]. *)
Lemma join_lookup_offset (f : DataFrame -> list cell) dfs :
  (forall df, df ∈ dfs -> length (f df) = nrows df) ->
  forall i dfi j x,
    dfs !! i = Some dfi -> f dfi !! j = Some x ->
    mjoin (f <$> dfs) !! (offset i dfs + j)%nat = Some x.
Proof.
  induction dfs as [|df dfs IH]; intros Hlen i dfi j x Hi Hj.
  - rewrite lookup_nil in Hi. discriminate.
  - destruct i as [|i]; simpl in *.
    + injection Hi as ->. apply lookup_app_l_Some. exact Hj.
    + unfold offset. simpl. rewrite lookup_app_r.
      * rewrite Hlen by constructor.
        replace (nrows df + total_rows (take i dfs) + j - nrows df)%nat
          with (offset i dfs + j)%nat by (unfold offset; lia).
        eapply IH; eauto. intros df' Hdf'. apply Hlen. constructor. exact Hdf'.
      * rewrite Hlen by constructor. lia.
Qed.

Lemma join_length (f : DataFrame -> list cell) dfs :
  (forall df, df ∈ dfs -> length (f df) = nrows df) ->
  length (mjoin (f <$> dfs)) = total_rows dfs.
Proof.
  induction dfs as [|df dfs IH]; intros Hlen; simpl; [reflexivity|].
  rewrite length_app, Hlen by constructor. f_equal. apply IH.
  intros df' Hdf'. apply Hlen. constructor. exact Hdf'.
Qed.

Lemma forallb_well_formed dfs df :
  forallb well_formed dfs = true -> df ∈ dfs -> well_formed df = true.
Proof.
  rewrite forallb_forall. intros H Hdf. apply H, list_elem_of_In. exact Hdf.
Qed.

(** Every cell of every stacked frame is found in the stack, in the
    column of the same name, at the row index of its frame's offset plus
    its own row index. *)
Lemma stack_cell dfs i dfi c col j x :
  forallb well_formed dfs = true ->
  dfs !! i = Some dfi ->
  cols dfi !! c = Some col ->
  s_values col !! j = Some x ->
  exists col', cols (stack dfs) !! c = Some col'
               /\ s_values col' !! (offset i dfs + j)%nat = Some x.
Proof.
  intros Hwf Hi Hc Hj. exists (concat_column c dfs). split.
  - rewrite stack_lookup. rewrite decide_True; [reflexivity|].
    apply elem_of_all_columns. exists dfi. split; [|eauto].
    eapply list_elem_of_lookup_2; eauto.
  - unfold concat_column. simpl. eapply join_lookup_offset; eauto.
    + intros df Hdf. apply piece_length. eapply forallb_well_formed; eauto.
    + unfold piece. rewrite Hc. exact Hj.
Qed.

(** The stack is well formed when its parts are. *)
Lemma stack_column_length dfs c col :
  forallb well_formed dfs = true ->
  cols (stack dfs) !! c = Some col ->
  length (s_values col) = nrows (stack dfs).
Proof.
  intros Hwf. rewrite stack_lookup. destruct (decide _); [|discriminate].
  intros [= <-]. unfold concat_column. simpl. apply join_length.
  intros df Hdf. apply piece_length. eapply forallb_well_formed; eauto.
Qed.

End ConcatFacts.

Module LoaderFacts.
Import Pd Concat Loader.

Section WithFiles.
Variable read_csv : string -> result DataFrame.

Lemma load_loop_from paths : forall acc,
  fold_left (load_step read_csv) paths acc = (acc ++ loaded read_csv paths)%list.
Proof.
  induction paths as [|p paths IH]; intros acc; simpl.
  - rewrite app_nil_r. reflexivity.
  - rewrite IH. unfold load_step. destruct (try_load read_csv p); simpl.
    + rewrite <- app_assoc. reflexivity.
    + reflexivity.
Qed.

(** The loop collects exactly the frames of the files that loaded. *)
Lemma load_loop_loaded paths : load_loop read_csv paths = loaded read_csv paths.
Proof. unfold load_loop. rewrite load_loop_from. reflexivity. Qed.

Lemma load_key_spec paths :
  load_key read_csv paths
  = Ok (frame_of (loaded read_csv paths), length (loaded read_csv paths)).
Proof.
  unfold load_key. destruct paths as [|p paths]; [reflexivity|].
  rewrite load_loop_loaded. destruct (loaded read_csv (p :: paths)); reflexivity.
Qed.

Lemma load_files_spec files :
  load_files read_csv files = Ok (frame_of (loaded read_csv files)).
Proof.
  unfold load_files. rewrite load_loop_loaded.
  destruct (loaded read_csv files); reflexivity.
Qed.


Lemma try_load_ok p raw col :
  read_csv p = Ok raw -> cols raw !! "date" = Some col ->
  try_load read_csv p = Ok (setitem raw "date" (to_datetime col)).
Proof. unfold try_load, getitem. intros -> E. simpl. rewrite E. reflexivity. Qed.


Lemma loaded_none paths :
  (forall p, p ∈ paths -> exists e, try_load read_csv p = Raise e) ->
  loaded read_csv paths = [].
Proof.
  induction paths as [|p paths IH]; intros H; [reflexivity|].
  unfold loaded. simpl. destruct (H p) as [e ->]; [constructor|].
  apply IH. intros q Hq. apply H. constructor. exact Hq.
Qed.

(** [load_data_recursive] and [load_files] return the empty frame, and
    raise nothing, for a category in which no file loads. *)
Lemma nothing_loaded_empty paths :
  (forall p, p ∈ paths -> exists e, try_load read_csv p = Raise e) ->
  load_key read_csv paths = Ok (empty_frame, 0%nat)
  /\ load_files read_csv paths = Ok empty_frame.
Proof.
  intros H. rewrite load_key_spec, load_files_spec, (loaded_none paths H).
  split; reflexivity.
Qed.

(** The loaded frames are those of the files that were read and carry a
    date column, with that column parsed. *)
Lemma elem_of_loaded paths df :
  df ∈ loaded read_csv paths
  <-> exists p raw col,
        p ∈ paths /\ read_csv p = Ok raw /\ cols raw !! "date" = Some col
        /\ df = setitem raw "date" (to_datetime col).
Proof.
  unfold loaded. rewrite list_elem_of_omap. split.
  - intros (p & Hp & H). unfold try_load, getitem in H.
    destruct (read_csv p) as [raw|] eqn:Hr; simpl in H; [|discriminate].
    destruct (cols raw !! "date") as [col|] eqn:Hc; simpl in H; [|discriminate].
    injection H as <-. eauto 8.
  - intros (p & raw & col & Hp & Hr & Hc & ->). exists p. split; [exact Hp|].
    rewrite (try_load_ok p raw col Hr Hc). reflexivity.
Qed.

Lemma well_formed_iff df :
  Concat.well_formed df = true
  <-> forall c s, cols df !! c = Some s -> length (s_values s) = nrows df.
Proof.
  unfold Concat.well_formed. rewrite forallb_forall. split.
  - intros H c s Hc. apply Nat.eqb_eq. apply (H (c, s)).
    apply list_elem_of_In, elem_of_map_to_list. exact Hc.
  - intros H [c s] Hin. apply list_elem_of_In, elem_of_map_to_list in Hin.
    apply Nat.eqb_eq. simpl. eauto.
Qed.

(** Parsing the dates keeps a frame well formed, so the loaded frames are
    well formed as soon as [read_csv] returns well-formed frames. *)
Lemma loaded_well_formed paths :
  (forall p raw, read_csv p = Ok raw -> Concat.well_formed raw = true) ->
  forallb Concat.well_formed (loaded read_csv paths) = true.
Proof.
  intros Hraw. apply forallb_forall. intros df Hin.
  apply list_elem_of_In, elem_of_loaded in Hin as (p & raw & col & _ & Hr & Hc & ->).
  pose proof (proj1 (well_formed_iff raw) (Hraw p raw Hr)) as Hwf.
  apply well_formed_iff. intros c s. simpl.
  destruct (decide (c = "date")) as [->|Hne].
  - rewrite lookup_insert_eq. intros [= <-]. simpl.
    rewrite length_map. eauto.
  - rewrite lookup_insert_ne by congruence. apply Hwf.
Qed.

Lemma loaded_lookup paths p df :
  p ∈ paths -> try_load read_csv p = Ok df ->
  exists i, loaded read_csv paths !! i = Some df.
Proof.
  intros Hp H. apply list_elem_of_lookup. unfold loaded.
  apply list_elem_of_omap. exists p. rewrite H. auto.
Qed.

End WithFiles.

Lemma coerce_date_unparseable s :
  Strptime.strptime_dmy s = None -> coerce_date (Str s) = NaT.
Proof. simpl. intros ->. reflexivity. Qed.

Lemma clean_empty_frame m : Normalizer.clean m empty_frame = Ok empty_frame.
Proof. reflexivity. Qed.

End LoaderFacts.

(** ** Discovery *)

Module DiscoveryFacts.
Import PyStr Discovery.

Lemma visit_file_classify root st file :
  visit_file root st file =
    match classify file with
    | Some k => append_path k (path_join root file) st
    | None => st
    end.
Proof.
  unfold visit_file, classify.
  destruct (negb (endswith ".csv" file)); [reflexivity|].
  destruct (contains kw_enrolment file); [reflexivity|].
  destruct (contains kw_biometric file); [reflexivity|].
  destruct (contains kw_demographic file); reflexivity.
Qed.

Lemma visit_files_pairs root files : forall st,
  fold_left (visit_file root) files st
  = fold_left visit_pair (map (pair root) files) st.
Proof. induction files as [|f files IH]; intros st; simpl; [reflexivity|]. apply IH. Qed.

(** The nested loops visit the files of the walk one after the other. *)
Lemma scan_from walk : forall st,
  fold_left visit_dir walk st = fold_left visit_pair (walk_files walk) st.
Proof.
  induction walk as [|[[root dirs] files] walk IH]; intros st; simpl; [reflexivity|].
  rewrite fold_left_app, IH, visit_files_pairs. reflexivity.
Qed.

Lemma store_get_append k k' p st :
  store_get k (append_path k' p st)
  = if decide (k' = k) then (store_get k st ++ [p])%list else store_get k st.
Proof. destruct k, k'; reflexivity. Qed.

(** Each list receives, in order, the paths of the files of its category. *)
Lemma collected k l : forall st,
  store_get k (fold_left visit_pair l st)
  = (store_get k st
     ++ map (fun rf => path_join rf.1 rf.2)
            (filter (fun rf => classify rf.2 = Some k) l))%list.
Proof.
  induction l as [|[root file] l IH]; intros st; simpl.
  - rewrite app_nil_r. reflexivity.
  - rewrite IH. unfold visit_pair. simpl. rewrite visit_file_classify.
    rewrite filter_cons. simpl.
    destruct (classify file) as [k'|] eqn:E.
    + rewrite store_get_append. destruct (decide (k' = k)) as [->|Hne].
      * rewrite decide_True by reflexivity. simpl. rewrite <- app_assoc. reflexivity.
      * rewrite decide_False by congruence. reflexivity.
    + rewrite decide_False by discriminate. reflexivity.
Qed.

Lemma scan_collected k walk :
  store_get k (scan walk)
  = map (fun rf => path_join rf.1 rf.2)
        (filter (fun rf => classify rf.2 = Some k) (walk_files walk)).
Proof. unfold scan. rewrite scan_from, collected. destruct k; reflexivity. Qed.

Lemma elem_of_scan k walk p :
  p ∈ store_get k (scan walk)
  <-> exists rf, rf ∈ walk_files walk /\ classify rf.2 = Some k
                 /\ p = path_join rf.1 rf.2.
Proof.
  rewrite scan_collected. split.
  - intros H. apply list_elem_of_fmap in H as (rf & -> & Hrf).
    apply list_elem_of_filter in Hrf as [Hk Hin]. eauto.
  - intros (rf & Hin & Hk & ->). apply list_elem_of_fmap. exists rf.
    split; [reflexivity|]. apply list_elem_of_filter. auto.
Qed.

Lemma NoDup_fmap_eq {A B : Type} (f : A -> B) (l : list A) x y :
  NoDup (map f l) -> x ∈ l -> y ∈ l -> f x = f y -> x = y.
Proof.
  induction l as [|a l IH]; simpl; intros Hnd Hx Hy Hf.
  - inversion Hx.
  - apply NoDup_cons in Hnd as [Hna Hnd].
    apply elem_of_cons in Hx as [->|Hx]; apply elem_of_cons in Hy as [->|Hy].
    + reflexivity.
    + exfalso. apply Hna. rewrite Hf. apply list_elem_of_fmap. eauto.
    + exfalso. apply Hna. rewrite <- Hf. apply list_elem_of_fmap. eauto.
    + apply IH; assumption.
Qed.

Lemma contains_slash_app r f : contains "/" (r ++ String "/" f) = true.
Proof.
  induction r as [|c r IH]; simpl; [reflexivity|].
  rewrite IH. apply orb_true_r.
Qed.

(** A path splits in one way only into a directory and a plain name. *)
Lemma split_at_last_slash r1 : forall r2 f1 f2,
  contains "/" f1 = false -> contains "/" f2 = false ->
  r1 ++ String "/" f1 = r2 ++ String "/" f2 ->
  r1 = r2 /\ f1 = f2.
Proof.
  induction r1 as [|c r1 IH]; intros [|c' r2] f1 f2 H1 H2 E; simpl in E.
  - injection E as ->. auto.
  - injection E as <- ->. rewrite contains_slash_app in H1. discriminate.
  - injection E as -> <-. rewrite contains_slash_app in H2. discriminate.
  - injection E as -> E. destruct (IH r2 f1 f2 H1 H2 E) as [-> ->]. auto.
Qed.

Lemma plain_name_not_absolute f : contains "/" f = false -> startswith "/" f = false.
Proof. destruct f as [|c f]; simpl; [reflexivity|]. apply orb_false_iff. Qed.

Lemma path_join_plain root file :
  root <> "" -> endswith "/" root = false -> contains "/" file = false ->
  path_join root file = root ++ String "/" file.
Proof.
  intros Hr He Hf. unfold path_join.
  rewrite (plain_name_not_absolute file Hf), He.
  destruct (String.eqb_spec root ""); [contradiction|]. reflexivity.
Qed.

Lemma elem_of_walk_files walk root file :
  (root, file) ∈ walk_files walk
  <-> exists e, e ∈ walk /\ e.1.1 = root /\ file ∈ e.2.
Proof.
  unfold walk_files. rewrite list_elem_of_In, in_flat_map. split.
  - intros ([[r d] fs] & He & Hin). apply in_map_iff in Hin as (f & [= -> ->] & Hf).
    exists (root, d, fs). rewrite !list_elem_of_In. auto.
  - intros ([[r d] fs] & He & <- & Hf). simpl in *. exists (r, d, fs).
    rewrite <- list_elem_of_In. split; [exact He|].
    apply in_map. apply list_elem_of_In. exact Hf.
Qed.

Lemma walk_files_NoDup walk :
  NoDup (map (fun e : walk_entry => e.1.1) walk) ->
  (forall e, e ∈ walk -> NoDup e.2) ->
  NoDup (walk_files walk).
Proof.
  induction walk as [|[[root dirs] files] walk IH]; intros Hr Hf; simpl.
  - constructor.
  - apply NoDup_cons in Hr as [Hroot Hr]. apply NoDup_app. split; [|split].
    + apply (NoDup_fmap_2_strong (pair root)); [congruence|].
      apply (Hf (root, dirs, files)). constructor.
    + intros [r f] Hin Hin'.
      apply list_elem_of_fmap in Hin as (f' & [= -> ->] & _).
      apply elem_of_walk_files in Hin' as (e & He & Her & _).
      apply Hroot. apply list_elem_of_fmap. exists e. auto.
    + apply IH; [exact Hr|]. intros e He. apply Hf. constructor. exact He.
Qed.

(** A directory walk reports no path twice. *)
Lemma listing_paths_NoDup walk : listing walk -> NoDup (walk_paths walk).
Proof.
  intros [Hr Hf Hrp Hnp]. unfold walk_paths.
  apply (NoDup_fmap_2_strong (fun rf => path_join rf.1 rf.2));
    [|apply walk_files_NoDup; assumption].
  intros [r1 f1] [r2 f2] H1 H2 E. simpl in E.
  apply elem_of_walk_files in H1 as (e1 & He1 & <- & Hf1).
  apply elem_of_walk_files in H2 as (e2 & He2 & <- & Hf2).
  destruct (Hrp e1 He1) as [Hn1 Hs1]. destruct (Hrp e2 He2) as [Hn2 Hs2].
  pose proof (Hnp e1 f1 He1 Hf1) as Hp1. pose proof (Hnp e2 f2 He2 Hf2) as Hp2.
  rewrite (path_join_plain _ _ Hn1 Hs1 Hp1), (path_join_plain _ _ Hn2 Hs2 Hp2) in E.
  destruct (split_at_last_slash _ _ _ _ Hp1 Hp2 E) as [-> ->]. reflexivity.
Qed.

(** When the walk reports no path twice, a path lies in the list of a
    category exactly when its file name classifies to that category. *)
Lemma scan_member walk root file k :
  NoDup (walk_paths walk) ->
  (root, file) ∈ walk_files walk ->
  path_join root file ∈ store_get k (scan walk) <-> classify file = Some k.
Proof.
  intros Hnd Hin. rewrite elem_of_scan. split.
  - intros ([r f] & Hin' & Hk & Hp). simpl in *.
    assert (E : (root, file) = (r, f)).
    { apply (NoDup_fmap_eq (fun rf => path_join rf.1 rf.2) (walk_files walk));
        auto. }
    injection E as -> ->. exact Hk.
  - intros Hk. exists (root, file). auto.
Qed.

Lemma scan_disjoint walk k1 k2 p :
  NoDup (walk_paths walk) ->
  p ∈ store_get k1 (scan walk) -> p ∈ store_get k2 (scan walk) -> k1 = k2.
Proof.
  intros Hnd H1 H2.
  apply elem_of_scan in H1 as ([r1 f1] & Hin1 & Hk1 & ->).
  apply elem_of_scan in H2 as ([r2 f2] & Hin2 & Hk2 & Hp). simpl in *.
  assert (E : (r1, f1) = (r2, f2)).
  { apply (NoDup_fmap_eq (fun rf => path_join rf.1 rf.2) (walk_files walk)); auto. }
  injection E as -> ->. congruence.
Qed.

Lemma classify_enrol file :
  classify file = Some Enrol
  <-> endswith ".csv" file = true /\ contains kw_enrolment file = true.
Proof.
  unfold classify. destruct (endswith ".csv" file); simpl; [|intuition discriminate].
  destruct (contains kw_enrolment file); [tauto|].
  destruct (contains kw_biometric file); [intuition discriminate|].
  destruct (contains kw_demographic file); intuition discriminate.
Qed.

Lemma classify_bio file :
  classify file = Some Bio
  <-> endswith ".csv" file = true /\ contains kw_enrolment file = false
      /\ contains kw_biometric file = true.
Proof.
  unfold classify. destruct (endswith ".csv" file); simpl; [|intuition discriminate].
  destruct (contains kw_enrolment file); [intuition discriminate|].
  destruct (contains kw_biometric file); [tauto|].
  destruct (contains kw_demographic file); intuition discriminate.
Qed.

Lemma classify_demo file :
  classify file = Some Demo
  <-> endswith ".csv" file = true /\ contains kw_enrolment file = false
      /\ contains kw_biometric file = false /\ contains kw_demographic file = true.
Proof.
  unfold classify. destruct (endswith ".csv" file); simpl; [|intuition discriminate].
  destruct (contains kw_enrolment file); [intuition discriminate|].
  destruct (contains kw_biometric file); [intuition discriminate|].
  destruct (contains kw_demographic file); intuition discriminate.
Qed.

End DiscoveryFacts.

(** ** Ratios and anomalies *)

Module AggFacts.
Import Agg.

Lemma Q2Qc_inject_nonzero z : z <> 0%Z -> Q2Qc (inject_Z z) <> 0%Qc.
Proof.
  intros Hz H. apply Q2Qc_eq_iff in H. unfold Qeq in H. simpl in H. lia.
Qed.

Lemma true_div_one a : true_div a 1 = Some (Q2Qc (inject_Z a)).
Proof.
  unfold true_div. simpl. f_equal.
  replace (Q2Qc (inject_Z 1)) with 1%Qc by (apply Qc_is_canon; reflexivity).
  unfold Qcdiv. replace (/ 1)%Qc with 1%Qc by (apply Qc_is_canon; reflexivity).
  apply Qcmult_1_r.
Qed.

Lemma true_div_defined a b :
  b <> 0%Z ->
  exists q, true_div a b = Some q
            /\ (q * Q2Qc (inject_Z b) = Q2Qc (inject_Z a))%Qc.
Proof.
  intros Hb. unfold true_div. destruct (Z.eqb_spec b 0) as [E|_]; [contradiction|].
  eexists. split; [reflexivity|].
  rewrite Qcmult_comm. apply Qcmult_div_r. apply Q2Qc_inject_nonzero. exact Hb.
Qed.

(** The code's quotient is the ratio the specification describes. *)
Lemma true_div_is_digital_ratio d b : digital_ratio_of d b (true_div d (b + 1)).
Proof.
  repeat split.
  - intros ->. apply true_div_one.
  - intros Hb. apply true_div_defined. lia.
Qed.

Lemma add_rows_lookup kvs : forall (m : gmap cell Z) k,
  fold_left add_row kvs m !! k
  = if Pd.isna k then m !! k
    else match filter (fun kv => kv.1 = k) kvs with
         | [] => m !! k
         | _ :: _ => Some (default 0%Z (m !! k) + total_of k kvs)%Z
         end.
Proof.
  induction kvs as [|[k' v] kvs IH]; intros m k; simpl.
  - destruct (Pd.isna k); reflexivity.
  - rewrite IH. destruct (Pd.isna k) eqn:Hk.
    + unfold add_row. simpl. destruct (Pd.isna k') eqn:Hk'; [reflexivity|].
      rewrite lookup_insert_ne; [reflexivity|]. intros ->. congruence.
    + unfold total_of. rewrite !filter_cons. simpl.
      unfold add_row. simpl. destruct (decide (k' = k)) as [->|Hne].
      * rewrite Hk, lookup_insert_eq. simpl.
        destruct (filter _ kvs); simpl; f_equal; lia.
      * destruct (Pd.isna k'); [reflexivity|].
        rewrite lookup_insert_ne by exact Hne. reflexivity.
Qed.

(** A region is in the grouped table exactly when some row carries it as
    a key that is not missing, and its entry is the total over those rows. *)
Lemma group_sum_lookup keys totals k :
  group_sum keys totals !! k
  = if Pd.isna k then None
    else match filter (fun kv => kv.1 = k) (zip keys totals) with
         | [] => None
         | _ :: _ => Some (total_of k (zip keys totals))
         end.
Proof.
  unfold group_sum. rewrite add_rows_lookup, lookup_empty. simpl.
  destruct (Pd.isna k); [reflexivity|]. destruct (filter _ _); reflexivity.
Qed.

Lemma digital_divide_returns df_demo df_bio t :
  digital_divide df_demo df_bio = Ok t ->
  exists demo_count bio_count,
    groupby_sum_numeric df_demo "district" = Ok demo_count
    /\ groupby_sum_numeric df_bio "district" = Ok bio_count
    /\ t = ratio_df demo_count bio_count.
Proof.
  unfold digital_divide.
  destruct (groupby_sum_numeric df_demo "district") as [d|]; simpl; [|discriminate].
  destruct (groupby_sum_numeric df_bio "district") as [b|]; simpl; [|discriminate].
  intros [= <-]. eauto.
Qed.

Lemma q3_returns df_bio df_demo t :
  q3_urban_rural_divide df_bio df_demo = Ok t ->
  exists demo_pin bio_pin,
    groupby_sum df_demo "pincode" ["demo_age_17_"] = Ok demo_pin
    /\ groupby_sum df_bio "pincode" ["bio_age_17_"] = Ok bio_pin
    /\ t = df_pin demo_pin bio_pin.
Proof.
  unfold q3_urban_rural_divide.
  destruct (groupby_sum df_demo "pincode" _) as [d|]; simpl; [|discriminate].
  destruct (groupby_sum df_bio "pincode" _) as [b|]; simpl; [|discriminate].
  intros [= <-]. eauto.
Qed.

Lemma ratio_all_lookup demo_count bio_count k r :
  ratio_all demo_count bio_count !! k = Some r ->
  Demo_ r = default 0%Z (demo_count !! k)
  /\ Bio_ r = default 0%Z (bio_count !! k)
  /\ Ratio_ r = true_div (Demo_ r) (Bio_ r + 1).
Proof.
  unfold ratio_all. rewrite lookup_merge.
  destruct (demo_count !! k), (bio_count !! k); simpl;
    intros [= <-]; simpl; auto.
Qed.

Lemma joined_lookup demo_pin bio_pin k db :
  joined demo_pin bio_pin !! k = Some db ->
  demo_pin !! k = Some db.1 /\ db.2 = default 0%Z (bio_pin !! k).
Proof.
  unfold joined. rewrite map_lookup_imap.
  destruct (demo_pin !! k); simpl; intros [= <-]; simpl; auto.
Qed.

Lemma df_pin_lookup demo_pin bio_pin k r :
  df_pin demo_pin bio_pin !! k = Some r ->
  demo_pin !! k = Some (demo_age_17 r)
  /\ bio_age_17 r = default 0%Z (bio_pin !! k)
  /\ Total_Vol r = (demo_age_17 r + bio_age_17 r)%Z
  /\ (100 < Total_Vol r)%Z
  /\ Digital_Ratio r = true_div (demo_age_17 r) (bio_age_17 r + 1).
Proof.
  unfold df_pin. rewrite lookup_fmap_Some. intros (db & <- & H).
  apply map_lookup_filter_Some in H as [H Hv]. simpl in *.
  apply joined_lookup in H as [Hd Hb]. auto.
Qed.

End AggFacts.

Module AnomalyFacts.
Import Anomaly.
Local Open Scope R_scope.

Lemma limit_spec l lim :
  limit l = Some lim <->
  exists mu sd, mean l = Some mu /\ std l = Some sd /\ lim = mu + 2 * sd.
Proof.
  unfold limit. destruct (mean l) as [mu|], (std l) as [sd|]; split;
    try discriminate; try (intros (? & ? & ? & ? & ?); discriminate).
  - intros [= <-]. eauto.
  - intros (mu' & sd' & [= <-] & [= <-] & ->). reflexivity.
Qed.

(** A value exceeds [mu + 2 * sqrt var] exactly when it lies above the
    mean and its squared distance from the mean exceeds four times the
    variance: the comparison can be decided without a square root. *)
Lemma above_two_sigma mu var v :
  0 <= var ->
  (mu + 2 * sqrt var < v <-> mu < v /\ 4 * var < (v - mu) * (v - mu)).
Proof.
  intros Hvar. pose proof (sqrt_pos var) as Hs.
  pose proof (sqrt_sqrt var Hvar) as Hss. split.
  - intros H. split; [lra|]. rewrite <- Hss. nra.
  - intros [H1 H2]. rewrite <- Hss in H2.
    destruct (Rlt_dec (mu + 2 * sqrt var) v) as [|Hn]; [assumption|]. nra.
Qed.

Lemma q4_returns df daily sp :
  q4_load_volatility df = Ok (daily, sp) ->
  Agg.groupby_sum df "date" ["demo_age_5_17"; "demo_age_17_"] = Ok daily
  /\ sp = spikes daily.
Proof.
  unfold q4_load_volatility.
  destruct (Agg.groupby_sum df "date" _) as [m|]; simpl; [|discriminate].
  intros [= <- <-]. auto.
Qed.

End AnomalyFacts.

(** ** Worked examples *)

Module Examples.

Example title_lower_and :
  PyStr.title "Dadra and Nagar Haveli" = "Dadra And Nagar Haveli".
Proof. reflexivity. Qed.

Example title_mixed : PyStr.title "wEST  bengal-x1y" = "West  Bengal-X1Y".
Proof. reflexivity. Qed.

Example strip_both : PyStr.strip "  West Bengal   " = "West Bengal".
Proof. reflexivity. Qed.

Example endswith_csv :
  PyStr.endswith ".csv" "a.csv" = true /\ PyStr.endswith ".csv" "a.csv.bak" = false.
Proof. split; reflexivity. Qed.

Example contains_keyword :
  PyStr.contains "enrol" "api_enrolment_0.csv" = true
  /\ PyStr.contains "enrol" "api_enro_l" = false.
Proof. split; reflexivity. Qed.

Example dates_parsed :
  Strptime.strptime_dmy "15-01-2025" = Some (mkdate 2025 1 15)
  /\ Strptime.strptime_dmy "1-1-2025" = Some (mkdate 2025 1 1)
  /\ Strptime.strptime_dmy "29-02-2024" = Some (mkdate 2024 2 29).
Proof. repeat split; reflexivity. Qed.

Example dates_rejected :
  Strptime.strptime_dmy "31-02-2025" = None
  /\ Strptime.strptime_dmy "2025-01-15" = None
  /\ Strptime.strptime_dmy "15-13-2025" = None
  /\ Strptime.strptime_dmy "15-01-20255" = None
  /\ Strptime.strptime_dmy "15/01/2025" = None.
Proof. repeat split; reflexivity. Qed.

(** The five aliases of the dashboard table, then two names that only a
    second pass would map. *)
Example names_normalized :
  map (Normalizer.normalize_name Normalizer.state_map)
      [ "Westbengal"; "West  Bengal"; "Uttaranchal"; "Orissa";
        "The Dadra And Nagar Haveli And Daman And Diu"; "westbengal"; " Orissa" ]
  = [ "West Bengal"; "West Bengal"; "Uttarakhand"; "Odisha";
      "Dadra And Nagar Haveli"; "Westbengal"; "Orissa" ].
Proof. reflexivity. Qed.

(** On the three-entry table of [temo.py] every alias gives its listed
    canonical name, and every canonical name is left alone. *)
Lemma temo_aliases_exact k v :
  Pd.dict_get Normalizer.state_map_temo k = Some v ->
  Normalizer.normalize_name Normalizer.state_map_temo k = v
  /\ Normalizer.normalize_name Normalizer.state_map_temo v = v.
Proof.
  intros H. unfold Normalizer.normalize_name. rewrite H. simpl in H.
  repeat match type of H with
         | (if ?b then _ else _) = _ => destruct b eqn:?
         end;
    try discriminate; injection H as <-; split; reflexivity.
Qed.

(** [clean_df] of [temo.py] needs a second pass on the same names. *)
Example temo_second_pass :
  Normalizer.clean_df Samples.lowercase_alias = Ok Samples.lowercase_alias_once
  /\ Normalizer.clean_df Samples.lowercase_alias_once = Ok Samples.lowercase_alias_twice.
Proof. split; vm_compute; reflexivity. Qed.

Example scan_tree :
  Discovery.scan Samples.tree
  = mkStore
      [ "/data/api_data_aadhar_enrolment_0.csv";
        "/data/api_data_aadhar_biometric_api_data_aadhar_enrolment.csv";
        "/data/sub/api_data_aadhar_enrolment_0.csv" ]
      [ "/data/sub/api_data_aadhar_demographic_api_data_aadhar_biometric.csv" ]
      [ "/data/sub/api_data_aadhar_demographic_1.csv" ].
Proof. reflexivity. Qed.

(** The whole of [load_data_recursive] on the sample tree: one enrolment
    file loads, the other two raise and are skipped, the other two
    categories come back empty. *)
Example load_tree :
  exists final,
    Pipeline.load_data_recursive Samples.read_sample Samples.tree
    = Ok (final, mkStore 1%nat 0%nat 0%nat)
    /\ nrows (enrol final) = 2%nat
    /\ cols (enrol final) !! "state" = Some (mkSeries Object [Str "Odisha"; Str "Bihar"])
    /\ cols (enrol final) !! "date"
       = Some (mkSeries Datetime64 [Date (mkdate 2025 3 1); NaT])
    /\ bio final = Pd.empty_frame
    /\ demo final = Pd.empty_frame.
Proof. eexists. split; [vm_compute; reflexivity|]. repeat split. Qed.

(** The pincode table: no biometric update in 411001, so its ratio is its
    demographic count; 300 / (149 + 1) = 2 in 400601. *)
Example pincode_ratios :
  exists t,
    Agg.q3_urban_rural_divide Samples.bio_frame Samples.demo_frame = Ok t
    /\ (Agg.bio_age_17 <$> t !! Num 411001) = Some 0%Z
    /\ (Agg.Digital_Ratio <$> t !! Num 411001) = Some (Some (Q2Qc (inject_Z 180)))
    /\ (fmap this <$> (Agg.Digital_Ratio <$> t !! Num 400601)) = Some (Some (2 # 1)%Q).
Proof. eexists. split; [vm_compute; reflexivity|]. repeat split. Qed.

(** A division by zero would need a biometric count of minus one. *)
Example true_div_by_zero : Agg.true_div 7 (-1 + 1) = None.
Proof. reflexivity. Qed.

End Examples.

(** ** The whole loaders *)

Module PipelineFacts.
Import Pd Loader Pipeline.

Section WithFiles.
Variable read_csv : string -> result DataFrame.

(** [load_data_recursive] cleans, per category, the stack of the frames
    that loaded, and logs how many there were. *)
Lemma load_data_recursive_spec walk :
  load_data_recursive read_csv walk
  = (let ds := Discovery.scan walk in
     e <-- Normalizer.clean Normalizer.state_map (frame_of (loaded read_csv (enrol ds)));
     b <-- Normalizer.clean Normalizer.state_map (frame_of (loaded read_csv (bio ds)));
     d <-- Normalizer.clean Normalizer.state_map (frame_of (loaded read_csv (demo ds)));
     Ok (mkStore e b d,
         mkStore (length (loaded read_csv (enrol ds)))
                 (length (loaded read_csv (bio ds)))
                 (length (loaded read_csv (demo ds))))).
Proof.
  unfold load_data_recursive. rewrite !LoaderFacts.load_key_spec. reflexivity.
Qed.

(** A category in which no file loads comes back as the empty frame,
    logged with zero files, whenever [load_data_recursive] returns. *)
Lemma empty_category walk final log k :
  load_data_recursive read_csv walk = Ok (final, log) ->
  (forall p, p ∈ store_get k (Discovery.scan walk) ->
             exists e, try_load read_csv p = Raise e) ->
  store_get k final = empty_frame /\ store_get k log = 0%nat.
Proof.
  rewrite load_data_recursive_spec. cbv zeta. intros H Hk.
  apply LoaderFacts.loaded_none in Hk.
  destruct (Normalizer.clean _ (frame_of (loaded read_csv (enrol _)))) as [e|] eqn:He;
    cbn [bind] in H; [|discriminate].
  destruct (Normalizer.clean _ (frame_of (loaded read_csv (bio _)))) as [b|] eqn:Hb;
    cbn [bind] in H; [|discriminate].
  destruct (Normalizer.clean _ (frame_of (loaded read_csv (demo _)))) as [d|] eqn:Hd;
    cbn [bind] in H; [|discriminate].
  injection H as <- <-.
  destruct k; simpl in *; rewrite Hk in *; simpl in *;
    rewrite LoaderFacts.clean_empty_frame in *; split; congruence.
Qed.

End WithFiles.

End PipelineFacts.

(* ===================================================================== *)
(** ** The ASCII range *)

Module AsciiFacts.
Import PyStr Pd Normalizer.

Lemma to_upper_ascii c : is_ascii_char c = true -> is_ascii_char (to_upper c) = true.
Proof. PyStrFacts.all_chars c; vm_compute; congruence. Qed.

Lemma to_lower_ascii c : is_ascii_char c = true -> is_ascii_char (to_lower c) = true.
Proof. PyStrFacts.all_chars c; vm_compute; congruence. Qed.

Lemma title_from_ascii s : forall p, is_ascii s = true -> is_ascii (title_from p s) = true.
Proof.
  induction s as [|c s IH]; intros p; simpl; [reflexivity|].
  intros [Hc Hs]%andb_true_iff.
  destruct (is_lower c); [|destruct (is_upper c)]; simpl; rewrite IH by exact Hs;
    rewrite andb_true_r.
  - destruct p; [exact Hc|apply to_upper_ascii, Hc].
  - destruct p; [apply to_lower_ascii, Hc|exact Hc].
  - exact Hc.
Qed.

Lemma lstrip_ascii s : is_ascii s = true -> is_ascii (lstrip s) = true.
Proof.
  induction s as [|c s IH]; simpl; [reflexivity|].
  intros H. destruct (is_space c); [|exact H].
  apply andb_true_iff in H as [_ H]. apply IH, H.
Qed.

Lemma rstrip_ascii s : is_ascii s = true -> is_ascii (rstrip s) = true.
Proof.
  induction s as [|c s IH]; simpl; [reflexivity|].
  intros [Hc Hs]%andb_true_iff. specialize (IH Hs).
  destruct (rstrip s) as [|d r].
  - destruct (is_space c); simpl; [reflexivity|]. rewrite Hc. reflexivity.
  - cbn [is_ascii] in *. rewrite Hc. exact IH.
Qed.

Lemma dict_get_ascii m k v :
  ascii_table m = true -> dict_get m k = Some v -> is_ascii v = true.
Proof.
  induction m as [|[k' v'] m IH]; simpl; [discriminate|].
  intros [Hv Hm]%andb_true_iff. destruct (String.eqb k' k).
  - intros [= <-]. exact Hv.
  - apply IH, Hm.
Qed.

(** The chain keeps a name within the ASCII range. *)
Lemma normalize_name_ascii m s :
  ascii_table m = true -> is_ascii s = true -> is_ascii (normalize_name m s) = true.
Proof.
  intros Hm Hs. unfold normalize_name, title, strip.
  apply title_from_ascii, rstrip_ascii, lstrip_ascii.
  destruct (dict_get m s) as [v|] eqn:E; simpl; [|exact Hs].
  eapply dict_get_ascii; eauto.
Qed.

Lemma normalize_cell_ascii m c :
  ascii_table m = true -> ascii_cell c = true -> ascii_cell (normalize_cell m c) = true.
Proof.
  intros Hm. destruct c as [| |s| |]; simpl; try reflexivity.
  apply normalize_name_ascii, Hm.
Qed.

(** A pass of the normaliser keeps the region names within the ASCII
    range. *)
Lemma clean_ascii m df df1 :
  ascii_table m = true -> ascii_names df = true ->
  clean m df = Ok df1 -> ascii_names df1 = true.
Proof.
  intros Hm Hdf H. unfold clean in H.
  destruct (negb (is_empty df) && has_column "state" df) eqn:G.
  - apply andb_true_iff in G as [Ge Gs]. apply negb_true_iff in Ge.
    assert (H' : clean m df = Ok df1).
    { unfold clean. rewrite Ge, Gs. exact H. }
    destruct (CleanFacts.clean_guarded m df df1 H' Ge Gs) as (col & Hc & _ & ->).
    unfold ascii_names in *. rewrite Hc in Hdf.
    unfold fill_numeric, setitem. simpl. rewrite lookup_fmap, lookup_insert_eq. simpl.
    rewrite forallb_forall in *. intros c Hin.
    apply list_elem_of_In, list_elem_of_fmap in Hin as (c0 & -> & Hin).
    apply normalize_cell_ascii; [exact Hm|]. apply Hdf, list_elem_of_In, Hin.
  - injection H as <-. exact Hdf.
Qed.

End AsciiFacts.

(** ** The loader against the files as read *)

Module LoadSpecFacts.
Import Pd Concat Loader LoadSpec.

Section WithFiles.
Variable read_csv : string -> result DataFrame.

(** The successfully read files are the frames [read_csv] returned. *)
Lemma elem_of_successfully_read paths raw :
  raw ∈ successfully_read read_csv paths
  <-> exists p, p ∈ paths /\ read_csv p = Ok raw.
Proof.
  unfold successfully_read. rewrite list_elem_of_omap. split.
  - intros (p & Hp & H). exists p. split; [exact Hp|].
    destruct (read_csv p); congruence.
  - intros (p & Hp & H). exists p. rewrite H. auto.
Qed.

Lemma successfully_read_skip ps1 p ps2 e :
  read_csv p = Raise e ->
  successfully_read read_csv (ps1 ++ p :: ps2) = successfully_read read_csv (ps1 ++ ps2).
Proof.
  intros H. unfold successfully_read. rewrite !omap_app. simpl. rewrite H. reflexivity.
Qed.

Lemma elem_of_successfully_loaded paths raw :
  raw ∈ successfully_loaded read_csv paths
  <-> exists p, p ∈ paths /\ read_csv p = Ok raw /\ is_Some (cols raw !! "date").
Proof.
  unfold successfully_loaded. rewrite list_elem_of_filter, elem_of_successfully_read.
  split.
  - intros (Hd & p & Hp & Hr). eauto.
  - intros (p & Hp & Hr & Hd). eauto.
Qed.


(** The [try] loop keeps exactly the successfully loaded files, in order,
    with their dates parsed. *)
Lemma loaded_with_dates paths :
  loaded read_csv paths = with_dates <$> successfully_loaded read_csv paths.
Proof.
  unfold loaded, successfully_loaded, successfully_read, try_load, getitem.
  induction paths as [|p paths IH]; [reflexivity|]. cbn [omap list_omap].
  destruct (read_csv p) as [raw|e]; cbn [bind]; [|exact IH].
  rewrite filter_cons. destruct (cols raw !! "date") as [col|] eqn:Hc; cbn [bind].
  - rewrite decide_True by eauto. rewrite fmap_cons. unfold with_dates at 1.
    rewrite Hc. f_equal. exact IH.
  - rewrite decide_False by (intros [? ?]; discriminate). exact IH.
Qed.

End WithFiles.

Lemma nrows_with_dates raw : nrows (with_dates raw) = nrows raw.
Proof. unfold with_dates. destruct (cols raw !! "date"); reflexivity. Qed.

Lemma with_dates_lookup raw c col :
  cols raw !! c = Some col ->
  exists col', cols (with_dates raw) !! c = Some col'
               /\ s_values col' = parsed c <$> s_values col.
Proof.
  intros Hc. unfold with_dates, parsed.
  destruct (String.eqb_spec c "date") as [->|Hne].
  - rewrite Hc. simpl. rewrite lookup_insert_eq. eexists. split; reflexivity.
  - destruct (cols raw !! "date") as [d|]; simpl.
    + rewrite lookup_insert_ne by congruence. exists col. split; [exact Hc|].
      rewrite list_fmap_id. reflexivity.
    + exists col. split; [exact Hc|]. rewrite list_fmap_id. reflexivity.
Qed.

Lemma with_dates_well_formed raw :
  well_formed raw = true -> well_formed (with_dates raw) = true.
Proof.
  intros Hwf. pose proof (proj1 (LoaderFacts.well_formed_iff raw) Hwf) as H.
  apply LoaderFacts.well_formed_iff. intros c s. rewrite nrows_with_dates.
  unfold with_dates. destruct (cols raw !! "date") as [d|] eqn:Hd; [|apply H].
  simpl. destruct (decide (c = "date")) as [->|Hne].
  - rewrite lookup_insert_eq. intros [= <-]. simpl. rewrite length_map. eauto.
  - rewrite lookup_insert_ne by congruence. apply H.
Qed.

Lemma total_rows_with_dates raws : total_rows (with_dates <$> raws) = total_rows raws.
Proof.
  induction raws as [|raw raws IH]; [reflexivity|].
  rewrite fmap_cons. simpl. rewrite nrows_with_dates, IH. reflexivity.
Qed.

Lemma offset_with_dates i raws : offset i (with_dates <$> raws) = offset i raws.
Proof. unfold offset. rewrite <- fmap_take. apply total_rows_with_dates. Qed.

End LoadSpecFacts.

(** * The claims *)
(* ===================================================================== *)

(** C1, as stated, fails on the code: the alias
    'The Dadra And Nagar Haveli And Daman And Diu' is listed with the
    canonical name 'Dadra and Nagar Haveli', the normaliser returns
    'Dadra And Nagar Haveli', and it also rewrites the listed canonical
    name itself. *)
Lemma C1_dadra_is_title_cased :
  Pd.dict_get Normalizer.state_map "The Dadra And Nagar Haveli And Daman And Diu"
    = Some "Dadra and Nagar Haveli"
  /\ Normalizer.normalize_states Normalizer.state_map
       (mkSeries Object [Str "The Dadra And Nagar Haveli And Daman And Diu"])
     = Ok (mkSeries Object [Str "Dadra And Nagar Haveli"])
  /\ Normalizer.normalize_states Normalizer.state_map
       (mkSeries Object [Str "Dadra and Nagar Haveli"])
     = Ok (mkSeries Object [Str "Dadra And Nagar Haveli"])
  /\ "Dadra And Nagar Haveli" <> "Dadra and Nagar Haveli".
Proof. repeat split; try reflexivity. discriminate. Qed.

(** C1 (amended): for every alias key [k] listed with canonical name [v],
    the normaliser returns the title-cased form of [v] for [k], and it
    returns [v] unchanged whenever [v] is already in title case. *)
Theorem C1_alias_to_title_cased_canonical (k v : string) :
  Pd.dict_get Normalizer.state_map k = Some v ->
  Normalizer.normalize_states Normalizer.state_map (mkSeries Object [Str k])
    = Ok (mkSeries Object [Str (PyStr.title v)])
  /\ (PyStr.title v = v ->
      Normalizer.normalize_states Normalizer.state_map (mkSeries Object [Str v])
        = Ok (mkSeries Object [Str v])).
Proof.
  intros H. rewrite !NormalizerFacts.normalize_states_spec. simpl.
  unfold Normalizer.normalize_name. rewrite H. simpl.
  simpl in H.
  repeat match type of H with
         | (if ?b then _ else _) = _ => destruct b eqn:?
         end;
    try discriminate; injection H as <-; split; try reflexivity;
    intros T; rewrite <- T at 2; reflexivity || (vm_compute in T; discriminate).
Qed.

(** C1 (amended) at the alias 'Orissa', listed with 'Odisha'. *)
Lemma C1_alias_witness :
  Normalizer.normalize_states Normalizer.state_map (mkSeries Object [Str "Orissa"])
    = Ok (mkSeries Object [Str (PyStr.title "Odisha")])
  /\ (PyStr.title "Odisha" = "Odisha" ->
      Normalizer.normalize_states Normalizer.state_map (mkSeries Object [Str "Odisha"])
        = Ok (mkSeries Object [Str "Odisha"])).
Proof. apply (C1_alias_to_title_cased_canonical "Orissa" "Odisha"). reflexivity. Defined.

(** C2, as stated, fails on the code: the alias table is consulted
    before trimming and title-casing, so a first pass can produce an alias
    key ('westbengal' becomes 'Westbengal', ' Orissa' becomes 'Orissa')
    that only a second pass maps to its canonical name. *)
Lemma C2_second_pass_differs :
  Normalizer.clean Normalizer.state_map Samples.lowercase_alias
    = Ok Samples.lowercase_alias_once
  /\ Normalizer.clean Normalizer.state_map Samples.lowercase_alias_once
     = Ok Samples.lowercase_alias_twice
  /\ Samples.lowercase_alias_once <> Samples.lowercase_alias_twice.
Proof.
  split; [vm_compute; reflexivity|]. split; [vm_compute; reflexivity|].
  intros E. apply (f_equal (fun df => cols df !! "state")) in E.
  vm_compute in E. discriminate.
Qed.

(** C2 (amended): on every table whose region names are ASCII text and
    whose once-normalised region names contain no alias key, the
    normalisation transform is idempotent: applying it to its own result
    returns that result, and the names stay ASCII text. The alias table
    is taken with ASCII canonical names, as both tables of the code are. *)
Theorem C2_clean_idempotent (m : list (string * string)) (df df1 : DataFrame) :
  Normalizer.ascii_table m = true ->
  Normalizer.ascii_names df = true ->
  Normalizer.clean m df = Ok df1 ->
  Normalizer.alias_free m df1 = true ->
  Normalizer.clean m df1 = Ok df1 /\ Normalizer.ascii_names df1 = true.
Proof.
  intros Hm Ha H Hfree. split; [|exact (AsciiFacts.clean_ascii m df df1 Hm Ha H)].
  unfold Normalizer.clean in H.
  destruct (negb (Pd.is_empty df) && Pd.has_column "state" df) eqn:G.
  - apply andb_true_iff in G as [Ge Gs]. apply negb_true_iff in Ge.
    assert (H' : Normalizer.clean m df = Ok df1).
    { unfold Normalizer.clean. rewrite Ge, Gs. exact H. }
    destruct (CleanFacts.clean_guarded m df df1 H' Ge Gs) as (col & Hc & Hd & ->).
    destruct (CleanFacts.second_pass m df (s_values col) Hfree) as (Hst & Hn & Hf).
    assert (Hne : Pd.is_empty
                    (Pd.fill_numeric
                       (Pd.setitem df "state"
                          (mkSeries Object (Normalizer.normalize_cell m <$> s_values col))))
                  = false).
    { eapply CleanFacts.is_empty_false; [|exact Hst].
      simpl. unfold Pd.is_empty in Ge. apply orb_false_iff in Ge as [Ge _].
      apply Nat.eqb_neq in Ge. exact Ge. }
    unfold Normalizer.clean. rewrite Hne.
    rewrite (proj2 (NormalizerFacts.has_column_true "state" _) (ex_intro _ _ Hst)).
    cbn [negb andb]. unfold Pd.getitem. rewrite Hst. cbn [bind].
    rewrite Hn. cbn [bind]. rewrite Hf. reflexivity.
  - injection H as <-. unfold Normalizer.clean. rewrite G. reflexivity.
Qed.

(** C2 (amended) at a frame with two aliases, padding and a missing
    count: its normal form is a fixed point. *)
Lemma C2_clean_idempotent_witness :
  Normalizer.clean Normalizer.state_map Samples.plain_clean = Ok Samples.plain_clean
  /\ Normalizer.ascii_names Samples.plain_clean = true.
Proof.
  apply (C2_clean_idempotent Normalizer.state_map Samples.plain Samples.plain_clean);
    vm_compute; reflexivity.
Defined.

(** C3: when a file parses as a table with a date column, a row whose
    date text does not match day-month-year is kept: the file is among
    the loaded ones, the loader returns a frame without raising, and in
    that frame the row sits at the file's offset plus its own index, with
    NaT as its date and every other cell as read. *)
Theorem C3_unparseable_date_is_null
    (read_csv : string -> result DataFrame) (paths : list string) (k : nat)
    (p : string) (raw : DataFrame) (col : Series) (j : nat) (s : string) :
  forallb Concat.well_formed (Loader.loaded read_csv paths) = true ->
  paths !! k = Some p ->
  read_csv p = Ok raw ->
  cols raw !! "date" = Some col ->
  s_values col !! j = Some (Str s) ->
  Strptime.strptime_dmy s = None ->
  exists df i,
    Loader.load_key read_csv paths = Ok (df, length (Loader.loaded read_csv paths))
    /\ Loader.load_files read_csv paths = Ok df
    /\ Loader.loaded read_csv paths !! i
       = Some (Pd.setitem raw "date" (Pd.to_datetime col))
    /\ (exists dcol,
          cols df !! "date" = Some dcol
          /\ s_values dcol !! (Concat.offset i (Loader.loaded read_csv paths) + j)%nat
             = Some NaT)
    /\ (forall c colc x,
          c <> "date" -> cols raw !! c = Some colc -> s_values colc !! j = Some x ->
          exists col',
            cols df !! c = Some col'
            /\ s_values col' !! (Concat.offset i (Loader.loaded read_csv paths) + j)%nat
               = Some x).
Proof.
  intros Hwf Hk Hread Hcol Hj Hs.
  pose proof (LoaderFacts.try_load_ok read_csv p raw col Hread Hcol) as Hload.
  destruct (LoaderFacts.loaded_lookup read_csv paths p _
              (list_elem_of_lookup_2 _ _ _ Hk) Hload) as [i Hi].
  exists (Loader.frame_of (Loader.loaded read_csv paths)), i.
  rewrite LoaderFacts.load_key_spec, LoaderFacts.load_files_spec.
  repeat split; try exact Hi.
  - destruct (Loader.loaded read_csv paths) as [|d0 ds] eqn:E;
      [rewrite lookup_nil in Hi; discriminate|].
    cbn [Loader.frame_of]. eapply ConcatFacts.stack_cell; eauto.
    + simpl. apply lookup_insert_eq.
    + simpl. rewrite list_lookup_fmap, Hj. simpl. rewrite Hs. reflexivity.
  - intros c colc x Hc Hcc Hx.
    destruct (Loader.loaded read_csv paths) as [|d0 ds] eqn:E;
      [rewrite lookup_nil in Hi; discriminate|].
    cbn [Loader.frame_of]. eapply ConcatFacts.stack_cell; eauto.
    simpl. rewrite lookup_insert_ne by congruence. exact Hcc.
Qed.

(** C3 at three files, the first of which holds the text "2025-03-02" in
    its second row and the second of which cannot be read. *)
Lemma C3_unparseable_date_witness :
  exists df i,
    Loader.load_key Samples.read_sample [Samples.file0; Samples.file1; Samples.file2]
    = Ok (df, length (Loader.loaded Samples.read_sample
                        [Samples.file0; Samples.file1; Samples.file2]))
    /\ Loader.load_files Samples.read_sample [Samples.file0; Samples.file1; Samples.file2]
       = Ok df
    /\ Loader.loaded Samples.read_sample [Samples.file0; Samples.file1; Samples.file2] !! i
       = Some (Pd.setitem Samples.raw_extract "date"
                 (Pd.to_datetime (mkSeries Object [Str "01-03-2025"; Str "2025-03-02"])))
    /\ (exists dcol,
          cols df !! "date" = Some dcol
          /\ s_values dcol
               !! (Concat.offset i (Loader.loaded Samples.read_sample
                                      [Samples.file0; Samples.file1; Samples.file2]) + 1)%nat
             = Some NaT)
    /\ (forall c colc x,
          c <> "date" -> cols Samples.raw_extract !! c = Some colc ->
          s_values colc !! 1%nat = Some x ->
          exists col',
            cols df !! c = Some col'
            /\ s_values col'
                 !! (Concat.offset i (Loader.loaded Samples.read_sample
                                        [Samples.file0; Samples.file1; Samples.file2]) + 1)%nat
               = Some x).
Proof.
  apply (C3_unparseable_date_is_null Samples.read_sample
           [Samples.file0; Samples.file1; Samples.file2] 0 Samples.file0
           Samples.raw_extract (mkSeries Object [Str "01-03-2025"; Str "2025-03-02"])
           1 "2025-03-02"); vm_compute; reflexivity.
Defined.

(** C4, evaluated on [load_all_data] of [temo.py]: with no matching file
    the list handed to [pd.concat] is empty and the call raises, and a
    read failure is not caught either. *)
Theorem C4_temo_empty_category_raises (read_csv : string -> result DataFrame) :
  Pipeline.load_category_temo read_csv [] = Raise ValueError
  /\ Pipeline.load_all_data read_csv (mkStore [] [] []) = Raise ValueError
  /\ Pipeline.load_category_temo Samples.read_sample [Samples.file1] = Raise ReadError.
Proof. repeat split; reflexivity. Qed.



(** C6: when the successfully loaded files (those [pd.read_csv] returned,
    with a date column) are well formed, the frame the loader returns for
    a category has as many rows as those files have together, each of its
    columns has that length, and the [j]-th row of the [i]-th successfully
    loaded file is its row number [offset i + j], cell for cell (a date
    cell parsed): files in order, rows in order, duplicates kept. *)
Theorem C6_row_count_is_sum (read_csv : string -> result DataFrame) (paths : list string) :
  Forall (fun raw => Concat.well_formed raw = true)
         (LoadSpec.successfully_loaded read_csv paths) ->
  exists df,
    Loader.load_key read_csv paths
    = Ok (df, length (LoadSpec.successfully_loaded read_csv paths))
    /\ Loader.load_files read_csv paths = Ok df
    /\ nrows df = sum_list (nrows <$> LoadSpec.successfully_loaded read_csv paths)
    /\ (forall c col,
          cols df !! c = Some col ->
          length (s_values col)
          = sum_list (nrows <$> LoadSpec.successfully_loaded read_csv paths))
    /\ (forall i raw,
          LoadSpec.successfully_loaded read_csv paths !! i = Some raw ->
          (exists p, p ∈ paths /\ read_csv p = Ok raw)
          /\ forall c col j x,
               cols raw !! c = Some col ->
               s_values col !! j = Some x ->
               exists col',
                 cols df !! c = Some col'
                 /\ s_values col'
                      !! (Concat.offset i (LoadSpec.successfully_loaded read_csv paths) + j)%nat
                    = Some (LoadSpec.parsed c x)).
Proof.
  intros H.
  set (raws := LoadSpec.successfully_loaded read_csv paths) in *.
  assert (Hwf : forallb Concat.well_formed (LoadSpec.with_dates <$> raws) = true).
  { apply forallb_forall. intros df Hin.
    apply list_elem_of_In, list_elem_of_fmap in Hin as (raw & -> & Hin).
    apply LoadSpecFacts.with_dates_well_formed.
    rewrite Forall_forall in H. apply (H raw Hin). }
  exists (Loader.frame_of (LoadSpec.with_dates <$> raws)).
  rewrite LoaderFacts.load_key_spec, LoaderFacts.load_files_spec.
  rewrite (LoadSpecFacts.loaded_with_dates read_csv paths). fold raws.
  rewrite length_fmap.
  split; [reflexivity|]. split; [reflexivity|].
  assert (Hn : nrows (Loader.frame_of (LoadSpec.with_dates <$> raws))
               = sum_list (nrows <$> raws)).
  { rewrite <- ConcatFacts.total_rows_sum, <- LoadSpecFacts.total_rows_with_dates.
    destruct raws; reflexivity. }
  split; [exact Hn|]. split.
  - intros c col Hc. rewrite <- Hn.
    destruct raws as [|r0 rs] eqn:E.
    + simpl in Hc. rewrite lookup_empty in Hc. discriminate.
    + apply (ConcatFacts.stack_column_length _ _ _ Hwf Hc).
  - intros i raw Hi. split.
    + assert (Hin : raw ∈ raws) by (eapply list_elem_of_lookup_2; eauto).
      apply LoadSpecFacts.elem_of_successfully_loaded in Hin as (p & Hp & Hr & _).
      eauto.
    + intros c col j x Hc Hj.
      destruct (LoadSpecFacts.with_dates_lookup raw c col Hc) as (col1 & Hc1 & Hv).
      rewrite <- LoadSpecFacts.offset_with_dates.
      assert (Hfo : Loader.frame_of (LoadSpec.with_dates <$> raws)
                    = Concat.stack (LoadSpec.with_dates <$> raws)).
      { destruct raws; [rewrite lookup_nil in Hi; discriminate|reflexivity]. }
      rewrite Hfo.
      eapply ConcatFacts.stack_cell; [exact Hwf| |exact Hc1|].
      * rewrite list_lookup_fmap, Hi. reflexivity.
      * rewrite Hv, list_lookup_fmap, Hj. reflexivity.
Qed.

(** C6 at two readable files with the same two rows: four rows come
    back, and the second file's first region name is in row 2. *)
Lemma C6_row_count_witness :
  exists df col,
    Loader.load_files Samples.read_sample [Samples.file0; Samples.file1; Samples.file2]
    = Ok df
    /\ nrows df = 4%nat
    /\ cols df !! "state" = Some col
    /\ s_values col !! 2%nat = s_values col !! 0%nat.
Proof.
  destruct (C6_row_count_is_sum Samples.read_sample
              [Samples.file0; Samples.file1; Samples.file2])
    as (df & _ & Hf & Hn & _ & Hcell).
  - repeat constructor; vm_compute; eauto.
  - destruct (cols Samples.raw_extract !! "state") as [c|] eqn:Ec;
      [|vm_compute in Ec; discriminate].
    destruct (s_values c !! 0%nat) as [x|] eqn:Ex;
      [|vm_compute in Ec; injection Ec as <-; vm_compute in Ex; discriminate].
    destruct (proj2 (Hcell 0%nat Samples.raw_extract eq_refl) "state" c 0%nat x Ec Ex)
      as (col0 & Hc0 & Hx0).
    destruct (proj2 (Hcell 1%nat Samples.raw_extract eq_refl) "state" c 0%nat x Ec Ex)
      as (col1 & Hc1 & Hx1).
    exists df, col0. split; [exact Hf|]. split; [rewrite Hn; reflexivity|].
    split; [exact Hc0|].
    rewrite Hc0 in Hc1. injection Hc1 as <-.
    change (Concat.offset 1 _ + 0)%nat with 2%nat in Hx1.
    change (Concat.offset 0 _ + 0)%nat with 0%nat in Hx0.
    rewrite Hx0, Hx1. reflexivity.
Defined.

(** C7, evaluated on an extract without a state column: the loop bodies of
    [aadhaar_dashboard.py] and [uidai_analysis_code.py] return the frame as
    it is, so that both loaders hand back the enrolment table with the
    missing count still in its numeric column, while the loop body of
    [aadhaar_dashboard_manus.py] fills it with zero. *)
Theorem C7_stateless_keeps_missing :
  Normalizer.clean Normalizer.state_map Samples.stateless = Ok Samples.stateless
  /\ Normalizer.clean_analysis Normalizer.state_map Samples.stateless = Ok Samples.stateless
  /\ Normalizer.clean_manus Normalizer.state_map Samples.stateless
     = Ok Samples.stateless_filled
  /\ (exists final log,
        Pipeline.load_data_recursive Samples.read_stateless Samples.tree = Ok (final, log)
        /\ cols (enrol final) !! "age_0_5" = Some (mkSeries Float64 [Num 4; NaN]))
  /\ (exists final,
        Pipeline.load_and_process_data Samples.read_stateless
          (mkStore [Samples.file0] [] []) = Ok final
        /\ cols (enrol final) !! "age_0_5" = Some (mkSeries Float64 [Num 4; NaN]))
  /\ Pd.is_numeric Float64 = true
  /\ Pd.isna NaN = true.
Proof.
  split; [vm_compute; reflexivity|]. split; [vm_compute; reflexivity|].
  split; [vm_compute; reflexivity|]. split; [|split].
  - eexists. eexists. split; [vm_compute; reflexivity|]. reflexivity.
  - eexists. split; [vm_compute; reflexivity|]. reflexivity.
  - split; reflexivity.
Qed.

(** C8, evaluated on the ratio table of the dashboard: its two counts are
    sums over all numeric columns, so the pincode column is added into the
    demographic and the biometric count of a district. On a demographic
    table of three rows and a biometric table of one, Thane has 300
    demographic and 149 biometric updates, and the dashboard holds for it
    the counts 400901 and 400750 and the ratio 400901 / 400751 where the
    claim gives 300 / 150; Pune has 180 demographic updates and no
    biometric row, and its ratio (before the filter) is 822182 where the
    claim gives 180. The pincode table of [q3_urban_rural_divide], which
    names its value columns, holds 300 / 150 and 180 on the same two
    tables. *)
Theorem C8_dashboard_ratio_counts_pincodes :
  Agg.digital_divide Samples.demo_frame Samples.bio_frame
  = Ok {[ Str "Thane" := Agg.mkRatio 400901 400750 (Agg.true_div 400901 (400750 + 1)) ]}
  /\ Agg.groupby_sum Samples.demo_frame "district" ["demo_age_17_"]
     = Ok {[ Str "Pune" := 180%Z; Str "Thane" := 300%Z ]}
  /\ Agg.groupby_sum Samples.bio_frame "district" ["bio_age_17_"]
     = Ok {[ Str "Thane" := 149%Z ]}
  /\ Agg.groupby_sum Samples.demo_frame "district" ["pincode"]
     = Ok {[ Str "Pune" := 822002%Z; Str "Thane" := 400601%Z ]}
  /\ Agg.groupby_sum Samples.bio_frame "district" ["pincode"]
     = Ok {[ Str "Thane" := 400601%Z ]}
  /\ Agg.true_div 400901 (400750 + 1) <> Agg.true_div 300 (149 + 1)
  /\ (exists demo_count bio_count r,
        Agg.groupby_sum_numeric Samples.demo_frame "district" = Ok demo_count
        /\ Agg.groupby_sum_numeric Samples.bio_frame "district" = Ok bio_count
        /\ Agg.ratio_all demo_count bio_count !! Str "Pune" = Some r
        /\ Agg.Bio_ r = 0%Z
        /\ Agg.Demo_ r = (822002 + 180)%Z
        /\ Agg.Ratio_ r = Some (Q2Qc (inject_Z (822002 + 180))))
  /\ Agg.q3_urban_rural_divide Samples.bio_frame Samples.demo_frame
     = Ok {[ Num 400601 := Agg.mkPin 300 149 449 (Agg.true_div 300 (149 + 1));
             Num 411001 := Agg.mkPin 180 0 180 (Agg.true_div 180 (0 + 1)) ]}.
Proof.
  split; [vm_compute; reflexivity|].
  split; [vm_compute; reflexivity|].
  split; [vm_compute; reflexivity|].
  split; [vm_compute; reflexivity|].
  split; [vm_compute; reflexivity|].
  split.
  { intros E. apply (f_equal (fmap (fun q : Qc => this q))) in E.
    vm_compute in E. discriminate. }
  split; [|vm_compute; reflexivity].
  eexists. eexists. eexists.
  split; [vm_compute; reflexivity|]. split; [vm_compute; reflexivity|].
  split; [vm_compute; reflexivity|]. split; [reflexivity|]. split; [reflexivity|].
  vm_compute. reflexivity.
Qed.

(** C9: a day is among the spikes of a daily-volume series exactly when it
    is a day of the series whose volume is strictly greater than the mean
    of the series plus twice its standard deviation. *)
Theorem C9_spike_iff_above_two_sigma (daily_load : gmap cell Z) (d : cell) (v : Z) :
  Anomaly.spikes daily_load !! d = Some v
  <-> daily_load !! d = Some v
      /\ exists mu sd,
           Anomaly.mean (Anomaly.daily_values daily_load) = Some mu
           /\ Anomaly.std (Anomaly.daily_values daily_load) = Some sd
           /\ (mu + 2 * sd < IZR v)%R.
Proof.
  unfold Anomaly.spikes. rewrite map_lookup_filter_Some. simpl.
  unfold Anomaly.exceeds.
  destruct (Anomaly.limit (Anomaly.daily_values daily_load)) as [lim|] eqn:E.
  - apply AnomalyFacts.limit_spec in E as (mu & sd & Hm & Hs & ->).
    split.
    + intros [H1 H2]. eauto 6.
    + intros [H1 (mu' & sd' & Hm' & Hs' & H2)].
      rewrite Hm in Hm'. rewrite Hs in Hs'.
      injection Hm' as <-. injection Hs' as <-. auto.
  - split; [intros [_ []]|].
    intros [_ (mu & sd & Hm & Hs & _)].
    assert (Anomaly.limit (Anomaly.daily_values daily_load) = Some (mu + 2 * sd)%R) as E'.
    { apply AnomalyFacts.limit_spec. eauto. }
    rewrite E in E'. discriminate.
Qed.

(** C9 on six days of volume 10, 10, 10, 10, 10 and 100: the mean is 25,
    the sample variance 1350, and only the last day is a spike. *)
Lemma C9_spike_witness :
  Anomaly.spikes Samples.daily_sample !! Date (mkdate 2025 3 6) = Some 100%Z
  /\ Anomaly.spikes Samples.daily_sample !! Date (mkdate 2025 3 1) = None.
Proof.
  assert (E : Anomaly.daily_values Samples.daily_sample
              = [10; 10; 10; 100; 10; 10]%Z) by (vm_compute; reflexivity).
  split.
  - apply (proj2 (C9_spike_iff_above_two_sigma Samples.daily_sample
                    (Date (mkdate 2025 3 6)) 100)).
    split; [vm_compute; reflexivity|].
    rewrite E. eexists. eexists. split; [reflexivity|]. split; [reflexivity|].
    apply AnomalyFacts.above_two_sigma; simpl; lra.
  - destruct (Anomaly.spikes Samples.daily_sample !! Date (mkdate 2025 3 1))
      as [v|] eqn:H; [|reflexivity].
    apply (proj1 (C9_spike_iff_above_two_sigma Samples.daily_sample
                    (Date (mkdate 2025 3 1)) v)) in H.
    destruct H as [Hv (mu & sd & Hm & Hs & Hlt)].
    assert (v = 10%Z) as -> by (vm_compute in Hv; congruence).
    rewrite E in Hm, Hs. injection Hm as <-. injection Hs as <-.
    exfalso. apply AnomalyFacts.above_two_sigma in Hlt; simpl in *; lra.
Defined.

(** C10: when the walk reports every path once, the three path lists are
    pairwise disjoint, and the path of a visited file lies in the
    enrolment list exactly when its name ends in ".csv" and contains the
    enrolment keyword, in the biometric list exactly when it ends in
    ".csv", lacks the enrolment keyword and contains the biometric one, and
    in the demographic list exactly when it ends in ".csv", lacks both and
    contains the demographic keyword; a name with another extension is in
    no list. *)
Theorem C10_categories_disjoint_with_precedence (walk : list Discovery.walk_entry) :
  NoDup (Discovery.walk_paths walk) ->
  (forall k1 k2 p,
      p ∈ store_get k1 (Discovery.scan walk) ->
      p ∈ store_get k2 (Discovery.scan walk) -> k1 = k2)
  /\ (forall root file,
        (root, file) ∈ Discovery.walk_files walk ->
        (Discovery.path_join root file ∈ enrol (Discovery.scan walk)
         <-> PyStr.endswith ".csv" file = true
             /\ PyStr.contains Discovery.kw_enrolment file = true)
        /\ (Discovery.path_join root file ∈ bio (Discovery.scan walk)
            <-> PyStr.endswith ".csv" file = true
                /\ PyStr.contains Discovery.kw_enrolment file = false
                /\ PyStr.contains Discovery.kw_biometric file = true)
        /\ (Discovery.path_join root file ∈ demo (Discovery.scan walk)
            <-> PyStr.endswith ".csv" file = true
                /\ PyStr.contains Discovery.kw_enrolment file = false
                /\ PyStr.contains Discovery.kw_biometric file = false
                /\ PyStr.contains Discovery.kw_demographic file = true)
        /\ (PyStr.endswith ".csv" file = false ->
            forall k, Discovery.path_join root file ∉ store_get k (Discovery.scan walk))).
Proof.
  intros Hnd. split.
  - intros k1 k2 p. apply DiscoveryFacts.scan_disjoint. exact Hnd.
  - intros root file Hin.
    pose proof (fun k => DiscoveryFacts.scan_member walk root file k Hnd Hin) as M.
    split; [|split; [|split]].
    + rewrite <- DiscoveryFacts.classify_enrol. apply (M Enrol).
    + rewrite <- DiscoveryFacts.classify_bio. apply (M Bio).
    + rewrite <- DiscoveryFacts.classify_demo. apply (M Demo).
    + intros Hext k Hk. apply (M k) in Hk. unfold Discovery.classify in Hk.
      rewrite Hext in Hk. discriminate.
Qed.

(** C10 at a tree of two directories in which two names carry two
    keywords each, one has another extension and one has no keyword. *)
Lemma C10_categories_witness :
  (forall k1 k2 p,
      p ∈ store_get k1 (Discovery.scan Samples.tree) ->
      p ∈ store_get k2 (Discovery.scan Samples.tree) -> k1 = k2)
  /\ (forall root file,
        (root, file) ∈ Discovery.walk_files Samples.tree ->
        (Discovery.path_join root file ∈ enrol (Discovery.scan Samples.tree)
         <-> PyStr.endswith ".csv" file = true
             /\ PyStr.contains Discovery.kw_enrolment file = true)
        /\ (Discovery.path_join root file ∈ bio (Discovery.scan Samples.tree)
            <-> PyStr.endswith ".csv" file = true
                /\ PyStr.contains Discovery.kw_enrolment file = false
                /\ PyStr.contains Discovery.kw_biometric file = true)
        /\ (Discovery.path_join root file ∈ demo (Discovery.scan Samples.tree)
            <-> PyStr.endswith ".csv" file = true
                /\ PyStr.contains Discovery.kw_enrolment file = false
                /\ PyStr.contains Discovery.kw_biometric file = false
                /\ PyStr.contains Discovery.kw_demographic file = true)
        /\ (PyStr.endswith ".csv" file = false ->
            forall k, Discovery.path_join root file
                        ∉ store_get k (Discovery.scan Samples.tree))).
Proof.
  apply (C10_categories_disjoint_with_precedence Samples.tree).
  apply (bool_decide_eq_true_1 _). vm_compute. reflexivity.
Defined.

(* ===================================================================== *)
(** * Further properties of the code *)
(* ===================================================================== *)

(** ** Group-by-sum *)

Module GroupFacts.
Import Pd Agg Report.

Lemma series_total_empty : series_total ∅ = 0%Z.
Proof. unfold series_total. apply map_fold_empty. Qed.

(** Adding a row to its group adds its value to the total of the table. *)
Lemma series_total_add (m : gmap cell Z) k v :
  series_total (<[k := (default 0 (m !! k) + v)%Z]> m) = (series_total m + v)%Z.
Proof.
  unfold series_total. destruct (m !! k) as [x|] eqn:E; simpl.
  - rewrite <- insert_delete_eq.
    rewrite map_fold_insert_L;
      [|intros; lia|apply lookup_delete_eq].
    rewrite (map_fold_delete_L _ _ k x m); [lia|intros; lia|exact E].
  - rewrite map_fold_insert_L; [lia|intros; lia|exact E].
Qed.

Lemma add_rows_total kvs : forall m : gmap cell Z,
  series_total (fold_left add_row kvs m)
  = (series_total m
     + zsum (filter (fun kv : cell * Z => isna kv.1 = false) kvs).*2)%Z.
Proof.
  induction kvs as [|[k v] kvs IH]; intros m; simpl; [lia|].
  rewrite IH, filter_cons. unfold add_row. cbn [fst snd].
  destruct (decide (isna k = false)) as [Hk|Hk].
  - rewrite Hk, series_total_add, fmap_cons. unfold zsum. cbn [foldr snd]. lia.
  - apply not_false_is_true in Hk. rewrite Hk. reflexivity.
Qed.

Lemma getitem_error df c e : getitem df c = Raise e -> e = KeyError /\ cols df !! c = None.
Proof. unfold getitem. destruct (cols df !! c); [discriminate|]. intros [= <-]. auto. Qed.

(** Reading several columns succeeds exactly when all of them exist. *)
Lemma mapM_getitem_ok df cs :
  (exists vs, mapM (getitem df) cs = Ok vs)
  <-> forall c, c ∈ cs -> is_Some (cols df !! c).
Proof.
  induction cs as [|c cs IH]; simpl.
  - split; [intros _ c Hc; inversion Hc|eauto].
  - unfold getitem at 1. destruct (cols df !! c) as [s|] eqn:E; simpl.
    + split.
      * intros [vs H]. destruct (mapM (getitem df) cs) as [ws|] eqn:M; [|discriminate].
        intros c' [->|Hc']%elem_of_cons; [eauto|]. apply IH; eauto.
      * intros H. destruct (proj2 IH) as [ws ->].
        { intros c' Hc'. apply H. constructor. exact Hc'. }
        simpl. eauto.
    + split; [intros [vs H]; discriminate|].
      intros H. destruct (H c) as [s Hs]; [constructor|]. congruence.
Qed.

Lemma mapM_getitem_error df cs e : mapM (getitem df) cs = Raise e -> e = KeyError.
Proof.
  induction cs as [|c cs IH]; simpl; [discriminate|].
  destruct (getitem df c) as [s|e'] eqn:G; simpl.
  - destruct (mapM (getitem df) cs) as [vs|e'']; simpl; [discriminate|].
    intros [= <-]. apply IH. reflexivity.
  - intros [= <-]. apply getitem_error in G as [-> _]. reflexivity.
Qed.

Lemma groupby_sum_error df key cs e : groupby_sum df key cs = Raise e -> e = KeyError.
Proof.
  unfold groupby_sum. destruct (getitem df key) as [k|e'] eqn:G; simpl.
  - destruct (mapM (getitem df) cs) as [vs|e'] eqn:M; simpl; [discriminate|].
    intros [= <-]. eapply mapM_getitem_error; eauto.
  - intros [= <-]. apply getitem_error in G as [-> _]. reflexivity.
Qed.

End GroupFacts.

(** X1: group-by-sum loses and invents nothing: the entries of the
    grouped table add up to the total of the rows whose key is not
    missing. *)
Theorem X1_group_sum_conserves_total (keys : list cell) (totals : list Z) :
  Report.series_total (Agg.group_sum keys totals)
  = Report.zsum (filter (fun kv : cell * Z => Pd.isna kv.1 = false) (zip keys totals)).*2.
Proof.
  unfold Agg.group_sum. rewrite GroupFacts.add_rows_total.
  rewrite GroupFacts.series_total_empty. reflexivity.
Qed.

(** X2: on a frame whose named value columns are of numeric dtype where
    they exist (on other columns pandas' sum can raise a TypeError, which
    is outside what is modelled), a group-by-sum over named columns
    returns a table exactly when the key column and all value columns
    exist; otherwise it raises, and what it raises is a KeyError. *)
Theorem X2_groupby_sum_key_error (df : DataFrame) (key : string) (value_cols : list string) :
  Agg.numeric_values df value_cols = true ->
  ((exists m, Agg.groupby_sum df key value_cols = Ok m)
   <-> forall c, c ∈ key :: value_cols -> is_Some (cols df !! c))
  /\ (forall e, Agg.groupby_sum df key value_cols = Raise e -> e = KeyError).
Proof.
  intros _. split; [|apply GroupFacts.groupby_sum_error].
  unfold Agg.groupby_sum, Pd.getitem at 1. split.
  - intros [m H]. destruct (cols df !! key) as [k|] eqn:E; simpl in H; [|discriminate].
    destruct (mapM (Pd.getitem df) value_cols) as [vs|] eqn:M; [|discriminate].
    intros c [->|Hc]%elem_of_cons; [eauto|].
    apply (proj1 (GroupFacts.mapM_getitem_ok df value_cols)); eauto.
  - intros H. destruct (H key) as [k ->]; [constructor|]. simpl.
    destruct (proj2 (GroupFacts.mapM_getitem_ok df value_cols)) as [vs ->].
    { intros c Hc. apply H. constructor. exact Hc. }
    simpl. eauto.
Qed.

(** X2 at the demographic sample, asked for a biometric column it does
    not have. *)
Lemma X2_groupby_sum_witness :
  Agg.groupby_sum Samples.demo_frame "district" ["demo_age_17_"; "bio_age_17_"]
  = Raise KeyError.
Proof.
  destruct (Agg.groupby_sum Samples.demo_frame "district" ["demo_age_17_"; "bio_age_17_"])
    as [t|e] eqn:E.
  - vm_compute in E. discriminate.
  - f_equal.
    apply (proj2 (X2_groupby_sum_key_error Samples.demo_frame "district" ["demo_age_17_"; "bio_age_17_"]
                    eq_refl) e E).
Defined.

(** ** The normaliser, continued *)

Module CleanMore.
Import Pd Normalizer NormalizerFacts CleanFacts.

(** Where the guarded branch of [clean] finds each column of its result. *)
Lemma guarded_lookup m df col c :
  cols (fill_numeric
          (setitem df "state" (mkSeries Object (normalize_cell m <$> s_values col)))) !! c
  = if decide (c = "state")
    then Some (mkSeries Object (normalize_cell m <$> s_values col))
    else (fun s => if is_numeric (s_dtype s) then fillna0 s else s) <$> cols df !! c.
Proof.
  unfold fill_numeric, setitem. simpl. rewrite lookup_fmap.
  destruct (decide (c = "state")) as [->|Hne].
  - rewrite lookup_insert_eq. reflexivity.
  - rewrite lookup_insert_ne by congruence. reflexivity.
Qed.

(** [clean] either takes its guarded branch or returns its argument. *)
Lemma clean_cases m df df1 :
  clean m df = Ok df1 ->
  df1 = df
  \/ (is_empty df = false
      /\ exists col,
           cols df !! "state" = Some col /\ s_dtype col = Object
           /\ df1 = fill_numeric
                      (setitem df "state"
                         (mkSeries Object (normalize_cell m <$> s_values col)))).
Proof.
  intros H. destruct (negb (is_empty df) && has_column "state" df) eqn:G.
  - apply andb_true_iff in G as [Ge Gs]. apply negb_true_iff in Ge.
    right. split; [exact Ge|]. apply (clean_guarded m df df1 H Ge Gs).
  - left. unfold clean in H. rewrite G in H. congruence.
Qed.

Lemma fill_cell_number z : fill_cell (Num z) = Num z.
Proof. reflexivity. Qed.

Lemma normalize_name_trimmed m s :
  PyStr.strip (normalize_name m s) = normalize_name m s
  /\ PyStr.title (normalize_name m s) = normalize_name m s.
Proof.
  unfold normalize_name. split.
  - rewrite PyStrFacts.strip_title, PyStrFacts.strip_idem. reflexivity.
  - apply PyStrFacts.title_idem.
Qed.

Lemma clean_raise_inv m df e :
  clean m df = Raise e ->
  e = AttributeError
  /\ is_empty df = false
  /\ exists col, cols df !! "state" = Some col /\ s_dtype col <> Object.
Proof.
  unfold clean. destruct (is_empty df); simpl; [discriminate|].
  destruct (has_column "state" df) eqn:Gs; [|discriminate].
  apply NormalizerFacts.has_column_true in Gs as [col Hc].
  unfold getitem. rewrite Hc. simpl.
  rewrite NormalizerFacts.normalize_states_spec.
  destruct (s_dtype col) eqn:Hd; simpl; try discriminate;
    intros [= <-]; (split; [reflexivity|]); (split; [reflexivity|]);
    exists col; rewrite Hd; split; congruence.
Qed.

End CleanMore.

(** X3: a pass of the normaliser keeps the shape of the table: the row
    count, the set of columns, and the dtype and length of every column;
    it leaves every column other than the state column that is not numeric
    (dates, districts) exactly as it was, and it never changes a count
    that is present. *)
Theorem X3_clean_keeps_shape (m : list (string * string)) (df df1 : DataFrame) :
  Normalizer.clean m df = Ok df1 ->
  nrows df1 = nrows df
  /\ dom (cols df1) = dom (cols df)
  /\ (forall c s1,
        cols df1 !! c = Some s1 ->
        exists s, cols df !! c = Some s /\ s_dtype s1 = s_dtype s
                  /\ length (s_values s1) = length (s_values s))
  /\ (forall c s,
        c <> "state" -> cols df !! c = Some s -> Pd.is_numeric (s_dtype s) = false ->
        cols df1 !! c = Some s)
  /\ (forall c s i z,
        cols df !! c = Some s -> Pd.is_numeric (s_dtype s) = true ->
        s_values s !! i = Some (Num z) ->
        exists s1, cols df1 !! c = Some s1 /\ s_values s1 !! i = Some (Num z)).
Proof.
  intros H. destruct (CleanMore.clean_cases m df df1 H) as [->|(Ge & col & Hc & Hd & ->)].
  - repeat split; eauto.
  - split; [reflexivity|]. split; [|split; [|split]].
    + unfold Pd.fill_numeric, Pd.setitem. simpl.
      rewrite dom_fmap_L. apply dom_insert_lookup_L. eauto.
    + intros c s1. rewrite CleanMore.guarded_lookup.
      destruct (decide (c = "state")) as [->|Hne].
      * intros [= <-]. exists col. simpl. rewrite length_fmap. auto.
      * destruct (cols df !! c) as [s|]; simpl; [|discriminate].
        intros [= <-]. exists s. split; [reflexivity|].
        destruct (Pd.is_numeric (s_dtype s)); simpl; rewrite ?length_map; auto.
    + intros c s Hne Hs Hn. rewrite CleanMore.guarded_lookup.
      rewrite decide_False by exact Hne. rewrite Hs. simpl. rewrite Hn. reflexivity.
    + intros c s i z Hs Hn Hi. rewrite CleanMore.guarded_lookup.
      destruct (decide (c = "state")) as [->|Hne].
      * rewrite Hc in Hs. injection Hs as <-. rewrite Hd in Hn. discriminate.
      * rewrite Hs. simpl. rewrite Hn. eexists. split; [reflexivity|].
        simpl. change (map Pd.fill_cell (s_values s)) with (Pd.fill_cell <$> s_values s).
        rewrite list_lookup_fmap, Hi. reflexivity.
Qed.

(** X3 at the sample frame with two aliases, padding and a missing count. *)
Lemma X3_clean_keeps_shape_witness :
  nrows Samples.plain_clean = nrows Samples.plain
  /\ dom (cols Samples.plain_clean) = dom (cols Samples.plain)
  /\ (forall c s1,
        cols Samples.plain_clean !! c = Some s1 ->
        exists s, cols Samples.plain !! c = Some s /\ s_dtype s1 = s_dtype s
                  /\ length (s_values s1) = length (s_values s))
  /\ (forall c s,
        c <> "state" -> cols Samples.plain !! c = Some s ->
        Pd.is_numeric (s_dtype s) = false ->
        cols Samples.plain_clean !! c = Some s)
  /\ (forall c s i z,
        cols Samples.plain !! c = Some s -> Pd.is_numeric (s_dtype s) = true ->
        s_values s !! i = Some (Num z) ->
        exists s1, cols Samples.plain_clean !! c = Some s1
                   /\ s_values s1 !! i = Some (Num z)).
Proof.
  apply (X3_clean_keeps_shape Normalizer.state_map Samples.plain Samples.plain_clean).
  vm_compute. reflexivity.
Defined.

(** X4: the normaliser raises in one situation only: the table has rows
    and columns and its state column is not an object column; what it
    raises then is an AttributeError. *)
Theorem X4_clean_raises_only_on_non_text_states
    (m : list (string * string)) (df : DataFrame) (e : exn) :
  Normalizer.clean m df = Raise e
  <-> e = AttributeError
      /\ Pd.is_empty df = false
      /\ exists col, cols df !! "state" = Some col /\ s_dtype col <> Object.
Proof.
  split; [apply CleanMore.clean_raise_inv|].
  intros (-> & Ge & col & Hc & Hd). unfold Normalizer.clean. rewrite Ge.
  rewrite (proj2 (NormalizerFacts.has_column_true "state" df) (ex_intro _ _ Hc)).
  simpl. unfold Pd.getitem. rewrite Hc. simpl.
  rewrite NormalizerFacts.normalize_states_spec.
  destruct (s_dtype col); simpl; congruence.
Qed.

(** X5: after a pass over a table with rows and columns whose region
    names are ASCII text (the alias table having ASCII canonical names),
    every region name in the state column is ASCII text, trimmed and in
    title case. *)
Theorem X5_clean_names_trimmed_and_titled
    (m : list (string * string)) (df df1 : DataFrame) (col : Series) (s : string) :
  Normalizer.ascii_table m = true ->
  Normalizer.ascii_names df = true ->
  Normalizer.clean m df = Ok df1 ->
  Pd.is_empty df = false ->
  cols df1 !! "state" = Some col ->
  Str s ∈ s_values col ->
  PyStr.is_ascii s = true /\ PyStr.strip s = s /\ PyStr.title s = s.
Proof.
  intros Hm Ha H Ge Hcol Hs. split.
  { pose proof (AsciiFacts.clean_ascii m df df1 Hm Ha H) as A.
    unfold Normalizer.ascii_names in A. rewrite Hcol in A.
    rewrite forallb_forall in A. apply (A (Str s)), list_elem_of_In, Hs. }
  destruct (CleanMore.clean_cases m df df1 H) as [->|(_ & col0 & Hc & Hd & ->)].
  - unfold Normalizer.clean in H. rewrite Ge in H.
    rewrite (proj2 (NormalizerFacts.has_column_true "state" df) (ex_intro _ _ Hcol)) in H.
    simpl in H. unfold Pd.getitem in H. rewrite Hcol in H. simpl in H.
    rewrite NormalizerFacts.normalize_states_spec in H.
    destruct (s_dtype col) eqn:Hd; simpl in H; try discriminate.
    injection H as H. apply (f_equal (fun d => cols d !! "state")) in H.
    rewrite CleanMore.guarded_lookup, decide_True in H by reflexivity.
    rewrite Hcol in H. injection H as H. rewrite <- H in Hs. simpl in Hs.
    apply list_elem_of_fmap in Hs as (c & Hc & _).
    destruct c; try discriminate. injection Hc as ->.
    apply CleanMore.normalize_name_trimmed.
  - rewrite CleanMore.guarded_lookup, decide_True in Hcol by reflexivity.
    injection Hcol as <-. simpl in Hs.
    apply list_elem_of_fmap in Hs as (c & Hc' & _).
    destruct c; try discriminate. injection Hc' as ->.
    apply CleanMore.normalize_name_trimmed.
Qed.

(** X5 at the sample frame: ' west bengal ' has become 'West Bengal'. *)
Lemma X5_clean_names_witness :
  PyStr.is_ascii "West Bengal" = true
  /\ PyStr.strip "West Bengal" = "West Bengal"
  /\ PyStr.title "West Bengal" = "West Bengal".
Proof.
  apply (X5_clean_names_trimmed_and_titled Normalizer.state_map Samples.plain
           Samples.plain_clean (mkSeries Object [Str "Odisha"; Str "West Bengal"; NaN])
           "West Bengal").
  - vm_compute. reflexivity.
  - vm_compute. reflexivity.
  - vm_compute. reflexivity.
  - vm_compute. reflexivity.
  - vm_compute. reflexivity.
  - apply (bool_decide_eq_true_1 _). vm_compute. reflexivity.
Defined.

(** ** The loaders, continued *)

Module LoaderMore.
Import Pd Concat Loader.

Lemma coerce_date_is_date c : is_date_cell (coerce_date c) = true.
Proof.
  destruct c as [| |s| |d]; simpl; try reflexivity.
  destruct (Strptime.strptime_dmy s); reflexivity.
Qed.

Lemma date_column_spec s :
  date_column s = true
  <-> s_dtype s = Datetime64 /\ Forall (fun c => is_date_cell c = true) (s_values s).
Proof.
  unfold date_column. rewrite Forall_forall.
  destruct (s_dtype s); rewrite ?forallb_forall; split;
    try discriminate; try (intros [? ?]; discriminate).
  - intros H. split; [reflexivity|]. intros c Hc. apply H, list_elem_of_In, Hc.
  - intros [_ H] c Hc. apply H, list_elem_of_In, Hc.
Qed.

Lemma to_datetime_date_column s : date_column (to_datetime s) = true.
Proof.
  apply date_column_spec. split; [reflexivity|]. simpl. apply Forall_forall. intros c Hc.
  apply list_elem_of_fmap in Hc as (c0 & -> & _). apply coerce_date_is_date.
Qed.

Lemma column_dtypes_all c dfs :
  (forall df, df ∈ dfs -> exists s, cols df !! c = Some s /\ date_column s = true) ->
  column_dtypes c dfs = replicate (length dfs) Datetime64 /\ padded c dfs = false.
Proof.
  induction dfs as [|df dfs IH]; intros H; [split; reflexivity|].
  destruct (H df) as (s & Hs & [Hd _]%date_column_spec); [constructor|].
  destruct IH as [IH1 IH2]; [intros d Hd'; apply H; constructor; exact Hd'|].
  unfold column_dtypes, padded in *. simpl. rewrite Hs. simpl.
  rewrite Hd. split; [f_equal; exact IH1|].
  unfold has_column. rewrite Hs. rewrite bool_decide_eq_true_2 by eauto. exact IH2.
Qed.

Lemma common_dtype_dates n : common_dtype (replicate (S n) Datetime64) false = Datetime64.
Proof.
  simpl. replace (forallb (same_dtype Datetime64) (replicate n Datetime64)) with true;
    [reflexivity|].
  symmetry. induction n as [|n IH]; simpl; [reflexivity|exact IH].
Qed.

(** Stacking frames that all carry a column of parsed dates gives a frame
    with a column of parsed dates. *)
Lemma stack_date_column c dfs :
  dfs <> [] ->
  (forall df, df ∈ dfs -> exists s, cols df !! c = Some s /\ date_column s = true) ->
  exists col, cols (stack dfs) !! c = Some col /\ date_column col = true.
Proof.
  intros Hne H. exists (concat_column c dfs). split.
  - rewrite ConcatFacts.stack_lookup. rewrite decide_True; [reflexivity|].
    apply ConcatFacts.elem_of_all_columns.
    destruct dfs as [|df dfs]; [contradiction|]. exists df.
    destruct (H df) as (s & Hs & _); [constructor|]. split; [constructor|eauto].
  - destruct (column_dtypes_all c dfs H) as [Hd Hp].
    unfold concat_column. rewrite Hd, Hp.
    destruct dfs as [|df dfs]; [contradiction|]. cbn [length].
    rewrite common_dtype_dates. apply date_column_spec.
    split; [reflexivity|]. cbn [s_values].
    apply Forall_forall. intros x Hx.
    apply list_elem_of_join in Hx as (l & Hx & Hl).
    apply list_elem_of_fmap in Hl as (d & -> & Hd').
    destruct (H d Hd') as (s & Hs & [_ Hall]%date_column_spec).
    unfold piece in Hx. rewrite Hs in Hx.
    rewrite Forall_forall in Hall. apply Hall. exact Hx.
Qed.

Section WithFiles.
Variable read_csv : string -> result DataFrame.

Lemma loaded_has_dates paths df :
  df ∈ loaded read_csv paths ->
  exists s, cols df !! "date" = Some s /\ date_column s = true.
Proof.
  intros H. apply LoaderFacts.elem_of_loaded in H as (p & raw & col & _ & _ & _ & ->).
  exists (to_datetime col). split; [simpl; apply lookup_insert_eq|].
  apply to_datetime_date_column.
Qed.

Lemma loaded_length paths : (length (loaded read_csv paths) <= length paths)%nat.
Proof.
  unfold loaded. induction paths as [|p paths IH]; [reflexivity|].
  cbn [omap list_omap length]. destruct (try_load read_csv p); cbn [length]; lia.
Qed.

Lemma frame_of_empty_iff paths :
  frame_of (loaded read_csv paths) = empty_frame <-> loaded read_csv paths = [].
Proof.
  split; [|intros ->; reflexivity].
  destruct (loaded read_csv paths) as [|d ds] eqn:E; [reflexivity|].
  intros H. exfalso.
  destruct (stack_date_column "date" (d :: ds)) as (col & Hc & _); [discriminate| |].
  - intros df Hdf. apply (loaded_has_dates paths). rewrite E. exact Hdf.
  - cbn [frame_of] in H. rewrite H in Hc. simpl in Hc. rewrite lookup_empty in Hc.
    discriminate.
Qed.

End WithFiles.

(** A pass of the normaliser returns [pd.DataFrame()] only for it. *)
Lemma clean_empty_iff m df df1 :
  Normalizer.clean m df = Ok df1 -> (df1 = empty_frame <-> df = empty_frame).
Proof.
  intros H. destruct (CleanMore.clean_cases m df df1 H) as [->|(Ge & col & Hc & _ & ->)];
    [reflexivity|].
  split; intros E; exfalso.
  - apply (f_equal (fun d => cols d !! "state")) in E.
    rewrite CleanMore.guarded_lookup, decide_True in E by reflexivity. discriminate.
  - rewrite E in Ge. discriminate.
Qed.

Lemma clean_keeps_dates m df df1 s :
  Normalizer.clean m df = Ok df1 ->
  cols df !! "date" = Some s -> date_column s = true ->
  cols df1 !! "date" = Some s.
Proof.
  intros H Hs [Hd _]%date_column_spec.
  destruct (CleanMore.clean_cases m df df1 H) as [->|(_ & col & _ & _ & ->)];
    [exact Hs|].
  rewrite CleanMore.guarded_lookup, decide_False by discriminate.
  rewrite Hs. simpl. rewrite Hd. reflexivity.
Qed.

End LoaderMore.

(** X6: whatever reading the files does, neither [load_key] nor
    [load_files] raises; they return the same frame; the file count is at
    most the number of matched paths, and it is zero exactly when the
    frame is [pd.DataFrame()]. *)
Theorem X6_loaders_never_raise (read_csv : string -> result DataFrame) (paths : list string) :
  exists df n,
    Loader.load_key read_csv paths = Ok (df, n)
    /\ Loader.load_files read_csv paths = Ok df
    /\ (n <= length paths)%nat
    /\ (n = 0%nat <-> df = Pd.empty_frame).
Proof.
  exists (Loader.frame_of (Loader.loaded read_csv paths)),
         (length (Loader.loaded read_csv paths)).
  split; [apply LoaderFacts.load_key_spec|].
  split; [apply LoaderFacts.load_files_spec|].
  split; [apply LoaderMore.loaded_length|].
  rewrite LoaderMore.frame_of_empty_iff. apply length_zero_iff_nil.
Qed.

(** X7: when [load_data_recursive] returns, then for each category the
    logged file count is at most the number of paths found for it, it is
    zero exactly when the category's table is [pd.DataFrame()], and
    otherwise the table has a date column of datetime dtype whose cells
    are all dates or NaT. *)
Theorem X7_loaded_tables_have_dates
    (read_csv : string -> result DataFrame) (walk : list Discovery.walk_entry)
    (final : store DataFrame) (log : store nat) (k : category) :
  Pipeline.load_data_recursive read_csv walk = Ok (final, log) ->
  (store_get k log <= length (store_get k (Discovery.scan walk)))%nat
  /\ (store_get k log = 0%nat <-> store_get k final = Pd.empty_frame)
  /\ ((0 < store_get k log)%nat ->
      exists col, cols (store_get k final) !! "date" = Some col /\ date_column col = true).
Proof.
  rewrite PipelineFacts.load_data_recursive_spec. cbv zeta. intros H.
  destruct (Normalizer.clean _ (Loader.frame_of (Loader.loaded read_csv (enrol _))))
    as [e|] eqn:He; cbn [bind] in H; [|discriminate].
  destruct (Normalizer.clean _ (Loader.frame_of (Loader.loaded read_csv (bio _))))
    as [b|] eqn:Hb; cbn [bind] in H; [|discriminate].
  destruct (Normalizer.clean _ (Loader.frame_of (Loader.loaded read_csv (demo _))))
    as [d|] eqn:Hd; cbn [bind] in H; [|discriminate].
  injection H as <- <-.
  assert (G : forall paths df1,
             Normalizer.clean Normalizer.state_map
               (Loader.frame_of (Loader.loaded read_csv paths)) = Ok df1 ->
             (length (Loader.loaded read_csv paths) <= length paths)%nat
             /\ (length (Loader.loaded read_csv paths) = 0%nat <-> df1 = Pd.empty_frame)
             /\ ((0 < length (Loader.loaded read_csv paths))%nat ->
                 exists col, cols df1 !! "date" = Some col /\ date_column col = true)).
  { intros paths df1 Hc. split; [apply LoaderMore.loaded_length|]. split.
    - rewrite (LoaderMore.clean_empty_iff _ _ _ Hc), LoaderMore.frame_of_empty_iff.
      apply length_zero_iff_nil.
    - intros Hpos.
      destruct (Loader.loaded read_csv paths) as [|d0 ds] eqn:E; [simpl in Hpos; lia|].
      destruct (LoaderMore.stack_date_column "date" (d0 :: ds)) as (col & Hcol & Hdc);
        [discriminate| |].
      + intros df Hdf. apply (LoaderMore.loaded_has_dates read_csv paths).
        rewrite E. exact Hdf.
      + exists col. split; [|exact Hdc].
        apply (LoaderMore.clean_keeps_dates _ _ _ _ Hc Hcol Hdc). }
  destruct k; simpl; eauto.
Qed.

(** X7 at the sample tree and disk, for the enrolment category. *)
Lemma X7_loaded_tables_witness :
  (store_get Enrol (mkStore 1 0 0)
   <= length (store_get Enrol (Discovery.scan Samples.tree)))%nat
  /\ (store_get Enrol (mkStore 1 0 0) = 0
      <-> store_get Enrol MoreSamples.loaded_tree = Pd.empty_frame)%nat
  /\ ((0 < store_get Enrol (mkStore 1 0 0))%nat ->
      exists col, cols (store_get Enrol MoreSamples.loaded_tree) !! "date" = Some col
                  /\ date_column col = true).
Proof.
  apply (X7_loaded_tables_have_dates Samples.read_sample Samples.tree).
  vm_compute. reflexivity.
Defined.

(** X8: a failure to read never reaches the caller of
    [load_data_recursive]: the only exception it can raise is the
    AttributeError of a category whose stacked table has rows and a state
    column that is not an object column. *)
Theorem X8_load_data_recursive_raises_only_attribute_error
    (read_csv : string -> result DataFrame) (walk : list Discovery.walk_entry) (e : exn) :
  Pipeline.load_data_recursive read_csv walk = Raise e ->
  e = AttributeError
  /\ exists k col,
       cols (Loader.frame_of
               (Loader.loaded read_csv (store_get k (Discovery.scan walk)))) !! "state"
       = Some col
       /\ s_dtype col <> Object.
Proof.
  rewrite PipelineFacts.load_data_recursive_spec. cbv zeta.
  destruct (Normalizer.clean _ (Loader.frame_of (Loader.loaded read_csv (enrol _))))
    as [e1|e1] eqn:He; cbn [bind].
  - destruct (Normalizer.clean _ (Loader.frame_of (Loader.loaded read_csv (bio _))))
      as [b1|b1] eqn:Hb; cbn [bind].
    + destruct (Normalizer.clean _ (Loader.frame_of (Loader.loaded read_csv (demo _))))
        as [d1|d1] eqn:Hd; cbn [bind]; [discriminate|].
      intros [= <-]. apply CleanMore.clean_raise_inv in Hd as (-> & _ & col & Hc & Hn).
      split; [reflexivity|]. exists Demo, col. auto.
    + intros [= <-]. apply CleanMore.clean_raise_inv in Hb as (-> & _ & col & Hc & Hn).
      split; [reflexivity|]. exists Bio, col. auto.
  - intros [= <-]. apply CleanMore.clean_raise_inv in He as (-> & _ & col & Hc & Hn).
    split; [reflexivity|]. exists Enrol, col. auto.
Qed.

(** X8 at a disk whose only readable extract has numbers in its state
    column. *)
Lemma X8_raises_witness :
  AttributeError = AttributeError
  /\ exists k col,
       cols (Loader.frame_of
               (Loader.loaded MoreSamples.read_numeric_states
                  (store_get k (Discovery.scan Samples.tree)))) !! "state"
       = Some col
       /\ s_dtype col <> Object.
Proof.
  apply (X8_load_data_recursive_raises_only_attribute_error
           MoreSamples.read_numeric_states Samples.tree AttributeError).
  vm_compute. reflexivity.
Defined.

(** ** Discovery, continued *)

Module DiscoveryMore.
Import Discovery.

Lemma walk_files_app w1 w2 : walk_files (w1 ++ w2) = (walk_files w1 ++ walk_files w2)%list.
Proof. unfold walk_files. apply flat_map_app. Qed.

Lemma classified_count (l : list (string * string)) :
  (length (filter (fun rf => classify rf.2 = Some Enrol) l)
   + length (filter (fun rf => classify rf.2 = Some Bio) l)
   + length (filter (fun rf => classify rf.2 = Some Demo) l)
   = length (filter (fun rf => is_Some (classify rf.2)) l))%nat.
Proof.
  induction l as [|[r f] l IH]; [reflexivity|].
  rewrite !filter_cons. cbn [snd].
  destruct (classify f) as [[]|] eqn:E;
    repeat (first [rewrite decide_True by eauto | rewrite decide_False by
              (first [discriminate | intros [? ?]; discriminate])]);
    cbn [length]; lia.
Qed.

End DiscoveryMore.

(** X9: scanning is compositional and bounded: the lists found in a walk
    that continues another are those of the first followed by those of the
    second, and the three lists together hold one path for each visited
    file whose name classifies, hence at most one per visited file. *)
Theorem X9_scan_composes (w1 w2 : list Discovery.walk_entry) :
  (forall k,
      store_get k (Discovery.scan (w1 ++ w2))
      = (store_get k (Discovery.scan w1) ++ store_get k (Discovery.scan w2))%list)
  /\ (length (enrol (Discovery.scan w1)) + length (bio (Discovery.scan w1))
      + length (demo (Discovery.scan w1))
      = length (filter (fun rf => is_Some (Discovery.classify rf.2))
                  (Discovery.walk_files w1)))%nat
  /\ (length (enrol (Discovery.scan w1)) + length (bio (Discovery.scan w1))
      + length (demo (Discovery.scan w1))
      <= length (Discovery.walk_files w1))%nat.
Proof.
  assert (Hcount :
    (length (enrol (Discovery.scan w1)) + length (bio (Discovery.scan w1))
     + length (demo (Discovery.scan w1))
     = length (filter (fun rf => is_Some (Discovery.classify rf.2))
                 (Discovery.walk_files w1)))%nat).
  { rewrite <- DiscoveryMore.classified_count.
    pose proof (DiscoveryFacts.scan_collected Enrol w1) as HE.
    pose proof (DiscoveryFacts.scan_collected Bio w1) as HB.
    pose proof (DiscoveryFacts.scan_collected Demo w1) as HD.
    simpl in HE, HB, HD. rewrite HE, HB, HD, !length_map. reflexivity. }
  split; [|split; [exact Hcount|]].
  - intros k. rewrite !DiscoveryFacts.scan_collected, DiscoveryMore.walk_files_app.
    rewrite filter_app, map_app. reflexivity.
  - rewrite Hcount. apply length_filter.
Qed.

(** ** [load_all_data] of [temo.py], continued *)

Module TemoFacts.

Lemma mapM_app {A B : Type} (f : A -> result B) l1 l2 :
  mapM f (l1 ++ l2)
  = (ys <-- mapM f l1; zs <-- mapM f l2; Ok (ys ++ zs)%list).
Proof.
  induction l1 as [|x l1 IH]; simpl.
  - destruct (mapM f l2); reflexivity.
  - destruct (f x); simpl; [|reflexivity]. rewrite IH.
    destruct (mapM f l1); simpl; [|reflexivity].
    destruct (mapM f l2); reflexivity.
Qed.

Lemma mapM_all_ok {A B : Type} (f : A -> result B) l :
  (forall x, x ∈ l -> exists y, f x = Ok y) -> exists ys, mapM f l = Ok ys.
Proof.
  induction l as [|x l IH]; intros H; simpl; [eauto|].
  destruct (H x) as [y ->]; [constructor|]. simpl.
  destruct IH as [ys ->]; [intros z Hz; apply H; constructor; exact Hz|].
  simpl. eauto.
Qed.

End TemoFacts.

(** X10: [load_all_data] of [temo.py] has no tolerance: the first file of
    a category that cannot be read, or that lacks a date or a state
    column, or whose state column is not text, aborts the load of the
    category with its exception, whatever files follow. *)
Theorem X10_temo_first_failure_aborts
    (read_csv : string -> result DataFrame) (ps1 ps2 : list string) (p : string) (e : exn) :
  (forall q, q ∈ ps1 -> exists df, (raw <-- read_csv q; Normalizer.clean_df raw) = Ok df) ->
  (raw <-- read_csv p; Normalizer.clean_df raw) = Raise e ->
  Pipeline.load_category_temo read_csv (ps1 ++ p :: ps2) = Raise e.
Proof.
  intros Hok Hbad. unfold Pipeline.load_category_temo.
  rewrite TemoFacts.mapM_app.
  destruct (TemoFacts.mapM_all_ok _ ps1 Hok) as [ys ->]. cbn [bind mapM].
  rewrite Hbad. reflexivity.
Qed.

(** X10 at a good extract followed by one without a state column. *)
Lemma X10_temo_first_failure_witness :
  Pipeline.load_category_temo MoreSamples.read_mixed
    ([Samples.file0] ++ Samples.file2 :: [Samples.file1]) = Raise KeyError.
Proof.
  apply (X10_temo_first_failure_aborts MoreSamples.read_mixed
           [Samples.file0] [Samples.file1] Samples.file2 KeyError).
  - intros q Hq. apply list_elem_of_singleton in Hq as ->.
    eexists. vm_compute. reflexivity.
  - vm_compute. reflexivity.
Defined.

(** ** The reports *)

Module ReportFacts.
Import Pd Agg Report.

Lemma zsum_zero {A : Type} (g : A -> Z) (l : list A) :
  (forall x, x ∈ l -> g x = 0%Z) -> zsum (g <$> l) = 0%Z.
Proof.
  induction l as [|x l IH]; intros H; [reflexivity|].
  rewrite fmap_cons. unfold zsum in *. cbn [foldr].
  rewrite (H x) by constructor. rewrite IH; [reflexivity|].
  intros y Hy. apply H. constructor. exact Hy.
Qed.

(** The numeric total of a well-formed frame without rows or without
    columns is zero. *)
Lemma frame_total_empty df :
  is_empty df = true -> Concat.well_formed df = true -> frame_total df = 0%Z.
Proof.
  intros He Hwf. unfold frame_total. apply zsum_zero. intros [c s] Hin.
  apply list_elem_of_filter in Hin as [_ Hin]. apply elem_of_map_to_list in Hin.
  unfold is_empty in He. apply orb_true_iff in He as [Hn|Hc].
  - apply Nat.eqb_eq in Hn.
    pose proof (ConcatFacts.well_formed_column df c s Hwf Hin) as Hl.
    rewrite Hn in Hl. simpl. destruct (s_values s); [reflexivity|discriminate].
  - apply bool_decide_eq_true in Hc. rewrite Hc, lookup_empty in Hin. discriminate.
Qed.

End ReportFacts.

Module TotalFacts.
Import Pd Agg Report.

Lemma zsum_app l1 l2 : zsum (l1 ++ l2) = (zsum l1 + zsum l2)%Z.
Proof. unfold zsum. induction l1 as [|x l1 IH]; simpl; [reflexivity|]. rewrite IH. lia. Qed.

Lemma zsum_perm l l' : l ≡ₚ l' -> zsum l = zsum l'.
Proof. unfold zsum. induction 1; simpl; lia. Qed.

Lemma zsum_replicate_0 n : zsum (replicate n 0%Z) = 0%Z.
Proof. unfold zsum. induction n as [|n IH]; simpl; [reflexivity|exact IH]. Qed.

Lemma zsum_zip_with_add a : forall b,
  length a = length b -> zsum (zip_with Z.add a b) = (zsum a + zsum b)%Z.
Proof.
  unfold zsum. induction a as [|x a IH]; intros [|y b] H; simpl in *; try discriminate;
    [reflexivity|].
  rewrite IH by congruence. lia.
Qed.

Lemma row_totals_length n vals :
  Forall (fun s => length (s_values s) = n) vals -> length (row_totals n vals) = n.
Proof.
  induction 1 as [|s vals Hs _ IH]; simpl; [apply length_replicate|].
  rewrite length_zip_with, length_fmap, Hs, IH. lia.
Qed.

(** Summing the row totals is summing the columns: the two orders of
    [.sum().sum()] and [.sum(axis=1)] agree on columns as long as the
    index. *)
Lemma zsum_row_totals n vals :
  Forall (fun s => length (s_values s) = n) vals ->
  zsum (row_totals n vals) = zsum ((fun s => zsum (num_of <$> s_values s)) <$> vals).
Proof.
  induction 1 as [|s vals Hs Hv IH]; simpl; [apply zsum_replicate_0|].
  rewrite zsum_zip_with_add.
  - rewrite IH. reflexivity.
  - rewrite length_fmap, Hs. symmetry. apply row_totals_length, Hv.
Qed.

Lemma filter_all {A} (P : A -> Prop) `{forall x, Decision (P x)} (l : list A) :
  Forall P l -> filter P l = l.
Proof.
  induction 1 as [|x l Hx _ IH]; [reflexivity|].
  rewrite filter_cons, decide_True by exact Hx. rewrite IH. reflexivity.
Qed.

(** With no key missing, the grouped table adds up to the sum of all
    row totals. *)
Lemma group_sum_total keys totals :
  Forall (fun c => isna c = false) keys ->
  length keys = length totals ->
  series_total (group_sum keys totals) = zsum totals.
Proof.
  intros Hk Hl. unfold group_sum.
  rewrite GroupFacts.add_rows_total, GroupFacts.series_total_empty.
  rewrite filter_all.
  - rewrite snd_zip by lia. reflexivity.
  - apply Forall_forall. intros [k v] Hin. simpl.
    apply elem_of_zip_l in Hin. rewrite Forall_forall in Hk. apply Hk, Hin.
Qed.

Lemma filter_ext_in {A} (P Q : A -> Prop)
    `{forall x, Decision (P x)} `{forall x, Decision (Q x)} (l : list A) :
  (forall x, x ∈ l -> P x <-> Q x) -> filter P l = filter Q l.
Proof.
  induction l as [|x l IH]; intros E; [reflexivity|].
  rewrite !filter_cons. rewrite IH by (intros y Hy; apply E; constructor; exact Hy).
  assert (Ex : P x <-> Q x) by (apply E; constructor).
  destruct (decide (P x)) as [HP|HP], (decide (Q x)) as [HQ|HQ]; try reflexivity;
    exfalso; tauto.
Qed.

Lemma numeric_columns_all df key k :
  cols df !! key = Some k -> is_numeric (s_dtype k) = false ->
  numeric_columns df key
  = (filter (fun p : string * Series => is_numeric (s_dtype p.2) = true)
            (map_to_list (cols df))).*2.
Proof.
  intros Hk Hn. unfold numeric_columns. f_equal.
  apply filter_ext_in. intros [c s] Hin. simpl.
  apply elem_of_map_to_list in Hin. split; [tauto|].
  intros Hs. split; [|exact Hs]. intros ->. congruence.
Qed.

(** The totals of the groups add up to the total of the numeric cells of
    the frame. *)
Lemma grouped_total df key k :
  Concat.well_formed df = true ->
  cols df !! key = Some k ->
  is_numeric (s_dtype k) = false ->
  Forall (fun c => isna c = false) (s_values k) ->
  groupby_sum_numeric df key
  = Ok (group_sum (s_values k) (row_totals (nrows df) (numeric_columns df key)))
  /\ series_total (group_sum (s_values k) (row_totals (nrows df) (numeric_columns df key)))
     = frame_total df.
Proof.
  intros Hwf Hk Hn Hna.
  pose proof (proj1 (LoaderFacts.well_formed_iff df) Hwf) as Hlen.
  unfold groupby_sum_numeric, getitem. rewrite Hk. split; [reflexivity|].
  assert (Hall : Forall (fun s => length (s_values s) = nrows df) (numeric_columns df key)).
  { apply Forall_forall. intros s Hs. unfold numeric_columns in Hs.
    apply list_elem_of_fmap in Hs as ([c s'] & -> & Hin).
    apply list_elem_of_filter in Hin as [_ Hin]. apply elem_of_map_to_list in Hin.
    simpl. eauto. }
  rewrite group_sum_total.
  - rewrite (zsum_row_totals _ _ Hall), (numeric_columns_all df key k Hk Hn).
    unfold frame_total. rewrite <- list_fmap_compose. reflexivity.
  - exact Hna.
  - rewrite (row_totals_length _ _ Hall). eauto.
Qed.

Lemma num_of_fill c : num_of (fill_cell c) = num_of c.
Proof. destruct c; reflexivity. Qed.

(** The total of the numeric cells, column by column, a column that is
    not numeric counting for nothing. *)
Lemma frame_total_columns df :
  frame_total df
  = zsum ((fun p : string * Series =>
             if is_numeric (s_dtype p.2) then zsum (num_of <$> s_values p.2) else 0%Z)
            <$> map_to_list (cols df)).
Proof.
  unfold frame_total. induction (map_to_list (cols df)) as [|[c s] l IH]; [reflexivity|].
  rewrite filter_cons, fmap_cons. simpl.
  destruct (is_numeric (s_dtype s)) eqn:E.
  - rewrite decide_True by reflexivity. rewrite fmap_cons.
    unfold zsum in *. simpl. rewrite IH. reflexivity.
  - rewrite decide_False by discriminate. unfold zsum in *. simpl. rewrite IH. reflexivity.
Qed.

Lemma frame_total_fill df : frame_total (fill_numeric df) = frame_total df.
Proof.
  rewrite !frame_total_columns. unfold fill_numeric. simpl.
  rewrite map_to_list_fmap.
  rewrite <- list_fmap_compose. f_equal. apply list_fmap_ext. intros i [c s] _. simpl.
  destruct (is_numeric (s_dtype s)) eqn:E; simpl; rewrite E; [|reflexivity].
  f_equal. rewrite <- list_fmap_compose. apply list_fmap_ext. intros j x _.
  apply num_of_fill.
Qed.

Lemma frame_total_setitem df c old new :
  cols df !! c = Some old ->
  is_numeric (s_dtype old) = false -> is_numeric (s_dtype new) = false ->
  frame_total (setitem df c new) = frame_total df.
Proof.
  intros Hc Ho Hn. rewrite !frame_total_columns. unfold setitem. simpl.
  rewrite <- (insert_delete_eq (cols df) c new).
  rewrite <- (insert_delete_id (cols df) c old Hc) at 2.
  rewrite !(zsum_perm _ _ (fmap_Permutation _ _ _
              (map_to_list_insert _ _ _ (lookup_delete_eq _ _)))).
  rewrite !fmap_cons. simpl. rewrite Ho, Hn. reflexivity.
Qed.

(** A pass of the normaliser changes no total. *)
Lemma clean_frame_total m df df1 :
  Normalizer.clean m df = Ok df1 -> frame_total df1 = frame_total df.
Proof.
  intros H.
  destruct (CleanMore.clean_cases m df df1 H) as [->|(_ & col & Hc & Hd & ->)];
    [reflexivity|].
  rewrite frame_total_fill. apply (frame_total_setitem df "state" col _ Hc).
  - rewrite Hd. reflexivity.
  - reflexivity.
Qed.

Lemma clean_is_empty m df df1 :
  Normalizer.clean m df = Ok df1 -> is_empty df1 = is_empty df.
Proof.
  intros H.
  destruct (CleanMore.clean_cases m df df1 H) as [->|(Ge & col & Hc & Hd & ->)];
    [reflexivity|].
  rewrite Ge. unfold is_empty in *. apply orb_false_iff in Ge as [Gn _].
  apply orb_false_iff. split; [exact Gn|].
  apply bool_decide_eq_false. intros E.
  apply (f_equal (fun m => m !! "state")) in E.
  rewrite CleanMore.guarded_lookup, decide_True, lookup_empty in E by reflexivity.
  discriminate.
Qed.

End TotalFacts.

Module KeyedFacts.
Import Pd Agg Report.

Lemma keyed_total df key :
  Concat.well_formed df = true -> keyed df key = true ->
  exists counts,
    groupby_sum_numeric df key = Ok counts /\ series_total counts = frame_total df.
Proof.
  intros Hwf Hk. unfold keyed in Hk.
  destruct (cols df !! key) as [k|] eqn:E; [|discriminate].
  apply andb_true_iff in Hk as [Hn Hna]. apply negb_true_iff in Hn.
  eexists. apply (TotalFacts.grouped_total df key k Hwf E Hn).
  apply Forall_forall. intros c Hc. rewrite forallb_forall in Hna.
  apply negb_true_iff, Hna, list_elem_of_In, Hc.
Qed.

End KeyedFacts.

(** X11: the totals of the executive summary against the district table
    of the digital-divide page. For well-formed biometric and demographic
    tables with a text district in every row, the summary's update total
    is the sum of all biometric counts of the district table plus, unless
    the biometric table has no rows, the sum of all its demographic
    counts. Both sides count the pincode column. *)
Theorem X11_summary_totals (df_bio df_demo : DataFrame) :
  Concat.well_formed df_bio = true ->
  Concat.well_formed df_demo = true ->
  Report.keyed df_bio "district" = true ->
  Report.keyed df_demo "district" = true ->
  exists bio_count demo_count,
    Agg.groupby_sum_numeric df_bio "district" = Ok bio_count
    /\ Agg.groupby_sum_numeric df_demo "district" = Ok demo_count
    /\ Report.total_updates df_bio df_demo
       = (Report.series_total bio_count
          + (if Pd.is_empty df_bio then 0 else Report.series_total demo_count))%Z.
Proof.
  intros Wb Wd Kb Kd.
  destruct (KeyedFacts.keyed_total df_bio "district" Wb Kb) as (bc & Hb & Tb).
  destruct (KeyedFacts.keyed_total df_demo "district" Wd Kd) as (dc & Hd & Td).
  exists bc, dc. split; [exact Hb|]. split; [exact Hd|].
  rewrite Tb, Td. unfold Report.total_updates.
  destruct (Pd.is_empty df_bio) eqn:E; simpl; [|reflexivity].
  rewrite (ReportFacts.frame_total_empty df_bio E Wb). reflexivity.
Qed.

(** X11 on the sample biometric and demographic tables, pincodes
    included in every count. *)
Lemma X11_summary_totals_witness :
  exists bio_count demo_count,
    Agg.groupby_sum_numeric Samples.bio_frame "district" = Ok bio_count
    /\ Agg.groupby_sum_numeric Samples.demo_frame "district" = Ok demo_count
    /\ Report.total_updates Samples.bio_frame Samples.demo_frame
       = (Report.series_total bio_count + Report.series_total demo_count)%Z
    /\ Report.total_updates Samples.bio_frame Samples.demo_frame
       = (400750 + (822182 + 400901))%Z.
Proof.
  destruct (X11_summary_totals Samples.bio_frame Samples.demo_frame)
    as (bc & dc & Hb & Hd & Hu); try (vm_compute; reflexivity).
  exists bc, dc. split; [exact Hb|]. split; [exact Hd|]. split; [exact Hu|].
  vm_compute. reflexivity.
Defined.

(** X19: the cleaning pass changes none of the totals of the executive
    summary: filling the missing cells of numeric columns with zero and
    rewriting the region names leaves the enrolment total and the update
    total as they are on the loaded tables. *)
Theorem X19_cleaning_keeps_totals (m : list (string * string))
    (df_enrol df_bio df_demo e1 b1 d1 : DataFrame) :
  Normalizer.clean m df_enrol = Ok e1 ->
  Normalizer.clean m df_bio = Ok b1 ->
  Normalizer.clean m df_demo = Ok d1 ->
  Report.total_enrol e1 = Report.total_enrol df_enrol
  /\ Report.total_updates b1 d1 = Report.total_updates df_bio df_demo.
Proof.
  intros He Hb Hd. unfold Report.total_enrol, Report.total_updates.
  rewrite (TotalFacts.clean_is_empty m _ _ He), (TotalFacts.clean_is_empty m _ _ Hb).
  rewrite (TotalFacts.clean_frame_total m _ _ He), (TotalFacts.clean_frame_total m _ _ Hb),
    (TotalFacts.clean_frame_total m _ _ Hd).
  split; reflexivity.
Qed.

(** X19 at the sample frame: 4 + 9 before the fill, 4 + 0 + 9 after. *)
Lemma X19_cleaning_keeps_totals_witness :
  Report.total_enrol Samples.plain_clean = Report.total_enrol Samples.plain
  /\ Report.total_updates Samples.plain_clean Samples.plain_clean
     = Report.total_updates Samples.plain Samples.plain.
Proof.
  apply (X19_cleaning_keeps_totals Normalizer.state_map Samples.plain Samples.plain Samples.plain);
    vm_compute; reflexivity.
Defined.

(** X12: the table of [q1_maintenance_gap] holds a state exactly when the
    state has enrolment, biometric and demographic rows and its enrolment
    total exceeds 1000, and then its update total is the biometric total
    plus the demographic total; a state with no biometric or no
    demographic rows is left out, not counted with zero updates. *)
Theorem X12_maintenance_gap_rows
    (enrol_agg bio_agg demo_agg : gmap cell Z) (k : cell) (en up : Z) :
  Report.df_combined enrol_agg bio_agg demo_agg !! k = Some (en, up)
  <-> enrol_agg !! k = Some en
      /\ (1000 < en)%Z
      /\ exists b d, bio_agg !! k = Some b /\ demo_agg !! k = Some d /\ up = (b + d)%Z.
Proof.
  unfold Report.df_combined, Report.dropna, Report.two_columns, Report.series_add.
  rewrite map_lookup_filter_Some, lookup_omap, !lookup_merge. simpl.
  destruct (enrol_agg !! k) as [e0|], (bio_agg !! k) as [b0|], (demo_agg !! k) as [d0|];
    simpl; split.
  all: try (intros [H _]; discriminate H).
  all: try (intros (H & _ & _); discriminate H).
  all: try (intros (_ & _ & b & d & H1 & H2 & _); discriminate H1 || discriminate H2).
  - intros [[= -> <-] Hlt]. eauto 8.
  - intros ([= ->] & Hlt & b & d & [= <-] & [= <-] & ->). auto.
Qed.

(** X13: in the feature table of [engineer_features] a state's ratio is
    defined only if the state has both biometric and demographic rows, and
    then it is the demographic total divided by the biometric total plus
    one, the value the ratio table of the dashboard holds for the state;
    for a state with demographic rows and no biometric rows the dashboard
    reports the demographic total itself while the feature table reports
    nothing. *)
Theorem X13_feature_ratio_needs_both
    (a0 a5 a18 state_bio state_demo : gmap cell Z) (k : cell) (f : Report.feature) :
  Report.merged a0 a5 a18 state_bio state_demo !! k = Some f ->
  (forall q, Report.digital_drive_ratio f = Some q ->
             is_Some (state_bio !! k) /\ is_Some (state_demo !! k))
  /\ (forall b d r,
        state_bio !! k = Some b -> state_demo !! k = Some d ->
        Agg.ratio_all state_demo state_bio !! k = Some r ->
        Report.digital_drive_ratio f = Agg.Ratio_ r)
  /\ (forall d r,
        state_bio !! k = None -> state_demo !! k = Some d ->
        Agg.ratio_all state_demo state_bio !! k = Some r ->
        Report.digital_drive_ratio f = None
        /\ Agg.Ratio_ r = Some (Q2Qc (inject_Z d))).
Proof.
  unfold Report.merged. rewrite map_lookup_imap.
  destruct (a0 !! k) as [x0|]; simpl; [|discriminate]. intros [= <-]. simpl.
  split; [|split].
  - intros q. unfold Report.nan_ratio.
    destruct (state_demo !! k), (state_bio !! k); try discriminate. eauto.
  - intros b d r Hb Hd Hr. apply AggFacts.ratio_all_lookup in Hr as (Hd' & Hb' & ->).
    rewrite Hb, Hd in *. simpl in *. subst. reflexivity.
  - intros d r Hb Hd Hr. apply AggFacts.ratio_all_lookup in Hr as (Hd' & Hb' & ->).
    rewrite Hb, Hd in *. simpl in *. subst. split; [reflexivity|].
    rewrite Hb'. apply AggFacts.true_div_one.
Qed.

(** X13 at a state with enrolment and demographic rows and no biometric
    row. *)
Lemma X13_feature_ratio_witness :
  (forall q, Report.digital_drive_ratio
               (Report.mkFeature 5 6 7 (Report.percent 7 18) None (Some 40%Z) None) = Some q ->
             is_Some ((∅ : gmap cell Z) !! Str "Goa")
             /\ is_Some (({[ Str "Goa" := 40%Z ]} : gmap cell Z) !! Str "Goa"))
  /\ (forall b d r,
        (∅ : gmap cell Z) !! Str "Goa" = Some b ->
        ({[ Str "Goa" := 40%Z ]} : gmap cell Z) !! Str "Goa" = Some d ->
        Agg.ratio_all {[ Str "Goa" := 40%Z ]} ∅ !! Str "Goa" = Some r ->
        Report.digital_drive_ratio
          (Report.mkFeature 5 6 7 (Report.percent 7 18) None (Some 40%Z) None)
        = Agg.Ratio_ r)
  /\ (forall d r,
        (∅ : gmap cell Z) !! Str "Goa" = None ->
        ({[ Str "Goa" := 40%Z ]} : gmap cell Z) !! Str "Goa" = Some d ->
        Agg.ratio_all {[ Str "Goa" := 40%Z ]} ∅ !! Str "Goa" = Some r ->
        Report.digital_drive_ratio
          (Report.mkFeature 5 6 7 (Report.percent 7 18) None (Some 40%Z) None) = None
        /\ Agg.Ratio_ r = Some (Q2Qc (inject_Z d))).
Proof.
  apply (X13_feature_ratio_needs_both
           {[ Str "Goa" := 5%Z ]} {[ Str "Goa" := 6%Z ]} {[ Str "Goa" := 7%Z ]}
           ∅ {[ Str "Goa" := 40%Z ]} (Str "Goa")).
  reflexivity.
Defined.

Module ShareFacts.
Import Agg Report.
Local Open Scope Q_scope.

Lemma Q_share_bounds (a t : Z) :
  (0 <= a)%Z -> (a <= t)%Z -> (0 < t)%Z ->
  0 <= inject_Z a / inject_Z t * inject_Z 100
  /\ inject_Z a / inject_Z t * inject_Z 100 <= inject_Z 100.
Proof.
  intros Ha Hat Ht.
  assert (Hx : 0 <= inject_Z a) by (change 0 with (inject_Z 0); rewrite <- Zle_Qle; exact Ha).
  assert (Hxy : inject_Z a <= inject_Z t) by (rewrite <- Zle_Qle; exact Hat).
  assert (Hy : 0 < inject_Z t) by (change 0 with (inject_Z 0); rewrite <- Zlt_Qlt; exact Ht).
  assert (H0 : 0 <= inject_Z a / inject_Z t).
  { apply Qle_shift_div_l; [exact Hy|]. rewrite Qmult_0_l. exact Hx. }
  assert (H1 : inject_Z a / inject_Z t <= 1).
  { apply Qle_shift_div_r; [exact Hy|]. rewrite Qmult_1_l. exact Hxy. }
  split.
  - apply Qmult_le_0_compat; [exact H0|discriminate].
  - apply Qle_trans with (1 * inject_Z 100).
    + apply Qmult_le_compat_r; [exact H1|discriminate].
    + rewrite Qmult_1_l. apply Qle_refl.
Qed.

Lemma Q_share_mono (a t1 t2 : Z) :
  (0 <= a)%Z -> (0 < t1)%Z -> (t1 <= t2)%Z ->
  inject_Z a / inject_Z t2 * inject_Z 100 <= inject_Z a / inject_Z t1 * inject_Z 100.
Proof.
  intros Ha Ht1 Ht.
  assert (Hx : 0 <= inject_Z a) by (change 0 with (inject_Z 0); rewrite <- Zle_Qle; exact Ha).
  assert (Hy1 : 0 < inject_Z t1) by (change 0 with (inject_Z 0); rewrite <- Zlt_Qlt; exact Ht1).
  assert (Hy2 : 0 < inject_Z t2) by (change 0 with (inject_Z 0); rewrite <- Zlt_Qlt; lia).
  assert (Hy : inject_Z t1 <= inject_Z t2) by (rewrite <- Zle_Qle; exact Ht).
  apply Qmult_le_compat_r; [|discriminate].
  apply Qle_shift_div_r; [exact Hy2|].
  assert (H0 : 0 <= inject_Z a / inject_Z t1).
  { apply Qle_shift_div_l; [exact Hy1|]. rewrite Qmult_0_l. exact Hx. }
  assert (E : inject_Z a == inject_Z a / inject_Z t1 * inject_Z t1).
  { rewrite Qmult_comm. symmetry. apply Qmult_div_r.
    intros Hz. rewrite Hz in Hy1. discriminate. }
  rewrite E at 1. rewrite !(Qmult_comm (inject_Z a / inject_Z t1)).
  apply Qmult_le_compat_r; assumption.
Qed.

(** The percentage the code computes, as a rational number. *)
Lemma percent_value (a t : Z) :
  t <> 0%Z ->
  exists q : Qc,
    percent a t = Some q /\ (q : Q) == inject_Z a / inject_Z t * inject_Z 100.
Proof.
  intros Ht. unfold percent, true_div.
  destruct (Z.eqb_spec t 0) as [E|_]; [contradiction|]. simpl.
  eexists. split; [reflexivity|].
  unfold Qcmult, Qcdiv, Qcmult, Qcinv, Q2Qc. simpl.
  rewrite !Qred_correct. reflexivity.
Qed.

Lemma percent_undefined a : percent a 0 = None.
Proof. reflexivity. Qed.

End ShareFacts.

(** X14: the adult share of the dashboard. For a state whose two summed
    counts are not negative the share is undefined when both are zero and
    otherwise lies between 0 and 100; and the share [engineer_features]
    computes for the same state, which also divides by the 5-to-17 count,
    is never larger. *)
Theorem X14_adult_share_bounds
    (a0 a5 a18 state_bio state_demo : gmap cell Z) (k : cell)
    (r : Report.state_stat) (f : Report.feature) :
  Report.state_stats a0 a18 !! k = Some r ->
  Report.merged a0 a5 a18 state_bio state_demo !! k = Some f ->
  (0 <= Report.st_age_0_5 r)%Z ->
  (0 <= Report.st_age_18_greater r)%Z ->
  (0 <= Report.age_5_17 f)%Z ->
  ((Report.st_age_0_5 r + Report.st_age_18_greater r = 0)%Z ->
   Report.Adult_Share r = None)
  /\ ((0 < Report.st_age_0_5 r + Report.st_age_18_greater r)%Z ->
      exists q q',
        Report.Adult_Share r = Some q
        /\ Report.adult_share_pct f = Some q'
        /\ (0 <= q')%Qc /\ (q' <= q)%Qc /\ (q <= Q2Qc (inject_Z 100))%Qc).
Proof.
  unfold Report.state_stats, Report.merged. rewrite !map_lookup_imap.
  destruct (a0 !! k) as [x0|]; simpl; [|discriminate].
  intros [= <-] [= <-]. simpl. intros H0 H18 H5.
  set (x18 := default 0%Z (a18 !! k)) in *. set (x5 := default 0%Z (a5 !! k)) in *.
  split.
  - intros ->. reflexivity.
  - intros Hpos.
    destruct (ShareFacts.percent_value x18 (x0 + x18)) as (q & Hq & Eq); [lia|].
    destruct (ShareFacts.percent_value x18 (x0 + x5 + x18)) as (q' & Hq' & Eq'); [lia|].
    exists q, q'. split; [exact Hq|]. split; [exact Hq'|].
    unfold Qcle. simpl. rewrite Eq, Eq'.
    destruct (ShareFacts.Q_share_bounds x18 (x0 + x18)) as [_ Hb]; [lia..|].
    destruct (ShareFacts.Q_share_bounds x18 (x0 + x5 + x18)) as [Hb' _]; [lia..|].
    split; [exact Hb'|]. split; [|exact Hb].
    apply ShareFacts.Q_share_mono; lia.
Qed.

(** X14 at a state with 5 infant, 6 school-age and 7 adult enrolments:
    7/12 of 100 in the dashboard, 7/18 of 100 in the feature table. *)
Lemma X14_adult_share_witness :
  ((5 + 7 = 0)%Z -> Report.Adult_Share (Report.mkStat 5 7 (Report.percent 7 12)) = None)
  /\ ((0 < 5 + 7)%Z ->
      exists q q',
        Report.Adult_Share (Report.mkStat 5 7 (Report.percent 7 12)) = Some q
        /\ Report.adult_share_pct
             (Report.mkFeature 5 6 7 (Report.percent 7 18) None None None) = Some q'
        /\ (0 <= q')%Qc /\ (q' <= q)%Qc /\ (q <= Q2Qc (inject_Z 100))%Qc).
Proof.
  apply (X14_adult_share_bounds
           {[ Str "Goa" := 5%Z ]} {[ Str "Goa" := 6%Z ]} {[ Str "Goa" := 7%Z ]}
           ∅ ∅ (Str "Goa")
           (Report.mkStat 5 7 (Report.percent 7 12))
           (Report.mkFeature 5 6 7 (Report.percent 7 18) None None None));
    try reflexivity; simpl; lia.
Defined.

Module ForecastFacts.
Import Agg Report.

Lemma iloc_neg_app prefix t i :
  (1 <= i)%nat -> (i <= length t)%nat -> iloc_neg (prefix ++ t) i = iloc_neg t i.
Proof.
  intros H1 Hi. unfold iloc_neg. rewrite length_app.
  destruct (Nat.leb_spec i (length prefix + length t)) as [_|]; [|lia].
  destruct (Nat.leb_spec i (length t)) as [_|]; [|lia].
  rewrite lookup_app_r by lia. f_equal. lia.
Qed.

Lemma iloc_neg_short weekly i : (length weekly < i)%nat -> iloc_neg weekly i = None.
Proof.
  intros H. unfold iloc_neg. destruct (Nat.leb_spec i (length weekly)); [lia|reflexivity].
Qed.

Lemma last_4_avg_app prefix t :
  length t = 4%nat -> last_4_avg (prefix ++ t) = last_4_avg t.
Proof.
  intros Ht. unfold last_4_avg. rewrite length_app, Ht.
  replace (length prefix + 4 - 4)%nat with (length prefix) by lia.
  rewrite drop_app_length. reflexivity.
Qed.

(** Only the last four weeks enter the forecast. *)
Lemma forecast_app prefix t :
  length t = 4%nat -> q5_load_forecast (prefix ++ t) = q5_load_forecast t.
Proof.
  intros Ht. unfold q5_load_forecast.
  rewrite !iloc_neg_app by lia. rewrite last_4_avg_app by exact Ht. reflexivity.
Qed.

Lemma zero_growth x : x <> 0%Z -> true_div (x - x) x = Some 0%Qc.
Proof.
  intros Hx. unfold true_div. destruct (Z.eqb_spec x 0) as [E|_]; [contradiction|].
  f_equal. rewrite Z.sub_diag. unfold Qcdiv.
  change (Q2Qc (inject_Z 0)) with 0%Qc. apply Qcmult_0_l.
Qed.

Lemma future_val_flat a i : future_val (Some a) (Some 0%Qc) i = Some a.
Proof. unfold future_val. f_equal. ring. Qed.

Lemma fmap_const {A B : Type} (g : A -> B) (b : B) (l : list A) :
  (forall x, g x = b) -> g <$> l = replicate (length l) b.
Proof.
  intros H. induction l as [|x l IH]; [reflexivity|].
  rewrite fmap_cons, H, IH. reflexivity.
Qed.

End ForecastFacts.

(** X15: [q5_load_forecast] needs four weeks: on a weekly series of fewer
    than four weeks it raises an IndexError, and on a longer one it
    returns twelve values that depend on the last four weeks only. *)
Theorem X15_forecast_needs_four_weeks (weekly : list Z) :
  ((length weekly < 4)%nat -> Report.q5_load_forecast weekly = Report.IndexError)
  /\ ((4 <= length weekly)%nat ->
      exists future_vals,
        Report.q5_load_forecast weekly = Report.Forecast future_vals
        /\ length future_vals = 12%nat
        /\ Report.q5_load_forecast (drop (length weekly - 4) weekly)
           = Report.Forecast future_vals).
Proof.
  split.
  - intros H. unfold Report.q5_load_forecast.
    rewrite (ForecastFacts.iloc_neg_short weekly 4 H).
    destruct (Report.iloc_neg weekly 1); reflexivity.
  - intros H.
    set (t := drop (length weekly - 4) weekly).
    assert (Ht : length t = 4%nat) by (subst t; rewrite length_drop; lia).
    assert (E : Report.q5_load_forecast weekly = Report.q5_load_forecast t).
    { rewrite <- (ForecastFacts.forecast_app (take (length weekly - 4) weekly) t Ht).
      subst t. rewrite take_drop. reflexivity. }
    rewrite E. unfold Report.q5_load_forecast.
    destruct t as [|x4 [|x3 [|x2 [|x1 [|? ?]]]]]; try discriminate.
    cbn [Report.iloc_neg length Nat.leb Nat.sub lookup list_lookup].
    eexists. split; [reflexivity|]. split; [|reflexivity].
    rewrite length_fmap, length_seq. reflexivity.
Qed.

(** X15 on three weeks and on five. *)
Lemma X15_forecast_witness :
  Report.q5_load_forecast [100; 110; 120]%Z = Report.IndexError
  /\ exists future_vals,
       Report.q5_load_forecast [100; 110; 120; 130; 150]%Z = Report.Forecast future_vals
       /\ length future_vals = 12%nat
       /\ Report.q5_load_forecast (drop (5 - 4) [100; 110; 120; 130; 150]%Z)
          = Report.Forecast future_vals.
Proof.
  split.
  - apply (proj1 (X15_forecast_needs_four_weeks [100; 110; 120]%Z)). simpl. lia.
  - apply (proj2 (X15_forecast_needs_four_weeks [100; 110; 120; 130; 150]%Z)). simpl. lia.
Defined.

(** X16: the momentum of the forecast is the change from the week four
    back to the last week, relative to the week four back. When those two
    weeks have the same non-zero volume all twelve forecast values are the
    average of the last four weeks; when the week four back has zero
    volume the quotient is undefined and so is every forecast value. *)
Theorem X16_forecast_momentum (prefix : list Z) (x4 x3 x2 x1 : Z) :
  (x1 = x4 -> x4 <> 0%Z ->
   Report.q5_load_forecast (prefix ++ [x4; x3; x2; x1])
   = Report.Forecast (replicate 12 (Report.last_4_avg [x4; x3; x2; x1])))
  /\ (x4 = 0%Z ->
      Report.q5_load_forecast (prefix ++ [x4; x3; x2; x1])
      = Report.Forecast (replicate 12 None)).
Proof.
  rewrite ForecastFacts.forecast_app by reflexivity.
  unfold Report.q5_load_forecast.
  cbn [Report.iloc_neg length Nat.leb Nat.sub lookup list_lookup]. split.
  - intros -> Hx. rewrite (ForecastFacts.zero_growth x4 Hx). f_equal.
    rewrite (ForecastFacts.fmap_const _ (Report.last_4_avg [x4; x3; x2; x4]));
      [rewrite length_seq; reflexivity|].
    intros i. destruct (Report.last_4_avg [x4; x3; x2; x4]) as [a|]; [|reflexivity].
    apply ForecastFacts.future_val_flat.
  - intros ->. reflexivity.
Qed.

(** X16 on a flat month and on a month that starts at zero. *)
Lemma X16_forecast_momentum_witness :
  Report.q5_load_forecast ([90%Z] ++ [100; 120; 80; 100]%Z)%list
  = Report.Forecast (replicate 12 (Report.last_4_avg [100; 120; 80; 100]%Z))
  /\ Report.q5_load_forecast ([90%Z] ++ [0; 120; 80; 100]%Z)%list
     = Report.Forecast (replicate 12 None).
Proof.
  split.
  - apply (proj1 (X16_forecast_momentum [90%Z] 100 120 80 100)); [reflexivity|lia].
  - apply (proj2 (X16_forecast_momentum [90%Z] 0 120 80 100)). reflexivity.
Defined.

(** ** The ten largest districts ([detect_anomalies]) *)

Module SortFacts.
Import Report.

Lemma by_value_desc_trans : Transitive by_value_desc.
Proof. intros a b c. unfold by_value_desc. lia. Qed.

Lemma by_value_desc_total : Total by_value_desc.
Proof. intros a b. unfold by_value_desc. lia. Qed.

Lemma sort_values_desc_sorted m : StronglySorted by_value_desc (sort_values_desc m).
Proof.
  pose proof by_value_desc_trans. pose proof by_value_desc_total.
  apply StronglySorted_merge_sort; assumption.
Qed.

Lemma sort_values_desc_perm m : sort_values_desc m ≡ₚ map_to_list m.
Proof. apply merge_sort_Permutation. Qed.

Lemma elem_of_sort_values_desc m k v :
  (k, v) ∈ sort_values_desc m <-> m !! k = Some v.
Proof. rewrite sort_values_desc_perm. apply elem_of_map_to_list. Qed.

Lemma detect_anomalies_top_returns df top :
  detect_anomalies_top df = Ok top ->
  exists district_enrol,
    Agg.groupby_sum df "district" ["age_0_5"; "age_5_17"; "age_18_greater"]
    = Ok district_enrol
    /\ top = top_10 district_enrol.
Proof.
  unfold detect_anomalies_top.
  destruct (Agg.groupby_sum df "district" _) as [m|]; simpl; [|discriminate].
  intros [= <-]. eauto.
Qed.

End SortFacts.

(** X17: [detect_anomalies] of [temo.py] keeps the ten largest districts.
    Its [top_10] has ten rows, or as many as there are districts when
    there are fewer; no district appears twice; the rows are in descending
    order of their total; each row carries the district's total; and no
    district left out has a larger total than a district kept. The
    statement fixes nothing about the order of districts with equal
    totals. *)
Theorem X17_top_10_are_the_largest (df_enrol : DataFrame) (top : list (cell * Z)) :
  Report.detect_anomalies_top df_enrol = Ok top ->
  exists district_enrol,
    Agg.groupby_sum df_enrol "district" ["age_0_5"; "age_5_17"; "age_18_greater"]
    = Ok district_enrol
    /\ length top = Nat.min 10 (size district_enrol)
    /\ NoDup top.*1
    /\ StronglySorted (fun a b => (b.2 <= a.2)%Z) top
    /\ (forall k v, (k, v) ∈ top -> district_enrol !! k = Some v)
    /\ (forall k v k' v',
          (k, v) ∈ top -> district_enrol !! k' = Some v' -> (k', v') ∉ top ->
          (v' <= v)%Z).
Proof.
  intros H. destruct (SortFacts.detect_anomalies_top_returns _ _ H) as (m & Hm & ->).
  exists m. split; [exact Hm|]. unfold Report.top_10.
  pose proof (SortFacts.sort_values_desc_sorted m) as Hs.
  pose proof (SortFacts.sort_values_desc_perm m) as Hp.
  rewrite <- (take_drop 10 (Report.sort_values_desc m)) in Hs, Hp.
  split; [|split; [|split; [|split]]].
  - rewrite length_take, <- (length_map_to_list m), <- (SortFacts.sort_values_desc_perm m).
    lia.
  - assert (N : NoDup ((take 10 (Report.sort_values_desc m) ++ drop 10 (Report.sort_values_desc m))%list).*1).
    { rewrite Hp. apply NoDup_fst_map_to_list. }
    rewrite fmap_app in N. apply NoDup_app in N. apply N.
  - apply (StronglySorted_app_1_l _ _ _ Hs).
  - intros k v Hin. apply SortFacts.elem_of_sort_values_desc.
    exact (subseteq_take 10 _ _ Hin).
  - intros k v k' v' Hin Hl Hout.
    apply SortFacts.elem_of_sort_values_desc in Hl.
    rewrite <- (take_drop 10 (Report.sort_values_desc m)) in Hl.
    apply elem_of_app in Hl as [Hl|Hl]; [contradiction|].
    apply (StronglySorted_app_1_elem_of _ _ _ _ _ Hs Hin Hl).
Qed.

(** X17 on thirteen rows over twelve districts. *)
Lemma X17_top_10_witness :
  exists district_enrol,
    Agg.groupby_sum MoreSamples.enrol_districts "district"
      ["age_0_5"; "age_5_17"; "age_18_greater"] = Ok district_enrol
    /\ length MoreSamples.top_districts = Nat.min 10 (size district_enrol)
    /\ (forall k' v',
          district_enrol !! k' = Some v' ->
          (k', v') ∉ MoreSamples.top_districts -> (v' <= 2)%Z).
Proof.
  destruct (X17_top_10_are_the_largest MoreSamples.enrol_districts
              MoreSamples.top_districts)
    as (district_enrol & Hd & Hl & _ & _ & _ & Hout).
  - vm_compute. reflexivity.
  - exists district_enrol. split; [exact Hd|]. split; [exact Hl|].
    intros k' v'. apply (Hout (Str "Gaya") 2%Z).
    apply (list_elem_of_lookup_2 _ 9%nat). reflexivity.
Defined.

(** ** How many days a spike needs ([q4_load_volatility]) *)

Module SpikeFacts.
Import Anomaly.
Local Open Scope R_scope.

Lemma rsum_perm (l l' : list R) : l ≡ₚ l' -> rsum l = rsum l'.
Proof.
  induction 1; unfold rsum in *; cbn [foldr]; try lra.
Qed.

Lemma rsum_sq_nonneg (f : Z -> R) (l : list Z) :
  0 <= rsum ((fun x => f x * f x) <$> l).
Proof.
  induction l as [|x l IH]; unfold rsum in *; cbn [fmap list_fmap foldr]; [lra|].
  pose proof (Rle_0_sqr (f x)) as H. unfold Rsqr in H. lra.
Qed.

(** The squared distances of one number to the members of a list. *)
Lemma rsum_cross (f : Z -> R) (a : R) (l : list Z) :
  rsum ((fun x => (a - f x) * (a - f x)) <$> l)
  = INR (length l) * a * a - 2 * a * rsum (f <$> l)
    + rsum ((fun x => f x * f x) <$> l).
Proof.
  induction l as [|x l IH].
  - unfold rsum. simpl. lra.
  - rewrite !fmap_cons. cbn [length]. rewrite S_INR.
    unfold rsum in *. cbn [foldr]. rewrite IH. ring.
Qed.

(** The square of a sum is at most the length times the sum of squares. *)
Lemma sq_rsum_le (f : Z -> R) (l : list Z) :
  rsum (f <$> l) * rsum (f <$> l)
  <= INR (length l) * rsum ((fun x => f x * f x) <$> l).
Proof.
  induction l as [|x l IH].
  - unfold rsum. simpl. lra.
  - pose proof (rsum_cross f (f x) l) as C.
    pose proof (rsum_sq_nonneg (fun y => f x - f y) l) as P.
    cbn beta in P. rewrite C in P.
    rewrite !fmap_cons. cbn [length]. rewrite S_INR.
    unfold rsum in *. cbn [foldr]. nra.
Qed.

Lemma rsum_shift (f : Z -> R) (c : R) (l : list Z) :
  rsum ((fun x => f x - c) <$> l) = rsum (f <$> l) - INR (length l) * c.
Proof.
  induction l as [|x l IH].
  - unfold rsum. simpl. lra.
  - rewrite !fmap_cons. cbn [length]. rewrite S_INR.
    unfold rsum in *. cbn [foldr]. rewrite IH. ring.
Qed.

(** No member of a list lies further from the mean than the squared
    deviations of the others allow. *)
Lemma deviation_bound (l : list Z) (v : Z) :
  v ∈ l ->
  let n := INR (length l) in
  let mu := rsum (IZR <$> l) / n in
  n * ((IZR v - mu) * (IZR v - mu))
  <= (n - 1) * rsum ((fun x => (IZR x - mu) * (IZR x - mu)) <$> l).
Proof.
  intros Hin n mu.
  apply elem_of_Permutation in Hin as [l' Hp].
  assert (Hn : n = INR (length l') + 1).
  { subst n. rewrite Hp. cbn [length]. rewrite S_INR. reflexivity. }
  assert (Hpos : 0 < n).
  { rewrite Hn. pose proof (pos_INR (length l')). lra. }
  assert (Z0 : rsum ((fun x => IZR x - mu) <$> l) = 0).
  { rewrite rsum_shift. fold n. subst mu. field. lra. }
  rewrite (rsum_perm _ _ (fmap_Permutation _ _ _ Hp)) in Z0.
  rewrite (rsum_perm _ _ (fmap_Permutation _ _ _ Hp)).
  rewrite !fmap_cons in *.
  pose proof (sq_rsum_le (fun x => IZR x - mu) l') as CS.
  pose proof (rsum_sq_nonneg (fun x => IZR x - mu) l') as P.
  cbn beta in *.
  set (S' := rsum ((fun x => (IZR x - mu) * (IZR x - mu)) <$> l')) in *.
  set (T := rsum ((fun x => IZR x - mu) <$> l')) in *.
  set (d := IZR v - mu) in *.
  unfold rsum in Z0 |- *. cbn [foldr] in Z0 |- *. fold (rsum ((fun x => IZR x - mu) <$> l')) in Z0.
  fold T in Z0.
  change (foldr Rplus 0 ((fun x => (IZR x - mu) * (IZR x - mu)) <$> l')) with S'.
  rewrite Hn.
  assert (T = - d) by lra. subst T.
  set (k := INR (length l')) in *.
  assert (0 <= k) by apply pos_INR.
  nra.
Qed.

Lemma no_spike_below_six (l : list Z) (v : Z) :
  v ∈ l -> (length l < 6)%nat -> ~ exceeds (limit l) v.
Proof.
  intros Hin Hlen Hex.
  pose proof (deviation_bound l v Hin) as B. cbn zeta in B.
  unfold limit, mean, std in Hex.
  destruct l as [|x0 [|x1 l]]; [exact Hex|exact Hex|].
  set (l0 := x0 :: x1 :: l) in *.
  set (n := INR (length l0)) in *.
  set (mu := rsum (IZR <$> l0) / n) in *.
  set (S := rsum ((fun x => (IZR x - mu) * (IZR x - mu)) <$> l0)) in *.
  cbn [exceeds] in Hex.
  assert (Hn1 : 0 < n - 1).
  { subst n l0. cbn [length]. rewrite !S_INR. pose proof (pos_INR (length l)). lra. }
  assert (HS : 0 <= S) by apply (rsum_sq_nonneg (fun x => IZR x - mu)).
  assert (Hvar : 0 <= S / (n - 1)).
  { apply Rmult_le_pos; [exact HS|]. left. apply Rinv_0_lt_compat. exact Hn1. }
  apply (AnomalyFacts.above_two_sigma mu _ (IZR v) Hvar) in Hex as [Hmu Hd].
  set (d := IZR v - mu) in *.
  assert (Hd' : 4 * S < (n - 1) * (d * d)).
  { apply (Rmult_lt_compat_l (n - 1)) in Hd; [|exact Hn1].
    replace ((n - 1) * (4 * (S / (n - 1)))) with (4 * S) in Hd by (field; lra).
    exact Hd. }
  assert (Hdd : 0 < d * d) by (subst d; nra).
  assert (Hn : n = 2 \/ n = 3 \/ n = 4 \/ n = 5).
  { subst n l0. cbn [length] in *.
    destruct l as [|? [|? [|? [|? ?]]]]; cbn [length] in *; try lia;
      rewrite ?S_INR; simpl; lra. }
  destruct Hn as [-> | [-> | [-> | ->]]]; nra.
Qed.

End SpikeFacts.

(** X18: [q4_load_volatility] marks no day of a table of fewer than six
    days. A day is marked when its volume exceeds the mean by more than
    twice the sample standard deviation, and among [n] values none lies
    further from the mean than [(n - 1) / sqrt n] standard deviations,
    which is below two up to [n = 5]. *)
Theorem X18_spike_needs_six_days (daily_load : gmap cell Z) :
  (size daily_load < 6)%nat -> Anomaly.spikes daily_load = ∅.
Proof.
  intros Hsize. unfold Anomaly.spikes.
  apply map_empty. intros k.
  apply map_lookup_filter_None. right. intros v Hk Hex. cbn [snd] in Hex.
  apply (SpikeFacts.no_spike_below_six (Anomaly.daily_values daily_load) v).
  - unfold Anomaly.daily_values. apply list_elem_of_fmap. exists (k, v).
    split; [reflexivity|]. apply elem_of_map_to_list. exact Hk.
  - unfold Anomaly.daily_values. rewrite length_fmap, length_map_to_list. exact Hsize.
  - exact Hex.
Qed.

(** X18 on five days, the last a thousand times the others. *)
Lemma X18_spike_witness : Anomaly.spikes MoreSamples.five_days = ∅.
Proof.
  apply (X18_spike_needs_six_days MoreSamples.five_days). vm_compute. lia.
Defined.
